(** * Server-side OPC UA Subscription (lib/server/subscription.js)

    A shallow embedding of the Subscription object of node-opcua and the
    properties its specification states about it.

    Modelling conventions.
    - JavaScript numbers that the protocol carries as integers (counters,
      sequence numbers, intervals in milliseconds) are [Z]; a property that
      may be [undefined] is an [option].  [deadbandValue] is a rational.
    - A method of [Subscription] is a function from the subscription to an
      [outcome]: it returns a value and the mutated object, throws (the
      mutations made before the throw persist), or loops for ever.
    - What a method does to the outside world (timers, the registry of live
      subscriptions, event emission, monitored items being terminated) is
      recorded, in order, in the ghost field [effects].
    - The publish engine and the monitored items are injected objects whose
      classes live in other files: they are interfaces here ([PublishEngine],
      [MonitoredItemClass]).  Listeners registered on the subscription are
      assumed not to call back into it. *)

From Stdlib Require Import ZArith QArith Qminmax Bool List String Ascii Lia.
From stdpp Require Import base decidable option list gmap sorting.

Set Default Proof Using "Type".
Local Open Scope Z_scope.

(** ** JavaScript helpers *)

Module Js.

(** [x || d] for a numeric property: [undefined], [null] and [0] are falsy. *)
Definition or_default (x : option Z) (d : Z) : Z :=
  match x with
  | Some v => if v =? 0 then d else v
  | None => d
  end.

(** Truthiness of a numeric property. *)
Definition truthy (x : option Z) : bool :=
  match x with
  | Some v => negb (v =? 0)
  | None => false
  end.

(** [x >= 0] where [x] may be [undefined] ([undefined >= 0] is [false]). *)
Definition ge0 (x : option Z) : bool :=
  match x with
  | Some v => 0 <=? v
  | None => false
  end.

(** A JavaScript number as far as comparisons need it. *)
Inductive number :=
| Num (z : Z)
| NaN.

Definition is_digit (c : ascii) : bool :=
  let n := nat_of_ascii c in (48 <=? n)%nat && (n <=? 57)%nat.

Fixpoint digits_value (acc : Z) (s : string) : option Z :=
  match s with
  | EmptyString => Some acc
  | String c s' =>
      if is_digit c
      then digits_value (10 * acc + Z.of_nat (nat_of_ascii c - 48)) s'
      else None
  end.

(** [ToNumber] on strings, for the strings this file produces: the empty
    string is [0], a string of decimal digits is its value, any other
    string is [NaN]. *)
Definition string_to_number (s : string) : number :=
  match s with
  | EmptyString => Num 0
  | _ => match digits_value 0 s with
         | Some v => Num v
         | None => NaN
         end
  end.

(** [Array.prototype.join(",")] over the elements already converted to
    strings. *)
Fixpoint join_comma (l : list string) : string :=
  match l with
  | [] => EmptyString
  | [x] => x
  | x :: l' => (x ++ "," ++ join_comma l')%string
  end.

(** [String(o)] for a plain object. *)
Definition object_to_string : string := "[object Object]"%string.

(** [ToPrimitive] then [ToNumber] of an array of plain objects. *)
Definition array_of_objects_to_number {A} (arr : list A) : number :=
  string_to_number (join_comma (map (fun _ => object_to_string) arr)).

(** [n <= x]: any comparison with [NaN] is [false]. *)
Definition le_number (n : Z) (x : number) : bool :=
  match x with
  | Num v => n <=? v
  | NaN => false
  end.

End Js.

(** ** Status codes and enumerations *)

Inductive StatusCode :=
| Good
| BadNodeIdUnknown
| BadNodeIdInvalid
| BadAttributeIdInvalid
| BadIndexRangeInvalid
| BadDataEncodingInvalid
| BadDataEncodingUnsupported
| BadFilterNotAllowed
| BadDeadbandFilterInvalid
| BadMonitoredItemIdInvalid
| BadSequenceNumberUnknown
| BadTimeout.

#[global] Instance StatusCode_eq_dec : EqDecision StatusCode.
Proof. solve_decision. Defined.

Inductive SubscriptionState :=
| CLOSED
| CREATING
| NORMAL
| LATE
| KEEPALIVE
| TERMINATED.

#[global] Instance SubscriptionState_eq_dec : EqDecision SubscriptionState.
Proof. solve_decision. Defined.

Inductive AttributeId :=
| AttrValue
| AttrEventNotifier
| AttrMinimumSamplingInterval
| AttrINVALID
| AttrOther (n : Z).

#[global] Instance AttributeId_eq_dec : EqDecision AttributeId.
Proof. solve_decision. Defined.

Inductive MonitoringMode :=
| ModeInvalid
| ModeDisabled
| ModeSampling
| ModeReporting.

#[global] Instance MonitoringMode_eq_dec : EqDecision MonitoringMode.
Proof. solve_decision. Defined.

Inductive DeadbandType :=
| DeadbandNone
| DeadbandAbsolute
| DeadbandPercent.

#[global] Instance DeadbandType_eq_dec : EqDecision DeadbandType.
Proof. solve_decision. Defined.

Inductive TimestampsToReturn :=
| TsSource
| TsServer
| TsBoth
| TsNeither.

(** ** Publishing parameters (lines 47-80) *)

Definition minimumPublishingInterval : Z := 100.
Definition defaultPublishingInterval : Z := 100.
Definition maximumPublishingInterval : Z := 1000 * 60 * 60 * 24 * 30.

Definition _adjust_publishing_interval (publishingInterval : option Z) : Z :=
  let publishingInterval := Js.or_default publishingInterval defaultPublishingInterval in
  let publishingInterval := Z.max publishingInterval minimumPublishingInterval in
  let publishingInterval := Z.min publishingInterval maximumPublishingInterval in
  publishingInterval.

Definition minimumMaxKeepAliveCount : Z := 2.
Definition maximumMaxKeepAliveCount : Z := 12000.

Definition _adjust_maxKeepAliveCount (maxKeepAliveCount : option Z) : Z :=
  let maxKeepAliveCount := Js.or_default maxKeepAliveCount 10 in
  let maxKeepAliveCount := Z.max maxKeepAliveCount minimumMaxKeepAliveCount in
  let maxKeepAliveCount := Z.min maxKeepAliveCount maximumMaxKeepAliveCount in
  maxKeepAliveCount.

Definition _adjust_lifeTimeCount (lifeTimeCount : option Z) (maxKeepAliveCount : Z) : Z :=
  let lifeTimeCount := Js.or_default lifeTimeCount 1 in
  Z.max lifeTimeCount (maxKeepAliveCount * 3).

Definition _adjust_publishinEnable (publishingEnabled : option bool) : bool :=
  match publishingEnabled with
  | None => true
  | Some b => b
  end.

Definition _adjust_maxNotificationsPerPublish (maxNotificationsPerPublish : option Z) : Z :=
  if Js.ge0 maxNotificationsPerPublish
  then default 0 maxNotificationsPerPublish
  else 0.

(** ** Notifications *)

(** What a monitored item hands over: a data change
    ([MonitoredItemNotification]) or an event ([EventFieldList]). *)
Inductive ItemNotification :=
| MonitoredItemNotification (clientHandle : Z) (value : Z)
| EventFieldList (clientHandle : Z) (eventFields : list Z).

Definition is_MonitoredItemNotification (e : ItemNotification) : bool :=
  match e with
  | MonitoredItemNotification _ _ => true
  | EventFieldList _ _ => false
  end.

Definition is_EventFieldList (e : ItemNotification) : bool :=
  match e with
  | MonitoredItemNotification _ _ => false
  | EventFieldList _ _ => true
  end.

Inductive NotificationData :=
| DataChangeNotification (monitoredItems : list ItemNotification)
| EventNotificationList (events : list ItemNotification)
| StatusChangeNotification (statusCode : StatusCode).

(** [NotificationMessage]; the wall-clock [publishTime] is not modelled. *)
Record NotificationMessage := {
  msg_sequenceNumber : Z;
  notificationData : list NotificationData
}.

(** The object pushed on the pending queue by [addNotificationMessage]. *)
Record NotificationRecord := {
  notification : NotificationMessage;
  start_tick : Z;
  sequenceNumber : Z
}.

(** Modelled from the spec: lib/misc/sequence_number_generator is not part of
    the sources; [next] returns the counter and advances it, the first value
    is 1, [future] peeks. *)
Record SequenceNumberGenerator := { _counter : Z }.

Definition SequenceNumberGenerator_new : SequenceNumberGenerator := {| _counter := 1 |}.

Definition sng_next (g : SequenceNumberGenerator) : Z * SequenceNumberGenerator :=
  (_counter g, {| _counter := _counter g + 1 |}).

Definition sng_future (g : SequenceNumberGenerator) : Z := _counter g.

(** ** The publish engine (injected, see [_assert_valid_publish_engine]) *)

Inductive SubscriptionId :=
| Id (n : Z)
| InvalidId.

(** The argument of [send_notification_message]. *)
Record PublishMessage := {
  pm_subscriptionId : SubscriptionId;
  pm_sequenceNumber : Z;
  pm_notificationData : list NotificationData;
  pm_availableSequenceNumbers : list Z;
  pm_moreNotifications : bool
}.

Class PublishEngine (E : Type) := {
  pendingPublishRequestCount : E -> Z;
  send_notification_message : PublishMessage -> E -> E;
  send_keep_alive_response : SubscriptionId -> Z -> E -> bool * E;
  _on_tick : option (E -> E)
}.

(** ** The address space, as far as this file reads it *)

Definition NodeId := Z.

Inductive DataTypeRef :=
| DataTypeOfNodeId (n : NodeId)
| DataTypeOfName (name : string).

(** [node.__address_space]: data types and their hierarchy. *)
Record TypeSpace := {
  findDataType : DataTypeRef -> option NodeId;
  isSupertypeOf : NodeId -> option NodeId -> bool
}.

Record DataValue := {
  dv_statusCode : StatusCode;
  dv_value : Z
}.

Record Node := {
  is_UAVariable : bool;
  dataType : NodeId;
  __address_space : TypeSpace;
  minimumSamplingInterval : option Z;
  readAttribute : AttributeId -> DataValue
}.

Record AddressSpace := { findNode : NodeId -> option Node }.

(** ** Monitored item creation requests *)

(** Modelled from the spec: NumericRange is not part of the sources; an
    [indexRange] is well formed or malformed. *)
Inductive NumericRange :=
| WellFormedRange
| MalformedRange.

Definition isValid (r : NumericRange) : bool :=
  match r with
  | WellFormedRange => true
  | MalformedRange => false
  end.

Record DataEncoding := { de_name : option string }.

(** Truthiness of [dataEncoding.name]: a non-empty string. *)
Definition de_name_truthy (d : DataEncoding) : bool :=
  match de_name d with
  | Some EmptyString => false
  | Some _ => true
  | None => false
  end.

Record ReadValueId := {
  nodeId : NodeId;
  attributeId : AttributeId;
  indexRange : NumericRange;
  dataEncoding : DataEncoding
}.

Record EventFilter := { selectClauses : list Z }.

Record DataChangeFilter := {
  deadbandType : DeadbandType;
  deadbandValue : Q
}.

Inductive MonitoringFilter :=
| FilterEvent (f : EventFilter)
| FilterDataChange (f : DataChangeFilter)
| FilterAggregate.

Inductive FilterResult :=
| EventFilterResult (selectClauseResults : list StatusCode)
| AggregateFilterResult.

Record MonitoringParameters := {
  clientHandle : Z;
  samplingInterval : Z;
  filter : option MonitoringFilter;
  queueSize : Z;
  discardOldest : bool;
  rp_monitoredItemId : option Z;
  rp_itemToMonitor : option ReadValueId
}.

Record MonitoredItemCreateRequest := {
  itemToMonitor : ReadValueId;
  monitoringMode : MonitoringMode;
  requestedParameters : MonitoringParameters
}.

Record MonitoredItemCreateResult := {
  statusCode : StatusCode;
  monitoredItemId : Z;
  revisedSamplingInterval : Z;
  revisedQueueSize : Z;
  filterResult : option FilterResult
}.

(** ** Monitored items (lib/server/monitored_item, an interface here) *)

Class MonitoredItemClass (M : Type) := {
  MonitoredItem_new : MonitoringParameters -> M;
  MonitoredItem_minimumSamplingInterval : Z;
  MonitoredItem_maximumSamplingInterval : Z;
  mi_monitoredItemId : M -> Z;
  mi_clientHandle : M -> Z;
  mi_samplingInterval : M -> Z;
  mi_queueSize : M -> Z;
  mi_monitoringMode : M -> MonitoringMode;
  mi_has_samplingFunc : M -> bool;
  mi_set_timestampsToReturn : TimestampsToReturn -> M -> M;
  mi_set_node : Node -> M -> M;
  mi_setMonitoringMode : MonitoringMode -> M -> M;
  extractMonitoredItemNotifications : M -> list ItemNotification * M
}.

(** Free functions of other modules and the listener of the
    ["monitoredItem"] event, which receives the new item and may mutate it. *)
Class Collaborators (M : Type) := {
  is_valid_dataEncoding : DataEncoding -> bool;
  checkSelectClauses : Node -> list Z -> list StatusCode;
  on_monitoredItem : M -> ReadValueId -> M
}.

(** ** Effects, errors, outcomes *)

Inductive Event :=
| Ev_notification
| Ev_perform_update
| Ev_keepalive (future_sequence_number : Z)
| Ev_expired
| Ev_terminated
| Ev_monitoredItem (monitoredItemId : Z).

Inductive Effect :=
| ClearInterval
| SetInterval (period : Z)
| RegistryRegister
| RegistryUnregister
| Emit (e : Event)
| SetImmediateTick
| ConsoleLog
| ItemTerminated (key : Z).

Inductive Error :=
| AssertionError (msg : string)
| TypeError (msg : string).

Inductive outcome (S A : Type) :=
| Ret (a : A) (s : S)
| Throw (e : Error) (s : S)
| Diverge.

Arguments Ret {S A} a s.
Arguments Throw {S A} e s.
Arguments Diverge {S A}.

Definition ret {S A} (a : A) : S -> outcome S A := fun s => Ret a s.

Definition bind {S A B} (m : S -> outcome S A) (k : A -> S -> outcome S B)
  : S -> outcome S B :=
  fun s =>
    match m s with
    | Ret a s' => k a s'
    | Throw e s' => Throw e s'
    | Diverge => Diverge
    end.

Notation "'do' x <- c ; k" := (bind c (fun x => k))
  (at level 10, x name, c at level 100, k at level 200).

Definition gets {S A} (f : S -> A) : S -> outcome S A := fun s => Ret (f s) s.
Definition update {S} (f : S -> S) : S -> outcome S unit := fun s => Ret tt (f s).
Definition throw {S A} (e : Error) : S -> outcome S A := fun s => Throw e s.
Definition diverge {S A} : S -> outcome S A := fun _ => Diverge.

(** [assert(cond, msg)] of better-assert. *)
Definition assert {S} (cond : bool) (msg : string) : S -> outcome S unit :=
  if cond then ret tt else throw (AssertionError msg).

(** [arr.forEach(f)]. *)
Fixpoint forEach {S A} (f : A -> S -> outcome S unit) (arr : list A)
  : S -> outcome S unit :=
  match arr with
  | [] => ret tt
  | x :: arr' => do _ <- f x; forEach f arr'
  end.

(** ** The subscription object *)

Record SubscriptionDiagnostics := {
  modifyCount : Z;
  enableCount : Z;
  disableCount : Z;
  notificationsCount : Z;
  dataChangeNotificationsCount : Z;
  eventNotificationsCount : Z;
  publishRequestCount : Z
}.

(** [new SubscriptionDiagnostics({})]. *)
Definition SubscriptionDiagnostics_new : SubscriptionDiagnostics :=
  {| modifyCount := 0; enableCount := 0; disableCount := 0;
     notificationsCount := 0; dataChangeNotificationsCount := 0;
     eventNotificationsCount := 0; publishRequestCount := 0 |}.

(** The handle returned by [setInterval]; only its period is kept. *)
Record Timer := { period : Z }.

Record Subscription (E M : Type) := {
  publishEngine : E;
  subscriptionId : SubscriptionId;
  priority : option Z;
  publishingInterval : Z;
  maxKeepAliveCount : Z;
  _keep_alive_counter : Z;
  lifeTimeCount : Z;
  maxNotificationsPerPublish : option Z;
  _life_time_counter : Z;
  _pending_notifications : list NotificationRecord;
  _sent_notifications : list NotificationRecord;
  _sequence_number_generator : SequenceNumberGenerator;
  state : SubscriptionState;
  publishIntervalCount : Z;
  monitoredItems : gmap Z M;
  monitoredItemIdCounter : Z;
  publishingEnabled : bool;
  timerId : option Timer;
  subscriptionDiagnostics : SubscriptionDiagnostics;
  effects : list Effect
}.

Arguments publishEngine {E M} _.
Arguments subscriptionId {E M} _.
Arguments priority {E M} _.
Arguments publishingInterval {E M} _.
Arguments maxKeepAliveCount {E M} _.
Arguments _keep_alive_counter {E M} _.
Arguments lifeTimeCount {E M} _.
Arguments maxNotificationsPerPublish {E M} _.
Arguments _life_time_counter {E M} _.
Arguments _pending_notifications {E M} _.
Arguments _sent_notifications {E M} _.
Arguments _sequence_number_generator {E M} _.
Arguments state {E M} _.
Arguments publishIntervalCount {E M} _.
Arguments monitoredItems {E M} _.
Arguments monitoredItemIdCounter {E M} _.
Arguments publishingEnabled {E M} _.
Arguments timerId {E M} _.
Arguments subscriptionDiagnostics {E M} _.
Arguments effects {E M} _.
Arguments Build_Subscription {E M}.

(** Field assignment [self.f = v]. *)
Section Setters.
Context {E M : Type}.
Implicit Type s : Subscription E M.

Definition set_publishEngine v s : Subscription E M :=
  Build_Subscription v (subscriptionId s) (priority s)
    (publishingInterval s) (maxKeepAliveCount s) (_keep_alive_counter s)
    (lifeTimeCount s) (maxNotificationsPerPublish s) (_life_time_counter s)
    (_pending_notifications s) (_sent_notifications s)
    (_sequence_number_generator s) (state s) (publishIntervalCount s)
    (monitoredItems s) (monitoredItemIdCounter s) (publishingEnabled s)
    (timerId s) (subscriptionDiagnostics s) (effects s).

Definition set_subscriptionId v s : Subscription E M :=
  Build_Subscription (publishEngine s) v (priority s) (publishingInterval s)
    (maxKeepAliveCount s) (_keep_alive_counter s) (lifeTimeCount s)
    (maxNotificationsPerPublish s) (_life_time_counter s)
    (_pending_notifications s) (_sent_notifications s)
    (_sequence_number_generator s) (state s) (publishIntervalCount s)
    (monitoredItems s) (monitoredItemIdCounter s) (publishingEnabled s)
    (timerId s) (subscriptionDiagnostics s) (effects s).

Definition set_priority v s : Subscription E M :=
  Build_Subscription (publishEngine s) (subscriptionId s) v
    (publishingInterval s) (maxKeepAliveCount s) (_keep_alive_counter s)
    (lifeTimeCount s) (maxNotificationsPerPublish s) (_life_time_counter s)
    (_pending_notifications s) (_sent_notifications s)
    (_sequence_number_generator s) (state s) (publishIntervalCount s)
    (monitoredItems s) (monitoredItemIdCounter s) (publishingEnabled s)
    (timerId s) (subscriptionDiagnostics s) (effects s).

Definition set_publishingInterval v s : Subscription E M :=
  Build_Subscription (publishEngine s) (subscriptionId s) (priority s) v
    (maxKeepAliveCount s) (_keep_alive_counter s) (lifeTimeCount s)
    (maxNotificationsPerPublish s) (_life_time_counter s)
    (_pending_notifications s) (_sent_notifications s)
    (_sequence_number_generator s) (state s) (publishIntervalCount s)
    (monitoredItems s) (monitoredItemIdCounter s) (publishingEnabled s)
    (timerId s) (subscriptionDiagnostics s) (effects s).

Definition set_maxKeepAliveCount v s : Subscription E M :=
  Build_Subscription (publishEngine s) (subscriptionId s) (priority s)
    (publishingInterval s) v (_keep_alive_counter s) (lifeTimeCount s)
    (maxNotificationsPerPublish s) (_life_time_counter s)
    (_pending_notifications s) (_sent_notifications s)
    (_sequence_number_generator s) (state s) (publishIntervalCount s)
    (monitoredItems s) (monitoredItemIdCounter s) (publishingEnabled s)
    (timerId s) (subscriptionDiagnostics s) (effects s).

Definition set_keep_alive_counter v s : Subscription E M :=
  Build_Subscription (publishEngine s) (subscriptionId s) (priority s)
    (publishingInterval s) (maxKeepAliveCount s) v (lifeTimeCount s)
    (maxNotificationsPerPublish s) (_life_time_counter s)
    (_pending_notifications s) (_sent_notifications s)
    (_sequence_number_generator s) (state s) (publishIntervalCount s)
    (monitoredItems s) (monitoredItemIdCounter s) (publishingEnabled s)
    (timerId s) (subscriptionDiagnostics s) (effects s).

Definition set_lifeTimeCount v s : Subscription E M :=
  Build_Subscription (publishEngine s) (subscriptionId s) (priority s)
    (publishingInterval s) (maxKeepAliveCount s) (_keep_alive_counter s) v
    (maxNotificationsPerPublish s) (_life_time_counter s)
    (_pending_notifications s) (_sent_notifications s)
    (_sequence_number_generator s) (state s) (publishIntervalCount s)
    (monitoredItems s) (monitoredItemIdCounter s) (publishingEnabled s)
    (timerId s) (subscriptionDiagnostics s) (effects s).

Definition set_maxNotificationsPerPublish v s : Subscription E M :=
  Build_Subscription (publishEngine s) (subscriptionId s) (priority s)
    (publishingInterval s) (maxKeepAliveCount s) (_keep_alive_counter s)
    (lifeTimeCount s) v (_life_time_counter s) (_pending_notifications s)
    (_sent_notifications s) (_sequence_number_generator s) (state s)
    (publishIntervalCount s) (monitoredItems s) (monitoredItemIdCounter s)
    (publishingEnabled s) (timerId s) (subscriptionDiagnostics s)
    (effects s).

Definition set_life_time_counter v s : Subscription E M :=
  Build_Subscription (publishEngine s) (subscriptionId s) (priority s)
    (publishingInterval s) (maxKeepAliveCount s) (_keep_alive_counter s)
    (lifeTimeCount s) (maxNotificationsPerPublish s) v
    (_pending_notifications s) (_sent_notifications s)
    (_sequence_number_generator s) (state s) (publishIntervalCount s)
    (monitoredItems s) (monitoredItemIdCounter s) (publishingEnabled s)
    (timerId s) (subscriptionDiagnostics s) (effects s).

Definition set_pending_notifications v s : Subscription E M :=
  Build_Subscription (publishEngine s) (subscriptionId s) (priority s)
    (publishingInterval s) (maxKeepAliveCount s) (_keep_alive_counter s)
    (lifeTimeCount s) (maxNotificationsPerPublish s) (_life_time_counter s)
    v (_sent_notifications s) (_sequence_number_generator s) (state s)
    (publishIntervalCount s) (monitoredItems s) (monitoredItemIdCounter s)
    (publishingEnabled s) (timerId s) (subscriptionDiagnostics s)
    (effects s).

Definition set_sent_notifications v s : Subscription E M :=
  Build_Subscription (publishEngine s) (subscriptionId s) (priority s)
    (publishingInterval s) (maxKeepAliveCount s) (_keep_alive_counter s)
    (lifeTimeCount s) (maxNotificationsPerPublish s) (_life_time_counter s)
    (_pending_notifications s) v (_sequence_number_generator s) (state s)
    (publishIntervalCount s) (monitoredItems s) (monitoredItemIdCounter s)
    (publishingEnabled s) (timerId s) (subscriptionDiagnostics s)
    (effects s).

Definition set_sequence_number_generator v s : Subscription E M :=
  Build_Subscription (publishEngine s) (subscriptionId s) (priority s)
    (publishingInterval s) (maxKeepAliveCount s) (_keep_alive_counter s)
    (lifeTimeCount s) (maxNotificationsPerPublish s) (_life_time_counter s)
    (_pending_notifications s) (_sent_notifications s) v (state s)
    (publishIntervalCount s) (monitoredItems s) (monitoredItemIdCounter s)
    (publishingEnabled s) (timerId s) (subscriptionDiagnostics s)
    (effects s).

Definition set_state v s : Subscription E M :=
  Build_Subscription (publishEngine s) (subscriptionId s) (priority s)
    (publishingInterval s) (maxKeepAliveCount s) (_keep_alive_counter s)
    (lifeTimeCount s) (maxNotificationsPerPublish s) (_life_time_counter s)
    (_pending_notifications s) (_sent_notifications s)
    (_sequence_number_generator s) v (publishIntervalCount s)
    (monitoredItems s) (monitoredItemIdCounter s) (publishingEnabled s)
    (timerId s) (subscriptionDiagnostics s) (effects s).

Definition set_publishIntervalCount v s : Subscription E M :=
  Build_Subscription (publishEngine s) (subscriptionId s) (priority s)
    (publishingInterval s) (maxKeepAliveCount s) (_keep_alive_counter s)
    (lifeTimeCount s) (maxNotificationsPerPublish s) (_life_time_counter s)
    (_pending_notifications s) (_sent_notifications s)
    (_sequence_number_generator s) (state s) v (monitoredItems s)
    (monitoredItemIdCounter s) (publishingEnabled s) (timerId s)
    (subscriptionDiagnostics s) (effects s).

Definition set_monitoredItems v s : Subscription E M :=
  Build_Subscription (publishEngine s) (subscriptionId s) (priority s)
    (publishingInterval s) (maxKeepAliveCount s) (_keep_alive_counter s)
    (lifeTimeCount s) (maxNotificationsPerPublish s) (_life_time_counter s)
    (_pending_notifications s) (_sent_notifications s)
    (_sequence_number_generator s) (state s) (publishIntervalCount s) v
    (monitoredItemIdCounter s) (publishingEnabled s) (timerId s)
    (subscriptionDiagnostics s) (effects s).

Definition set_monitoredItemIdCounter v s : Subscription E M :=
  Build_Subscription (publishEngine s) (subscriptionId s) (priority s)
    (publishingInterval s) (maxKeepAliveCount s) (_keep_alive_counter s)
    (lifeTimeCount s) (maxNotificationsPerPublish s) (_life_time_counter s)
    (_pending_notifications s) (_sent_notifications s)
    (_sequence_number_generator s) (state s) (publishIntervalCount s)
    (monitoredItems s) v (publishingEnabled s) (timerId s)
    (subscriptionDiagnostics s) (effects s).

Definition set_publishingEnabled v s : Subscription E M :=
  Build_Subscription (publishEngine s) (subscriptionId s) (priority s)
    (publishingInterval s) (maxKeepAliveCount s) (_keep_alive_counter s)
    (lifeTimeCount s) (maxNotificationsPerPublish s) (_life_time_counter s)
    (_pending_notifications s) (_sent_notifications s)
    (_sequence_number_generator s) (state s) (publishIntervalCount s)
    (monitoredItems s) (monitoredItemIdCounter s) v (timerId s)
    (subscriptionDiagnostics s) (effects s).

Definition set_timerId v s : Subscription E M :=
  Build_Subscription (publishEngine s) (subscriptionId s) (priority s)
    (publishingInterval s) (maxKeepAliveCount s) (_keep_alive_counter s)
    (lifeTimeCount s) (maxNotificationsPerPublish s) (_life_time_counter s)
    (_pending_notifications s) (_sent_notifications s)
    (_sequence_number_generator s) (state s) (publishIntervalCount s)
    (monitoredItems s) (monitoredItemIdCounter s) (publishingEnabled s) v
    (subscriptionDiagnostics s) (effects s).

Definition set_subscriptionDiagnostics v s : Subscription E M :=
  Build_Subscription (publishEngine s) (subscriptionId s) (priority s)
    (publishingInterval s) (maxKeepAliveCount s) (_keep_alive_counter s)
    (lifeTimeCount s) (maxNotificationsPerPublish s) (_life_time_counter s)
    (_pending_notifications s) (_sent_notifications s)
    (_sequence_number_generator s) (state s) (publishIntervalCount s)
    (monitoredItems s) (monitoredItemIdCounter s) (publishingEnabled s)
    (timerId s) v (effects s).

Definition set_effects v s : Subscription E M :=
  Build_Subscription (publishEngine s) (subscriptionId s) (priority s)
    (publishingInterval s) (maxKeepAliveCount s) (_keep_alive_counter s)
    (lifeTimeCount s) (maxNotificationsPerPublish s) (_life_time_counter s)
    (_pending_notifications s) (_sent_notifications s)
    (_sequence_number_generator s) (state s) (publishIntervalCount s)
    (monitoredItems s) (monitoredItemIdCounter s) (publishingEnabled s)
    (timerId s) (subscriptionDiagnostics s) v.

End Setters.

Arguments assert {S} cond msg%_string.

(** [_.find(arr, cb)] where [cb] records the index of a match and returns
    [undefined]: every element is visited, the last match wins
    (acknowledgeNotification, lines 857-862). *)
Fixpoint find_recording_index (sequenceNumber0 : Z) (arr : list NotificationRecord)
    (index : nat) (foundIndex : option nat) : option nat :=
  match arr with
  | [] => foundIndex
  | e :: arr' =>
      find_recording_index sequenceNumber0 arr' (S index)
        (if sequenceNumber e =? sequenceNumber0 then Some index else foundIndex)
  end.

(** [_.find(arr, filter_func)]: the first match. *)
Fixpoint find_record (sequenceNumber0 : Z) (arr : list NotificationRecord)
    : option NotificationRecord :=
  match arr with
  | [] => None
  | e :: arr' =>
      if sequenceNumber e =? sequenceNumber0 then Some e
      else find_record sequenceNumber0 arr'
  end.

Definition getSequenceNumbers (arr : list NotificationRecord) : list Z :=
  map (fun e => msg_sequenceNumber (notification e)) arr.

Definition maxNotificationMessagesInQueue : Z := 100.

(** [extract_notifications_chunk] (lines 1338-1349): the chunk and what is
    left of the queue; [None] when [while (n)] never ends, which is the case
    of a negative [n].  With [maxNotificationsPerPublish] undefined,
    [Math.min] gives [NaN] and the loop body never runs. *)
Definition extract_notifications_chunk (all_notifications : list ItemNotification)
    (maxNotificationsPerPublish0 : option Z)
    : option (list ItemNotification * list ItemNotification) :=
  match maxNotificationsPerPublish0 with
  | None => Some ([], all_notifications)
  | Some m =>
      let n := if m =? 0 then Z.of_nat (length all_notifications)
               else Z.min (Z.of_nat (length all_notifications)) m in
      if n <? 0 then None
      else Some (take (Z.to_nat n) all_notifications,
                 drop (Z.to_nat n) all_notifications)
  end.

(** The messages built from one chunk (lines 1366-1390). *)
Definition notifications_of_chunk (notifications_chunk : list ItemNotification)
    : list NotificationData :=
  let dataChangedNotificationData :=
    List.filter is_MonitoredItemNotification notifications_chunk in
  let eventNotificationListData :=
    List.filter is_EventFieldList notifications_chunk in
  (match dataChangedNotificationData with
   | [] => []
   | _ => [DataChangeNotification dataChangedNotificationData]
   end) ++
  (match eventNotificationListData with
   | [] => []
   | _ => [EventNotificationList eventNotificationListData]
   end).

(** Constructor options and [modify] parameters. *)
Record SubscriptionOptions (E : Type) := {
  opt_publishEngine : E;
  opt_id : option Z;
  opt_priority : option Z;
  opt_publishingInterval : option Z;
  opt_maxKeepAliveCount : option Z;
  opt_lifeTimeCount : option Z;
  opt_maxNotificationsPerPublish : option Z;
  opt_publishingEnabled : option bool
}.

Arguments opt_publishEngine {E} _.
Arguments opt_id {E} _.
Arguments opt_priority {E} _.
Arguments opt_publishingInterval {E} _.
Arguments opt_maxKeepAliveCount {E} _.
Arguments opt_lifeTimeCount {E} _.
Arguments opt_maxNotificationsPerPublish {E} _.
Arguments opt_publishingEnabled {E} _.

Record ModifyParams := {
  requestedPublishingInterval : option Z;
  requestedLifetimeCount : option Z;
  requestedMaxKeepAliveCount : option Z;
  mp_maxNotificationsPerPublish : option Z;
  mp_priority : option Z
}.

Definition set_modifyCount (v : Z) (d : SubscriptionDiagnostics) : SubscriptionDiagnostics :=
  {| modifyCount := v; enableCount := enableCount d; disableCount := disableCount d;
     notificationsCount := notificationsCount d;
     dataChangeNotificationsCount := dataChangeNotificationsCount d;
     eventNotificationsCount := eventNotificationsCount d;
     publishRequestCount := publishRequestCount d |}.

Definition set_enableCount (v : Z) (d : SubscriptionDiagnostics) : SubscriptionDiagnostics :=
  {| modifyCount := modifyCount d; enableCount := v; disableCount := disableCount d;
     notificationsCount := notificationsCount d;
     dataChangeNotificationsCount := dataChangeNotificationsCount d;
     eventNotificationsCount := eventNotificationsCount d;
     publishRequestCount := publishRequestCount d |}.

Definition set_disableCount (v : Z) (d : SubscriptionDiagnostics) : SubscriptionDiagnostics :=
  {| modifyCount := modifyCount d; enableCount := enableCount d; disableCount := v;
     notificationsCount := notificationsCount d;
     dataChangeNotificationsCount := dataChangeNotificationsCount d;
     eventNotificationsCount := eventNotificationsCount d;
     publishRequestCount := publishRequestCount d |}.

Definition set_notificationsCount (v : Z) (d : SubscriptionDiagnostics) : SubscriptionDiagnostics :=
  {| modifyCount := modifyCount d; enableCount := enableCount d;
     disableCount := disableCount d; notificationsCount := v;
     dataChangeNotificationsCount := dataChangeNotificationsCount d;
     eventNotificationsCount := eventNotificationsCount d;
     publishRequestCount := publishRequestCount d |}.

Definition set_publishRequestCount (v : Z) (d : SubscriptionDiagnostics) : SubscriptionDiagnostics :=
  {| modifyCount := modifyCount d; enableCount := enableCount d;
     disableCount := disableCount d; notificationsCount := notificationsCount d;
     dataChangeNotificationsCount := dataChangeNotificationsCount d;
     eventNotificationsCount := eventNotificationsCount d;
     publishRequestCount := v |}.

(** [handle_error] of createMonitoredItem: only the status code is given,
    the other fields keep the defaults of the schema. *)
Definition handle_error (statusCode0 : StatusCode) : MonitoredItemCreateResult :=
  {| statusCode := statusCode0; monitoredItemId := 0; revisedSamplingInterval := 0;
     revisedQueueSize := 0; filterResult := None |}.

(** The [result] object filled by getMonitoredItems. *)
Record MonitoredItemsResult := {
  serverHandles : list Z;
  clientHandles : list Z;
  mir_statusCode : StatusCode
}.

(** ** Methods of [Subscription] *)

Section Methods.

Context {E M : Type}.
Context `{!PublishEngine E} `{!MonitoredItemClass M} `{!Collaborators M}.

Abbreviation Sub := (Subscription E M).
Abbreviation Method A := (Sub -> outcome Sub A).

Definition log (e : Effect) : Method unit :=
  update (fun s => set_effects (effects s ++ [e]) s).

Definition emit (e : Event) : Method unit := log (Emit e).

(** [Object.keys(self.monitoredItems)]: integer keys come in ascending
    order. *)
Definition Object_keys (o : gmap Z M) : list Z :=
  merge_sort Z.le (elements (dom o)).

(** *** Timer (lines 309-344) *)

Definition _stop_timer : Method unit :=
  do t <- gets timerId;
  match t with
  | Some _ =>
      do _ <- log ClearInterval;
      do _ <- update (set_timerId None);
      log RegistryUnregister
  | None => ret tt
  end.

Definition _start_timer : Method unit :=
  do t <- gets timerId;
  do _ <- assert (match t with None => true | Some _ => false end)
            "self.timerId === null";
  do _ <- update (set_state NORMAL);
  do _ <- update (fun s => set_keep_alive_counter (maxKeepAliveCount s) s);
  do p <- gets publishingInterval;
  do _ <- assert (0 <? p) "self.publishingInterval > 0";
  do _ <- log (SetInterval p);
  do _ <- update (set_timerId (Some {| period := p |}));
  log RegistryRegister.

(** *** Counters (lines 576-662) *)

Definition resetKeepAliveCounter : Method unit :=
  update (set_keep_alive_counter 0).

Definition increaseKeepAliveCounter : Method unit :=
  update (fun s => set_keep_alive_counter (_keep_alive_counter s + 1) s).

Definition keepAliveCounterHasExpired : Method bool :=
  gets (fun s => maxKeepAliveCount s <=? _keep_alive_counter s).

Definition resetLifeTimeCounter : Method unit :=
  update (set_life_time_counter 0).

Definition increaseLifeTimeCounter : Method unit :=
  update (fun s => set_life_time_counter (_life_time_counter s + 1) s).

Definition lifeTimeHasExpired : Method bool :=
  do l <- gets lifeTimeCount;
  do _ <- assert (0 <? l) "self.lifeTimeCount > 0";
  gets (fun s => lifeTimeCount s <=? _life_time_counter s).

Definition resetLifeTimeAndKeepAliveCounters : Method unit :=
  do _ <- resetLifeTimeCounter;
  resetKeepAliveCounter.

(** *** Constructor (lines 156-252) *)

Definition Subscription_new (options : SubscriptionOptions E) : outcome Sub unit :=
  let maxKeepAliveCount0 := _adjust_maxKeepAliveCount (opt_maxKeepAliveCount options) in
  let self :=
    {| publishEngine := opt_publishEngine options;
       subscriptionId :=
         (if Js.truthy (opt_id options) then Id (default 0 (opt_id options))
          else InvalidId);
       priority := Some (Js.or_default (opt_priority options) 0);
       publishingInterval :=
         _adjust_publishing_interval (opt_publishingInterval options);
       maxKeepAliveCount := maxKeepAliveCount0;
       _keep_alive_counter := 0;
       lifeTimeCount :=
         _adjust_lifeTimeCount (opt_lifeTimeCount options) maxKeepAliveCount0;
       maxNotificationsPerPublish :=
         Some (_adjust_maxNotificationsPerPublish
                 (opt_maxNotificationsPerPublish options));
       _life_time_counter := 0;
       _pending_notifications := [];
       _sent_notifications := [];
       _sequence_number_generator := SequenceNumberGenerator_new;
       state := CREATING;
       publishIntervalCount := 0;
       monitoredItems := ∅;
       monitoredItemIdCounter := 0;
       publishingEnabled := _adjust_publishinEnable (opt_publishingEnabled options);
       timerId := None;
       subscriptionDiagnostics := SubscriptionDiagnostics_new;
       effects := [] |} in
  _start_timer self.

(** *** modify (lines 280-307); the mutated [param] is returned. *)

Definition modify (param : ModifyParams) : Method ModifyParams :=
  do _ <- update (fun s =>
            set_subscriptionDiagnostics
              (set_modifyCount (modifyCount (subscriptionDiagnostics s) + 1)
                 (subscriptionDiagnostics s)) s);
  do publishingInterval_old <- gets publishingInterval;
  do maxKeepAliveCount0 <- gets maxKeepAliveCount;
  do lifeTimeCount0 <- gets lifeTimeCount;
  let param :=
    {| requestedPublishingInterval :=
         Some (Js.or_default (requestedPublishingInterval param) 0);
       requestedMaxKeepAliveCount :=
         Some (Js.or_default (requestedMaxKeepAliveCount param) maxKeepAliveCount0);
       requestedLifetimeCount :=
         Some (Js.or_default (requestedLifetimeCount param) lifeTimeCount0);
       mp_maxNotificationsPerPublish := mp_maxNotificationsPerPublish param;
       mp_priority := mp_priority param |} in
  do _ <- update (set_publishingInterval
            (_adjust_publishing_interval (requestedPublishingInterval param)));
  do _ <- update (set_maxKeepAliveCount
            (_adjust_maxKeepAliveCount (requestedMaxKeepAliveCount param)));
  do _ <- update (fun s =>
            set_lifeTimeCount
              (_adjust_lifeTimeCount (requestedLifetimeCount param)
                 (maxKeepAliveCount s)) s);
  do _ <- update (set_maxNotificationsPerPublish (mp_maxNotificationsPerPublish param));
  do _ <- update (set_priority (mp_priority param));
  do _ <- resetLifeTimeAndKeepAliveCounters;
  do _ <- _stop_timer;
  do _ <- _start_timer;
  ret param.

Definition setPublishingMode (publishingEnabled0 : bool) : Method StatusCode :=
  do _ <- update (set_publishingEnabled publishingEnabled0);
  do _ <- update (fun s =>
            let d := subscriptionDiagnostics s in
            set_subscriptionDiagnostics
              (if publishingEnabled s
               then set_enableCount (enableCount d + 1) d
               else set_disableCount (disableCount d + 1) d) s);
  ret Good.

(** *** Sequence numbers and queues (lines 346-354, 716-899) *)

Definition _get_next_sequence_number : Method Z :=
  do g <- gets _sequence_number_generator;
  do _ <- update (set_sequence_number_generator (snd (sng_next g)));
  ret (fst (sng_next g)).

Definition _get_future_sequence_number : Method Z :=
  gets (fun s => sng_future (_sequence_number_generator s)).

Definition pendingNotificationsCount : Method Z :=
  gets (fun s => Z.of_nat (length (_pending_notifications s))).

Definition hasPendingNotifications : Method bool :=
  do n <- pendingNotificationsCount;
  ret (0 <? n).

Definition sentNotificationsCount : Method Z :=
  gets (fun s => Z.of_nat (length (_sent_notifications s))).

Definition monitoredItemCount : Method Z :=
  gets (fun s => Z.of_nat (length (Object_keys (monitoredItems s)))).

Definition addNotificationMessage (notificationData0 : list NotificationData)
    : Method unit :=
  do _ <- assert ((length notificationData0 =? 1)%nat
                  || (length notificationData0 =? 2)%nat)
            "notificationData.length === 1 || notificationData.length === 2";
  do sequenceNumber0 <- _get_next_sequence_number;
  let notification_message :=
    {| msg_sequenceNumber := sequenceNumber0;
       notificationData := notificationData0 |} in
  update (fun s =>
    set_pending_notifications
      (_pending_notifications s ++
         [{| notification := notification_message;
             start_tick := publishIntervalCount s;
             sequenceNumber := msg_sequenceNumber notification_message |}]) s).

Definition getMessageForSequenceNumber (sequenceNumber0 : Z)
    : Method (option NotificationRecord) :=
  do sent <- gets _sent_notifications;
  match find_record sequenceNumber0 sent with
  | None => ret None
  | Some notification_message =>
      do _ <- resetLifeTimeAndKeepAliveCounters;
      ret (Some notification_message)
  end.

Definition popNotificationToSend : Method NotificationRecord :=
  do pending <- gets _pending_notifications;
  match pending with
  | [] => throw (AssertionError "self.hasPendingNotifications")
  | notification_message :: rest =>
      do _ <- update (set_pending_notifications rest);
      do _ <- update (fun s =>
                set_sent_notifications
                  (_sent_notifications s ++ [notification_message]) s);
      do _ <- resetLifeTimeAndKeepAliveCounters;
      ret notification_message
  end.

Definition notificationHasExpired (n : NotificationRecord) : Method bool :=
  gets (fun s => start_tick n + maxKeepAliveCount s <? publishIntervalCount s).

(** Lines 806-827.  The guard compares the number 100 with the array
    itself; were it true, the array would be called as a function. *)
Definition discardOldSentNotifications : Method unit :=
  do sent <- gets _sent_notifications;
  if Js.le_number maxNotificationMessagesInQueue
       (Js.array_of_objects_to_number sent)
  then throw (TypeError "self._sent_notifications is not a function")
  else ret tt.

Definition getAvailableSequenceNumbers : Method (list Z) :=
  do availableSequenceNumbers <- gets (fun s => getSequenceNumbers (_sent_notifications s));
  do pendingSequenceNumbers <- gets (fun s => getSequenceNumbers (_pending_notifications s));
  ret ([] ++ availableSequenceNumbers ++ pendingSequenceNumbers).

Definition acknowledgeNotification (sequenceNumber0 : Z) : Method StatusCode :=
  do sent <- gets _sent_notifications;
  match find_recording_index sequenceNumber0 sent 0 None with
  | None => ret BadSequenceNumberUnknown
  | Some foundIndex =>
      do _ <- update (fun s =>
                set_sent_notifications (delete foundIndex (_sent_notifications s)) s);
      ret Good
  end.

(** *** Monitored items (lines 1240-1310) *)

Definition getMonitoredItem (monitoredItemId0 : Z) : Method (option M) :=
  gets (fun s => monitoredItems s !! monitoredItemId0).

Definition removeMonitoredItem (monitoredItemId0 : Z) : Method StatusCode :=
  do item <- getMonitoredItem monitoredItemId0;
  match item with
  | None => ret BadMonitoredItemIdInvalid
  | Some monitoredItem =>
      do _ <- log (ItemTerminated monitoredItemId0);
      do _ <- update (fun s =>
                set_monitoredItems (delete monitoredItemId0 (monitoredItems s)) s);
      ret Good
  end.

(** *** terminate (lines 671-706) *)

Definition terminate : Method unit :=
  do st <- gets state;
  if decide (st = CLOSED) then ret tt
  else
    do _ <- _stop_timer;
    do keys <- gets (fun s => Object_keys (monitoredItems s));
    do _ <- forEach (fun key =>
              do status <- removeMonitoredItem key;
              assert (bool_decide (status = Good)) "status === StatusCodes.Good")
            keys;
    do n <- monitoredItemCount;
    do _ <- assert (n =? 0) "self.monitoredItemCount === 0";
    do _ <- addNotificationMessage [StatusChangeNotification BadTimeout];
    do _ <- update (set_state CLOSED);
    emit Ev_terminated.

(** *** Notification assembly (lines 1317-1417) *)

(** The [keys.forEach] of collectNotificationData: each item is drained
    and keeps what [extractMonitoredItemNotifications] left in it. *)
Fixpoint drain_items (keys : list Z) (all_notifications : list ItemNotification)
    : Method (list ItemNotification) :=
  match keys with
  | [] => ret all_notifications
  | key :: keys' =>
      do item <- getMonitoredItem key;
      match item with
      | None => throw (TypeError "monitoredItem is undefined")
      | Some monitoredItem =>
          let (notifications, monitoredItem') :=
            extractMonitoredItemNotifications monitoredItem in
          do _ <- update (fun s =>
                    set_monitoredItems (<[key := monitoredItem']> (monitoredItems s)) s);
          drain_items keys' (all_notifications ++ notifications)
      end
  end.

(** [while (all_notifications.length > 0)]: every turn that neither throws
    nor hangs removes at least one element, so [length all_notifications]
    turns are enough and the last branch is never taken with that fuel. *)
Fixpoint chunk_loop (fuel : nat) (all_notifications : list ItemNotification)
    (notificationsMessage : list (list NotificationData))
    : Method (list (list NotificationData)) :=
  match all_notifications with
  | [] => ret notificationsMessage
  | _ :: _ =>
      match fuel with
      | O => diverge
      | S fuel' =>
          do m <- gets maxNotificationsPerPublish;
          match extract_notifications_chunk all_notifications m with
          | None => diverge
          | Some (notifications_chunk, rest) =>
              let notifications := notifications_of_chunk notifications_chunk in
              do _ <- assert ((length notifications =? 1)%nat
                              || (length notifications =? 2)%nat)
                        "notifications.length === 1 || notifications.length === 2";
              chunk_loop fuel' rest (notificationsMessage ++ [notifications])
          end
      end
  end.

Definition collectNotificationData : Method (list (list NotificationData)) :=
  do keys <- gets (fun s => Object_keys (monitoredItems s));
  do all_notifications <- drain_items keys [];
  chunk_loop (length all_notifications) all_notifications [].

Definition prepareNotification : Method unit :=
  do n <- gets (fun s => pendingPublishRequestCount (publishEngine s));
  if n =? 0 then ret tt
  else
    do notificationData0 <- collectNotificationData;
    forEach addNotificationMessage notificationData0.

(** *** Publishing (lines 391-573) *)

(** A [NotificationMessage] is neither a [DataChangeNotification] nor an
    [EventNotificationList]: both [instanceof] tests of lines 408-413 are
    false and the two counters are left alone. *)
Definition _attempt_to_publish_notification : Method unit :=
  do pending <- hasPendingNotifications;
  do _ <- assert pending "self.hasPendingNotifications";
  do _ <- emit Ev_notification;
  do n <- gets (fun s => pendingPublishRequestCount (publishEngine s));
  if 0 <? n then
    do subscriptionId0 <- gets subscriptionId;
    do rec <- popNotificationToSend;
    let notificationMessage := notification rec in
    do _ <- update (fun s =>
              let d := subscriptionDiagnostics s in
              set_subscriptionDiagnostics
                (set_notificationsCount (notificationsCount d + 1) d) s);
    do st <- gets state;
    do availableSequenceNumbers <-
      (if decide (st = CLOSED) then ret [] else getAvailableSequenceNumbers);
    do moreNotifications <- hasPendingNotifications;
    do _ <- update (fun s =>
              let d := subscriptionDiagnostics s in
              set_subscriptionDiagnostics
                (set_publishRequestCount (publishRequestCount d + 1) d) s);
    do _ <- update (fun s =>
              set_publishEngine
                (send_notification_message
                   {| pm_subscriptionId := subscriptionId0;
                      pm_sequenceNumber := msg_sequenceNumber notificationMessage;
                      pm_notificationData := notificationData notificationMessage;
                      pm_availableSequenceNumbers := availableSequenceNumbers;
                      pm_moreNotifications := moreNotifications |}
                   (publishEngine s)) s);
    do st' <- gets state;
    if decide (st' = LATE ∨ st' = KEEPALIVE)
    then update (set_state NORMAL)
    else ret tt
  else
    do st <- gets state;
    if decide (st = CLOSED) then ret tt
    else update (set_state LATE).

Definition _sendKeepAliveResponse : Method bool :=
  do future_sequence_number <- _get_future_sequence_number;
  do subscriptionId0 <- gets subscriptionId;
  do engine <- gets publishEngine;
  let (sent, engine') :=
    send_keep_alive_response subscriptionId0 future_sequence_number engine in
  do _ <- update (set_publishEngine engine');
  if sent then
    do _ <- emit (Ev_keepalive future_sequence_number);
    ret true
  else ret false.

Definition process_subscription : Method unit :=
  do _ <- prepareNotification;
  do pending <- hasPendingNotifications;
  do enabled <- gets publishingEnabled;
  if pending && enabled then
    do _ <- _attempt_to_publish_notification;
    do st <- gets state;
    do pending' <- hasPendingNotifications;
    if bool_decide (st = NORMAL) && pending'
    then log SetImmediateTick
    else ret tt
  else
    do _ <- increaseKeepAliveCounter;
    do expired <- keepAliveCounterHasExpired;
    if expired then
      do sent <- _sendKeepAliveResponse;
      if sent then resetLifeTimeAndKeepAliveCounters
      else
        do _ <- assert false " ?????";
        update (set_state LATE)
    else ret tt.

Definition _tick : Method unit :=
  do _ <- match _on_tick with
          | Some hook => update (fun s => set_publishEngine (hook (publishEngine s)) s)
          | None => ret tt
          end;
  do _ <- update (fun s => set_publishIntervalCount (publishIntervalCount s + 1) s);
  do _ <- emit Ev_perform_update;
  do _ <- prepareNotification;
  do _ <- increaseLifeTimeCounter;
  do _ <- discardOldSentNotifications;
  do expired <- lifeTimeHasExpired;
  if expired then
    do _ <- log ConsoleLog;
    do _ <- emit Ev_expired;
    terminate
  else
    do n <- gets (fun s => pendingPublishRequestCount (publishEngine s));
    if n =? 0 then update (set_state LATE)
    else process_subscription.

(** *** Sampling interval (lines 953-1000) *)

Definition adjustSamplingInterval (samplingInterval0 : Z) (node : Node) : Method Z :=
  do samplingInterval1 <-
    (if samplingInterval0 <? 0 then gets publishingInterval
     else if samplingInterval0 =? 0 then
       let dataValueSamplingInterval := readAttribute node AttrMinimumSamplingInterval in
       if decide (dv_statusCode dataValueSamplingInterval = Good) then
         let samplingInterval1 := dv_value dataValueSamplingInterval in
         do _ <- assert ((0 <=? samplingInterval1)
                         && (samplingInterval1 <=? MonitoredItem_maximumSamplingInterval (M:=M)))
                   "samplingInterval >=0 && samplingInterval <= MonitoredItem.maximumSamplingInterval";
         ret samplingInterval1
       else ret samplingInterval0
     else if samplingInterval0 <? MonitoredItem_minimumSamplingInterval (M:=M)
     then ret (MonitoredItem_minimumSamplingInterval (M:=M))
     else if MonitoredItem_maximumSamplingInterval (M:=M) <? samplingInterval0
     then ret (MonitoredItem_maximumSamplingInterval (M:=M))
     else ret samplingInterval0);
  let node_minimumSamplingInterval := Js.or_default (minimumSamplingInterval node) 0 in
  ret (Z.max samplingInterval1 node_minimumSamplingInterval).

(** *** Filters (lines 1005-1098) *)

Definition _process_filter (node : Node) (filter0 : option MonitoringFilter)
    : option FilterResult :=
  match filter0 with
  | None => None
  | Some (FilterEvent eventFilter) =>
      Some (EventFilterResult (checkSelectClauses node (selectClauses eventFilter)))
  | Some (FilterDataChange _) => None
  | Some FilterAggregate => Some AggregateFilterResult
  end.

Definition __validateDataChangeFilter {S} (filter0 : DataChangeFilter)
    (itemToMonitor0 : ReadValueId) (node : Node) : S -> outcome S StatusCode :=
  do _ <- assert (bool_decide (attributeId itemToMonitor0 = AttrValue))
            "itemToMonitor.attributeId === AttributeIds.Value";
  if negb (is_UAVariable node) then ret BadNodeIdInvalid
  else
    match findDataType (__address_space node) (DataTypeOfNodeId (dataType node)) with
    | None => throw (TypeError "Cannot read property 'isSupertypeOf' of null")
    | Some dataType0 =>
        let dataTypeNumber :=
          findDataType (__address_space node) (DataTypeOfName "Number") in
        if negb (isSupertypeOf (__address_space node) dataType0 dataTypeNumber)
        then ret BadFilterNotAllowed
        else if bool_decide (deadbandType filter0 = DeadbandPercent)
                && (Qle_bool (deadbandValue filter0) 0
                    || Qle_bool 100 (deadbandValue filter0))
        then ret BadDeadbandFilterInvalid
        else ret Good
    end.

Definition is_EventFilter (filter0 : option MonitoringFilter) : bool :=
  match filter0 with Some (FilterEvent _) => true | _ => false end.

Definition is_DataChangeFilter (filter0 : option MonitoringFilter) : bool :=
  match filter0 with Some (FilterDataChange _) => true | _ => false end.

Definition __validateFilter {S} (filter0 : option MonitoringFilter)
    (itemToMonitor0 : ReadValueId) (node : Node) : S -> outcome S StatusCode :=
  if is_EventFilter filter0
     && negb (bool_decide (attributeId itemToMonitor0 = AttrEventNotifier))
  then ret BadFilterNotAllowed
  else if is_DataChangeFilter filter0
          && negb (bool_decide (attributeId itemToMonitor0 = AttrValue))
  then ret BadFilterNotAllowed
  else if bool_decide (is_Some filter0)
          && negb (bool_decide (attributeId itemToMonitor0 = AttrEventNotifier))
          && negb (bool_decide (attributeId itemToMonitor0 = AttrValue))
  then ret BadFilterNotAllowed
  else
    match filter0 with
    | Some (FilterDataChange f) => __validateDataChangeFilter f itemToMonitor0 node
    | _ => ret Good
    end.

(** *** createMonitoredItem (lines 1103-1238) *)

(** A monitored item is an object held by reference in [monitoredItems]:
    mutating it is mutating the entry. *)
Definition mutate_item (key : Z) (f : M -> M) : Method unit :=
  update (fun s => set_monitoredItems (alter f key (monitoredItems s)) s).

Definition _createMonitoredItemStep2 (timestampsToReturn : TimestampsToReturn)
    (monitoredItemCreateRequest : MonitoredItemCreateRequest) (node : Node)
    : Method MonitoredItemCreateResult :=
  let itemToMonitor0 := itemToMonitor monitoredItemCreateRequest in
  do _ <- update (fun s => set_monitoredItemIdCounter (monitoredItemIdCounter s + 1) s);
  do monitoredItemId0 <- gets monitoredItemIdCounter;
  let requestedParameters0 := requestedParameters monitoredItemCreateRequest in
  do samplingInterval1 <-
    adjustSamplingInterval (samplingInterval requestedParameters0) node;
  let requestedParameters1 :=
    {| clientHandle := clientHandle requestedParameters0;
       samplingInterval := samplingInterval1;
       filter := filter requestedParameters0;
       queueSize := queueSize requestedParameters0;
       discardOldest := discardOldest requestedParameters0;
       rp_monitoredItemId := Some monitoredItemId0;
       rp_itemToMonitor := Some itemToMonitor0 |} in
  let monitoredItem :=
    mi_set_timestampsToReturn timestampsToReturn
      (MonitoredItem_new requestedParameters1) in
  do _ <- assert (mi_monitoredItemId monitoredItem =? monitoredItemId0)
            "monitoredItem.monitoredItemId === monitoredItemId";
  do _ <- update (fun s =>
            set_monitoredItems (<[monitoredItemId0 := monitoredItem]> (monitoredItems s)) s);
  let filterResult0 := _process_filter node (filter requestedParameters1) in
  ret {| statusCode := Good;
         monitoredItemId := monitoredItemId0;
         revisedSamplingInterval := mi_samplingInterval monitoredItem;
         revisedQueueSize := mi_queueSize monitoredItem;
         filterResult := filterResult0 |}.

Definition _createMonitoredItemStep3 (key : Z)
    (monitoredItemCreateRequest : MonitoredItemCreateRequest) : Method unit :=
  do item <- getMonitoredItem key;
  match item with
  | None => throw (TypeError "monitoredItem is undefined")
  | Some monitoredItem =>
      do _ <- assert (bool_decide (mi_monitoringMode monitoredItem = ModeInvalid))
                "monitoredItem.monitoringMode === MonitoringMode.Invalid";
      do _ <- assert (mi_has_samplingFunc monitoredItem)
                "_.isFunction(monitoredItem.samplingFunc)";
      mutate_item key (mi_setMonitoringMode (monitoringMode monitoredItemCreateRequest))
  end.

Definition createMonitoredItem (addressSpace : AddressSpace)
    (timestampsToReturn : TimestampsToReturn)
    (monitoredItemCreateRequest : MonitoredItemCreateRequest)
    : Method MonitoredItemCreateResult :=
  let itemToMonitor0 := itemToMonitor monitoredItemCreateRequest in
  match findNode addressSpace (nodeId itemToMonitor0) with
  | None => ret (handle_error BadNodeIdUnknown)
  | Some node =>
      if bool_decide (attributeId itemToMonitor0 = AttrValue)
         && negb (is_UAVariable node)
      then ret (handle_error BadAttributeIdInvalid)
      else if bool_decide (attributeId itemToMonitor0 = AttrINVALID)
      then ret (handle_error BadAttributeIdInvalid)
      else if negb (isValid (indexRange itemToMonitor0))
      then ret (handle_error BadIndexRangeInvalid)
      else if de_name_truthy (dataEncoding itemToMonitor0)
              && negb (bool_decide (attributeId itemToMonitor0 = AttrValue))
      then ret (handle_error BadDataEncodingInvalid)
      else if negb (is_valid_dataEncoding (dataEncoding itemToMonitor0))
      then ret (handle_error BadDataEncodingUnsupported)
      else
        let requestedParameters0 := requestedParameters monitoredItemCreateRequest in
        let filter0 := filter requestedParameters0 in
        do statusCodeFilter <- __validateFilter filter0 itemToMonitor0 node;
        if negb (bool_decide (statusCodeFilter = Good))
        then ret (handle_error statusCodeFilter)
        else
          do monitoredItemCreateResult <-
            _createMonitoredItemStep2 timestampsToReturn monitoredItemCreateRequest node;
          do _ <- assert (bool_decide (statusCode monitoredItemCreateResult = Good))
                    "monitoredItemCreateResult.statusCode === StatusCodes.Good";
          let key := monitoredItemId monitoredItemCreateResult in
          do item <- getMonitoredItem key;
          do _ <- assert (bool_decide (is_Some item)) "monitoredItem";
          do _ <- mutate_item key (mi_set_node node);
          do _ <- emit (Ev_monitoredItem key);
          do _ <- mutate_item key (fun monitoredItem =>
                    on_monitoredItem monitoredItem itemToMonitor0);
          do _ <- _createMonitoredItemStep3 key monitoredItemCreateRequest;
          ret monitoredItemCreateResult
  end.

(** *** Getters and getMonitoredItems (lines 643-646, 1264-1285) *)


(** The [forEach] of getMonitoredItems over [Object.keys]. *)
Fixpoint push_handles (keys : list Z) (result : MonitoredItemsResult)
    : Method MonitoredItemsResult :=
  match keys with
  | [] => ret result
  | monitoredItemId0 :: keys' =>
      do item <- getMonitoredItem monitoredItemId0;
      match item with
      | None => throw (TypeError "Cannot read property 'clientHandle' of undefined")
      | Some monitoredItem =>
          push_handles keys'
            {| serverHandles := serverHandles result ++ [monitoredItemId0];
               clientHandles := clientHandles result ++ [mi_clientHandle monitoredItem];
               mir_statusCode := mir_statusCode result |}
      end
  end.

Definition getMonitoredItems : Method MonitoredItemsResult :=
  do keys <- gets (fun s => Object_keys (monitoredItems s));
  push_handles keys {| serverHandles := []; clientHandles := []; mir_statusCode := Good |}.

End Methods.

(** ** A queue-backed publish engine, a plain monitored item and a small
    address space, on which the examples run *)

(** The engine keeps a count of parked publish requests.  It may be told to
    refuse keep-alive messages, as an engine is free to do. *)
Record QueueEngine := {
  parked : Z;
  answers_keep_alive : bool;
  delivered : list PublishMessage;
  keep_alives : list Z
}.

#[global] Instance QueueEngine_PublishEngine : PublishEngine QueueEngine := {
  pendingPublishRequestCount e := parked e;
  send_notification_message m e :=
    {| parked := parked e - 1; answers_keep_alive := answers_keep_alive e;
       delivered := delivered e ++ [m]; keep_alives := keep_alives e |};
  send_keep_alive_response _ future_sequence_number e :=
    if answers_keep_alive e && (0 <? parked e)
    then (true, {| parked := parked e - 1; answers_keep_alive := answers_keep_alive e;
                   delivered := delivered e;
                   keep_alives := keep_alives e ++ [future_sequence_number] |})
    else (false, e);
  _on_tick := None
}.

Record PlainItem := {
  pi_monitoredItemId : Z;
  pi_clientHandle : Z;
  pi_samplingInterval : Z;
  pi_queueSize : Z;
  pi_monitoringMode : MonitoringMode;
  pi_samplingFunc : bool;
  pi_queue : list ItemNotification
}.

#[global] Instance PlainItem_MonitoredItemClass : MonitoredItemClass PlainItem := {
  MonitoredItem_new rp :=
    {| pi_monitoredItemId := default 0 (rp_monitoredItemId rp);
       pi_clientHandle := clientHandle rp;
       pi_samplingInterval := samplingInterval rp;
       pi_queueSize := Z.max 1 (queueSize rp);
       pi_monitoringMode := ModeInvalid;
       pi_samplingFunc := false;
       pi_queue := [] |};
  MonitoredItem_minimumSamplingInterval := 50;
  MonitoredItem_maximumSamplingInterval := 3600000;
  mi_monitoredItemId := pi_monitoredItemId;
  mi_clientHandle := pi_clientHandle;
  mi_samplingInterval := pi_samplingInterval;
  mi_queueSize := pi_queueSize;
  mi_monitoringMode := pi_monitoringMode;
  mi_has_samplingFunc := pi_samplingFunc;
  mi_set_timestampsToReturn _ m := m;
  mi_set_node _ m := m;
  mi_setMonitoringMode mode m :=
    {| pi_monitoredItemId := pi_monitoredItemId m; pi_clientHandle := pi_clientHandle m;
       pi_samplingInterval := pi_samplingInterval m; pi_queueSize := pi_queueSize m;
       pi_monitoringMode := mode; pi_samplingFunc := pi_samplingFunc m;
       pi_queue := pi_queue m |};
  extractMonitoredItemNotifications m :=
    (pi_queue m,
     {| pi_monitoredItemId := pi_monitoredItemId m; pi_clientHandle := pi_clientHandle m;
        pi_samplingInterval := pi_samplingInterval m; pi_queueSize := pi_queueSize m;
        pi_monitoringMode := pi_monitoringMode m; pi_samplingFunc := pi_samplingFunc m;
        pi_queue := [] |})
}.

#[global] Instance PlainItem_Collaborators : Collaborators PlainItem := {
  is_valid_dataEncoding d :=
    match de_name d with
    | None => true
    | Some name =>
        (name =? "")%string || (name =? "DefaultBinary")%string
        || (name =? "DefaultXml")%string
    end;
  checkSelectClauses _ clauses := map (fun _ => Good) clauses;
  on_monitoredItem m _ :=
    {| pi_monitoredItemId := pi_monitoredItemId m; pi_clientHandle := pi_clientHandle m;
       pi_samplingInterval := pi_samplingInterval m; pi_queueSize := pi_queueSize m;
       pi_monitoringMode := pi_monitoringMode m; pi_samplingFunc := true;
       pi_queue := pi_queue m |}
}.

(** Data types 11 (Double) and 26 (Number) and 12 (String); Double is a
    subtype of Number. *)
Definition demo_types : TypeSpace :=
  {| findDataType ref :=
       match ref with
       | DataTypeOfNodeId n =>
           if (n =? 11) || (n =? 12) || (n =? 26) then Some n else None
       | DataTypeOfName name => if (name =? "Number")%string then Some 26 else None
       end;
     isSupertypeOf dt base :=
       match base with
       | Some 26 => (dt =? 11) || (dt =? 26)
       | Some b => dt =? b
       | None => false
       end |}.

Definition demo_variable (dataType0 : NodeId) : Node :=
  {| is_UAVariable := true; dataType := dataType0; __address_space := demo_types;
     minimumSamplingInterval := None;
     readAttribute _ := {| dv_statusCode := BadAttributeIdInvalid; dv_value := 0 |} |}.

Definition demo_object : Node :=
  {| is_UAVariable := false; dataType := 0; __address_space := demo_types;
     minimumSamplingInterval := None;
     readAttribute _ := {| dv_statusCode := BadAttributeIdInvalid; dv_value := 0 |} |}.

(** Node 1 is a Double variable, node 2 an object, node 3 a String variable. *)
Definition demo_address_space : AddressSpace :=
  {| findNode n :=
       if n =? 1 then Some (demo_variable 11)
       else if n =? 2 then Some demo_object
       else if n =? 3 then Some (demo_variable 12)
       else None |}.

Definition demo_engine (requests : Z) (keep_alive : bool) : QueueEngine :=
  {| parked := requests; answers_keep_alive := keep_alive;
     delivered := []; keep_alives := [] |}.

Definition demo_options (requests : Z) (keep_alive : bool)
    : SubscriptionOptions QueueEngine :=
  {| opt_publishEngine := demo_engine requests keep_alive;
     opt_id := Some 1234;
     opt_priority := None;
     opt_publishingInterval := Some 1000;
     opt_maxKeepAliveCount := Some 3;
     opt_lifeTimeCount := Some 20;
     opt_maxNotificationsPerPublish := None;
     opt_publishingEnabled := None |}.

(** What follows a constructor or a method call. *)
Definition and_then {S A B} (o : outcome S A) (k : S -> outcome S B) : outcome S B :=
  match o with
  | Ret _ s => k s
  | Throw e s => Throw e s
  | Diverge => Diverge
  end.

Definition times {S} (n : nat) (m : S -> outcome S unit) : S -> outcome S unit :=
  forEach (fun _ => m) (replicate n tt).

Definition a_data_change : list NotificationData :=
  [DataChangeNotification [MonitoredItemNotification 7 42]].

(** 101 messages are queued and 101 publishing cycles run, with publish
    requests to spare. *)
Definition flood_scenario : outcome (Subscription QueueEngine PlainItem) unit :=
  and_then (Subscription_new (M:=PlainItem) (demo_options 200 true))
    (do _ <- times 101 (addNotificationMessage a_data_change);
     times 101 _tick).

(** The subscription [new Subscription(demo_options requests keep_alive)]
    builds. *)
Definition demo_subscription (requests : Z) (keep_alive : bool)
    : Subscription QueueEngine PlainItem :=
  {| publishEngine := demo_engine requests keep_alive;
     subscriptionId := Id 1234;
     priority := Some 0;
     publishingInterval := 1000;
     maxKeepAliveCount := 3;
     _keep_alive_counter := 3;
     lifeTimeCount := 20;
     maxNotificationsPerPublish := Some 0;
     _life_time_counter := 0;
     _pending_notifications := [];
     _sent_notifications := [];
     _sequence_number_generator := {| _counter := 1 |};
     state := NORMAL;
     publishIntervalCount := 0;
     monitoredItems := ∅;
     monitoredItemIdCounter := 0;
     publishingEnabled := true;
     timerId := Some {| period := 1000 |};
     subscriptionDiagnostics := SubscriptionDiagnostics_new;
     effects := [SetInterval 1000; RegistryRegister] |}.

(** One message is queued, a first cycle publishes it, a second cycle has
    nothing to say. *)
Definition publish_then_idle_scenario
    : outcome (Subscription QueueEngine PlainItem) unit :=
  and_then (Subscription_new (M:=PlainItem) (demo_options 3 true))
    (do _ <- addNotificationMessage a_data_change;
     do _ <- _tick;
     _tick).

Definition sent_record_1 : NotificationRecord :=
  {| notification := {| msg_sequenceNumber := 1; notificationData := a_data_change |};
     start_tick := 0;
     sequenceNumber := 1 |}.

(** The subscription [publish_then_idle_scenario] ends in: message 1 is in
    the sent queue and both counters are 1. *)
Definition published_subscription : Subscription QueueEngine PlainItem :=
  {| publishEngine :=
       {| parked := 2; answers_keep_alive := true;
          delivered :=
            [{| pm_subscriptionId := Id 1234; pm_sequenceNumber := 1;
                pm_notificationData := a_data_change;
                pm_availableSequenceNumbers := [1];
                pm_moreNotifications := false |}];
          keep_alives := [] |};
     subscriptionId := Id 1234;
     priority := Some 0;
     publishingInterval := 1000;
     maxKeepAliveCount := 3;
     _keep_alive_counter := 1;
     lifeTimeCount := 20;
     maxNotificationsPerPublish := Some 0;
     _life_time_counter := 1;
     _pending_notifications := [];
     _sent_notifications := [sent_record_1];
     _sequence_number_generator := {| _counter := 2 |};
     state := NORMAL;
     publishIntervalCount := 2;
     monitoredItems := ∅;
     monitoredItemIdCounter := 0;
     publishingEnabled := true;
     timerId := Some {| period := 1000 |};
     subscriptionDiagnostics :=
       {| modifyCount := 0; enableCount := 0; disableCount := 0;
          notificationsCount := 1; dataChangeNotificationsCount := 0;
          eventNotificationsCount := 0; publishRequestCount := 1 |};
     effects :=
       [SetInterval 1000; RegistryRegister; Emit Ev_perform_update;
        Emit Ev_notification; Emit Ev_perform_update] |}.


Definition demo_request (node : NodeId) (attribute : AttributeId)
    (range : NumericRange) (encoding : option string)
    (filter0 : option MonitoringFilter) : MonitoredItemCreateRequest :=
  {| itemToMonitor :=
       {| nodeId := node; attributeId := attribute; indexRange := range;
          dataEncoding := {| de_name := encoding |} |};
     monitoringMode := ModeReporting;
     requestedParameters :=
       {| clientHandle := 7; samplingInterval := 250; filter := filter0;
          queueSize := 1; discardOldest := true;
          rp_monitoredItemId := None; rp_itemToMonitor := None |} |}.

Definition percent_filter (value : Q) : DataChangeFilter :=
  {| deadbandType := DeadbandPercent; deadbandValue := value |}.

(** Two items are created on the Double and on the String variable. *)
Definition two_items_scenario
    : outcome (Subscription QueueEngine PlainItem) MonitoredItemCreateResult :=
  and_then (Subscription_new (M:=PlainItem) (demo_options 3 true))
    (do _ <- createMonitoredItem demo_address_space TsBoth
               (demo_request 1 AttrValue WellFormedRange None None);
     createMonitoredItem demo_address_space TsBoth
       (demo_request 3 AttrValue WellFormedRange None None)).

Definition demo_item (monitoredItemId0 : Z) : PlainItem :=
  {| pi_monitoredItemId := monitoredItemId0; pi_clientHandle := 7;
     pi_samplingInterval := 250; pi_queueSize := 1;
     pi_monitoringMode := ModeReporting; pi_samplingFunc := true;
     pi_queue := [] |}.

(** The subscription [two_items_scenario] ends in. *)
Definition two_items_subscription : Subscription QueueEngine PlainItem :=
  set_effects
    [SetInterval 1000; RegistryRegister; Emit (Ev_monitoredItem 1);
     Emit (Ev_monitoredItem 2)]
    (set_monitoredItemIdCounter 2
       (set_monitoredItems (<[2 := demo_item 2]> (<[1 := demo_item 1]> ∅))
          (demo_subscription 3 true))).

(** One message waits in the pending queue of a fresh subscription. *)
Definition queued_subscription : Subscription QueueEngine PlainItem :=
  set_sequence_number_generator {| _counter := 2 |}
    (set_pending_notifications [sent_record_1] (demo_subscription 3 true)).

(** The life-time counter is one short of lifeTimeCount and the engine holds
    no publish request. *)
Definition expiring_subscription : Subscription QueueEngine PlainItem :=
  set_life_time_counter 19 (demo_subscription 0 true).

Definition busy_item (monitoredItemId0 : Z) (queue : list ItemNotification)
    : PlainItem :=
  {| pi_monitoredItemId := monitoredItemId0; pi_clientHandle := 7;
     pi_samplingInterval := 250; pi_queueSize := 10;
     pi_monitoringMode := ModeReporting; pi_samplingFunc := true;
     pi_queue := queue |}.

(** Two items hold three and two notifications; a message may carry two. *)
Definition busy_subscription : Subscription QueueEngine PlainItem :=
  set_maxNotificationsPerPublish (Some 2)
    (set_monitoredItemIdCounter 2
       (set_monitoredItems
          (<[2 := busy_item 2 [EventFieldList 7 [4]; MonitoredItemNotification 7 5]]>
             (<[1 := busy_item 1 [MonitoredItemNotification 7 1; EventFieldList 7 [2];
                                  MonitoredItemNotification 7 3]]> ∅))
          (demo_subscription 3 true))).

(** ** The specification's vocabulary *)

(** "[x] clamped to [[lo, hi]]". *)
Definition clamped (lo hi x : Z) : Z := Z.min (Z.max x lo) hi.

(** A record as [addNotificationMessage] builds it: its own sequence number
    is the one of the message it carries. *)
Definition record_consistent (r : NotificationRecord) : Prop :=
  sequenceNumber r = msg_sequenceNumber (notification r).

(** The checks of createMonitoredItem that precede filter validation, in
    the order the specification lists them, each with the status code it
    answers with; [found] is what resolving the node id gave. *)
Definition validation_steps {M} `{!Collaborators M} (found : option Node)
    (item : ReadValueId) : list (bool * StatusCode) :=
  let is_variable := match found with Some node => is_UAVariable node | None => false end in
  [ (match found with None => true | Some _ => false end, BadNodeIdUnknown);
    (bool_decide (attributeId item = AttrValue) && negb is_variable, BadAttributeIdInvalid);
    (bool_decide (attributeId item = AttrINVALID), BadAttributeIdInvalid);
    (negb (isValid (indexRange item)), BadIndexRangeInvalid);
    (de_name_truthy (dataEncoding item)
     && negb (bool_decide (attributeId item = AttrValue)), BadDataEncodingInvalid);
    (negb (is_valid_dataEncoding (dataEncoding item)), BadDataEncodingUnsupported) ].

(** "First failure wins". *)
Fixpoint first_failure (steps : list (bool * StatusCode)) : option StatusCode :=
  match steps with
  | [] => None
  | (fails, code) :: steps' => if fails then Some code else first_failure steps'
  end.

(** ** Calls, reachable subscriptions and what they keep *)

(** The calls a session, a timer or the publish engine makes on a
    subscription. *)
Inductive Call :=
| Call_tick
| Call_process_subscription
| Call_modify (param : ModifyParams)
| Call_setPublishingMode (publishingEnabled0 : bool)
| Call_terminate
| Call_addNotificationMessage (notificationData0 : list NotificationData)
| Call_popNotificationToSend
| Call_getMessageForSequenceNumber (sequenceNumber0 : Z)
| Call_acknowledgeNotification (sequenceNumber0 : Z)
| Call_createMonitoredItem (addressSpace : AddressSpace)
    (timestampsToReturn : TimestampsToReturn)
    (monitoredItemCreateRequest : MonitoredItemCreateRequest)
| Call_removeMonitoredItem (monitoredItemId0 : Z).

(** The object a call leaves behind, whether it returned or threw. *)
Definition state_after {S A} (o : outcome S A) : option S :=
  match o with
  | Ret _ s => Some s
  | Throw _ s => Some s
  | Diverge => None
  end.

(** [post_with I Q o]: a returned value and object satisfy [Q], an object
    left by a throw satisfies [I]. *)
Definition post_with {S A} (I : S -> Prop) (Q : A -> S -> Prop) (o : outcome S A) : Prop :=
  match o with
  | Ret a s => Q a s
  | Throw _ s => I s
  | Diverge => True
  end.

Definition preserves {S A} (I : S -> Prop) (m : S -> outcome S A) : Prop :=
  forall s, I s -> post_with I (fun _ => I) (m s).

(** A method that reads only. *)
Definition reads_only {S A} (m : S -> outcome S A) : Prop :=
  forall s, post_with (fun s' => s' = s) (fun _ s' => s' = s) (m s).

Definition parameters_in_range (publishingInterval0 maxKeepAliveCount0 lifeTimeCount0 : Z)
    : Prop :=
  100 <= publishingInterval0 <= 2592000000
  /\ 2 <= maxKeepAliveCount0 <= 12000
  /\ 3 * maxKeepAliveCount0 <= lifeTimeCount0.

Definition item_ids_bounded {M} (items : gmap Z M) (counter : Z) : Prop :=
  0 <= counter /\ forall k, is_Some (items !! k) -> 1 <= k <= counter.

(** What the items of a message list carry, by variant. *)
Definition data_changes_of (messages : list (list NotificationData))
    : list ItemNotification :=
  flat_map (flat_map (fun d =>
    match d with DataChangeNotification l => l | _ => [] end)) messages.

Definition events_of (messages : list (list NotificationData))
    : list ItemNotification :=
  flat_map (flat_map (fun d =>
    match d with EventNotificationList l => l | _ => [] end)) messages.

Definition item_count (message : list NotificationData) : nat :=
  length (data_changes_of [message]) + length (events_of [message]).

(** The records [addNotificationMessage] files for a list of messages, the
    first under sequence number [first], all stamped with the tick [tick]. *)
Fixpoint stamped_records (tick first : Z) (messages : list (list NotificationData))
    : list NotificationRecord :=
  match messages with
  | [] => []
  | message :: messages' =>
      {| notification := {| msg_sequenceNumber := first; notificationData := message |};
         start_tick := tick;
         sequenceNumber := first |}
      :: stamped_records tick (first + 1) messages'
  end.

Section Reachability.

Context {E M : Type}.
Context `{!PublishEngine E} `{!MonitoredItemClass M} `{!Collaborators M}.

Definition discard_result {A} (m : Subscription E M -> outcome (Subscription E M) A)
    : Subscription E M -> outcome (Subscription E M) unit :=
  do _ <- m; ret tt.

Definition perform (c : Call) : Subscription E M -> outcome (Subscription E M) unit :=
  match c with
  | Call_tick => _tick
  | Call_process_subscription => process_subscription
  | Call_modify param => discard_result (modify param)
  | Call_setPublishingMode b => discard_result (setPublishingMode b)
  | Call_terminate => terminate
  | Call_addNotificationMessage d => addNotificationMessage d
  | Call_popNotificationToSend => discard_result popNotificationToSend
  | Call_getMessageForSequenceNumber n => discard_result (getMessageForSequenceNumber n)
  | Call_acknowledgeNotification n => discard_result (acknowledgeNotification n)
  | Call_createMonitoredItem a t r => discard_result (createMonitoredItem a t r)
  | Call_removeMonitoredItem k => discard_result (removeMonitoredItem k)
  end.

(** A subscription is reachable when the constructor built it or a call
    left it behind on a reachable one. *)
Inductive reachable : Subscription E M -> Prop :=
| reachable_new options s :
    Subscription_new options = Ret tt s -> reachable s
| reachable_call c s s' :
    reachable s -> state_after (perform c s) = Some s' -> reachable s'.

Definition well_formed (s : Subscription E M) : Prop :=
  Forall record_consistent (_sent_notifications s ++ _pending_notifications s)
  /\ item_ids_bounded (monitoredItems s) (monitoredItemIdCounter s)
  /\ parameters_in_range (publishingInterval s) (maxKeepAliveCount s) (lifeTimeCount s)
  /\ 0 <= _life_time_counter s
  /\ 0 <= _keep_alive_counter s.

(** What [collectNotificationData] takes out of the items, in key order,
    and what it leaves in them. *)
Definition drained_notifications (items : gmap Z M) : list ItemNotification :=
  flat_map (fun k =>
    match items !! k with
    | Some monitoredItem => fst (extractMonitoredItemNotifications monitoredItem)
    | None => []
    end) (Object_keys items).

Definition drained_items (items : gmap Z M) : gmap Z M :=
  (fun monitoredItem => snd (extractMonitoredItemNotifications monitoredItem)) <$> items.

End Reachability.

(** * Properties *)

(** Field assignments are evaluated innermost first: unfolding them from the
    outside copies the object once per field and per assignment. *)
Ltac eval_fields :=
  cbv beta iota delta
    [set_publishEngine set_subscriptionId set_priority set_publishingInterval
     set_maxKeepAliveCount set_keep_alive_counter set_lifeTimeCount
     set_maxNotificationsPerPublish set_life_time_counter
     set_pending_notifications set_sent_notifications
     set_sequence_number_generator set_state set_publishIntervalCount
     set_monitoredItems set_monitoredItemIdCounter set_publishingEnabled
     set_timerId set_subscriptionDiagnostics set_effects publishEngine
     subscriptionId priority publishingInterval maxKeepAliveCount
     _keep_alive_counter lifeTimeCount maxNotificationsPerPublish
     _life_time_counter _pending_notifications _sent_notifications
     _sequence_number_generator state publishIntervalCount monitoredItems
     monitoredItemIdCounter publishingEnabled timerId subscriptionDiagnostics
     effects].

Ltac same_object :=
  repeat match goal with s : Subscription _ _ |- _ => destruct s end;
  eval_fields; simpl in *; subst;
  rewrite <- ?app_assoc, ?app_nil_r; try reflexivity.

Ltac run :=
  repeat (progress (cbv beta delta
    [bind ret gets update throw diverge assert log emit] in *; simpl in * )).

Lemma adjust_publishing_interval_range (p : option Z) :
  100 ≤ _adjust_publishing_interval p ≤ 2592000000.
Proof.
  unfold _adjust_publishing_interval, minimumPublishingInterval,
    maximumPublishingInterval. lia.
Qed.

Lemma adjust_publishing_interval_clamped (p : Z) :
  _adjust_publishing_interval (Some p) = clamped 100 2592000000 p.
Proof.
  unfold _adjust_publishing_interval, clamped, minimumPublishingInterval,
    maximumPublishingInterval, defaultPublishingInterval. simpl.
  destruct (Z.eqb_spec p 0); lia.
Qed.

Lemma adjust_maxKeepAliveCount_range (m : option Z) :
  2 ≤ _adjust_maxKeepAliveCount m ≤ 12000.
Proof.
  unfold _adjust_maxKeepAliveCount, minimumMaxKeepAliveCount,
    maximumMaxKeepAliveCount. lia.
Qed.

Lemma adjust_maxKeepAliveCount_clamped (m : Z) :
  m ≠ 0 → _adjust_maxKeepAliveCount (Some m) = clamped 2 12000 m.
Proof.
  intros Hm. unfold _adjust_maxKeepAliveCount, clamped. simpl.
  destruct (Z.eqb_spec m 0); [done|reflexivity].
Qed.

Lemma adjust_lifeTimeCount_three_times (l : option Z) (m : Z) :
  3 * m ≤ _adjust_lifeTimeCount l m.
Proof. unfold _adjust_lifeTimeCount. lia. Qed.

Section Properties.

Context {E M : Type}.
Context `{!PublishEngine E} `{!MonitoredItemClass M} `{!Collaborators M}.

Abbreviation Sub := (Subscription E M).

(** The constructor never throws: the timer is not armed yet and the
    adjusted publishing interval is positive. *)
Lemma Subscription_new_returns (options : SubscriptionOptions E) :
  ∃ s : Sub,
    Subscription_new options = Ret tt s
    ∧ publishingInterval s = _adjust_publishing_interval (opt_publishingInterval options)
    ∧ maxKeepAliveCount s = _adjust_maxKeepAliveCount (opt_maxKeepAliveCount options)
    ∧ lifeTimeCount s =
        _adjust_lifeTimeCount (opt_lifeTimeCount options)
          (_adjust_maxKeepAliveCount (opt_maxKeepAliveCount options)).
Proof.
  unfold Subscription_new, _start_timer. run.
  pose proof (adjust_publishing_interval_range (opt_publishingInterval options)) as Hp.
  destruct (Z.ltb_spec 0 (_adjust_publishing_interval (opt_publishingInterval options)));
    [|lia].
  run. eexists. repeat split; reflexivity.
Qed.

(** C5: whatever the options, the constructor returns a subscription whose
    publishingInterval is the requested one clamped to [100, 2592000000]
    (100 when none is requested), whose maxKeepAliveCount lies in [2, 12000]
    (the requested one clamped, 10 standing in for an absent or zero request)
    and whose lifeTimeCount is at least three times that maxKeepAliveCount;
    publishingInterval=50, maxKeepAliveCount=1, lifeTimeCount=2 give 100, 2
    and 6. *)
Theorem Subscription_new_effective_values :
  (∀ options : SubscriptionOptions E, ∃ s : Sub,
      Subscription_new options = Ret tt s
      ∧ publishingInterval s =
          match opt_publishingInterval options with
          | Some requested => clamped 100 2592000000 requested
          | None => 100
          end
      ∧ 100 ≤ publishingInterval s ≤ 2592000000
      ∧ maxKeepAliveCount s =
          clamped 2 12000 (Js.or_default (opt_maxKeepAliveCount options) 10)
      ∧ 2 ≤ maxKeepAliveCount s ≤ 12000
      ∧ 3 * maxKeepAliveCount s ≤ lifeTimeCount s)
  ∧ (∀ (engine : E) (id0 priority0 maxNotificationsPerPublish0 : option Z)
       (publishingEnabled0 : option bool), ∃ s : Sub,
      Subscription_new
        {| opt_publishEngine := engine; opt_id := id0; opt_priority := priority0;
           opt_publishingInterval := Some 50; opt_maxKeepAliveCount := Some 1;
           opt_lifeTimeCount := Some 2;
           opt_maxNotificationsPerPublish := maxNotificationsPerPublish0;
           opt_publishingEnabled := publishingEnabled0 |} = Ret tt s
      ∧ publishingInterval s = 100
      ∧ maxKeepAliveCount s = 2
      ∧ lifeTimeCount s = 6).
Proof.
  split.
  - intros options.
    destruct (Subscription_new_returns options) as (s & Hs & Hp & Hm & Hl).
    exists s. split; [exact Hs|].
    rewrite Hp, Hm, Hl.
    split; [|split; [|split; [|split]]].
    + destruct (opt_publishingInterval options) as [p|].
      * apply adjust_publishing_interval_clamped.
      * reflexivity.
    + apply adjust_publishing_interval_range.
    + reflexivity.
    + apply adjust_maxKeepAliveCount_range.
    + apply adjust_lifeTimeCount_three_times.
  - intros engine id0 priority0 mnpp enabled.
    eexists. repeat split; reflexivity.
Qed.

(** *** The retransmission queue *)

Lemma number_of_array_never_reaches (n : Z) {A} (arr : list A) :
  0 < n → Js.le_number n (Js.array_of_objects_to_number arr) = false.
Proof.
  intros Hn. unfold Js.array_of_objects_to_number.
  destruct arr as [|x arr]; simpl.
  - apply Z.leb_gt. exact Hn.
  - destruct (map _ arr); reflexivity.
Qed.

(** [discardOldSentNotifications] changes nothing, whatever the length of the
    queue: its guard is false for every array. *)
Lemma discardOldSentNotifications_noop (s : Sub) :
  discardOldSentNotifications s = Ret tt s.
Proof.
  unfold discardOldSentNotifications. run.
  rewrite number_of_array_never_reaches; [reflexivity|].
  unfold maxNotificationMessagesInQueue. lia.
Qed.

(** Every call of [popNotificationToSend] on a non-empty pending queue makes
    the sent queue one longer. *)
Lemma popNotificationToSend_grows (s : Sub) r rest :
  _pending_notifications s = r :: rest →
  ∃ s', popNotificationToSend s = Ret r s'
        ∧ _sent_notifications s' = _sent_notifications s ++ [r]
        ∧ _pending_notifications s' = rest.
Proof.
  intros Hp. unfold popNotificationToSend. run. rewrite Hp. run.
  eexists. repeat split; reflexivity.
Qed.

Lemma addNotificationMessage_consistent (d : NotificationData) (s : Sub) :
  ∃ r, addNotificationMessage [d] s =
         Ret tt (set_pending_notifications (_pending_notifications s ++ [r])
                   (set_sequence_number_generator
                      {| _counter := _counter (_sequence_number_generator s) + 1 |} s))
       ∧ record_consistent r
       ∧ sequenceNumber r = _counter (_sequence_number_generator s).
Proof.
  unfold addNotificationMessage, _get_next_sequence_number. run.
  eexists. repeat split; reflexivity.
Qed.

(** C8: getAvailableSequenceNumbers returns the sequence numbers carried by
    the records of the sent queue, in queue order, followed by those of the
    pending queue, in queue order, and hands the subscription back unchanged;
    for records as addNotificationMessage builds them these are the records'
    own sequence numbers. *)
Theorem getAvailableSequenceNumbers_spec (s : Sub) :
  getAvailableSequenceNumbers s =
    Ret (map (λ r, msg_sequenceNumber (notification r)) (_sent_notifications s)
         ++ map (λ r, msg_sequenceNumber (notification r)) (_pending_notifications s)) s
  ∧ (Forall record_consistent (_sent_notifications s ++ _pending_notifications s) →
     getAvailableSequenceNumbers s =
       Ret (map sequenceNumber (_sent_notifications s)
            ++ map sequenceNumber (_pending_notifications s)) s).
Proof.
  assert (Heq : getAvailableSequenceNumbers s =
    Ret (map (λ r, msg_sequenceNumber (notification r)) (_sent_notifications s)
         ++ map (λ r, msg_sequenceNumber (notification r)) (_pending_notifications s)) s)
    by reflexivity.
  split; [exact Heq|].
  intros Hall. rewrite Heq. f_equal.
  apply Forall_app in Hall as [Hsent Hpending].
  f_equal; apply map_ext_in; intros r Hr.
  - rewrite Forall_forall in Hsent. symmetry. apply Hsent. by apply list_elem_of_In.
  - rewrite Forall_forall in Hpending. symmetry. apply Hpending. by apply list_elem_of_In.
Qed.

(** *** acknowledgeNotification *)

Lemma find_recording_index_none seq arr index foundIndex :
  Forall (λ r, sequenceNumber r ≠ seq) arr →
  find_recording_index seq arr index foundIndex = foundIndex.
Proof.
  revert index foundIndex.
  induction arr as [|e arr IH]; intros index foundIndex Hall; simpl; [done|].
  inversion Hall as [|? ? He Harr]; subst.
  destruct (Z.eqb_spec (sequenceNumber e) seq); [done|].
  by apply IH.
Qed.

Lemma find_recording_index_last seq l1 r l2 index foundIndex :
  sequenceNumber r = seq →
  Forall (λ r', sequenceNumber r' ≠ seq) l2 →
  find_recording_index seq (l1 ++ r :: l2) index foundIndex
  = Some (index + length l1)%nat.
Proof.
  intros Hr Hl2. revert index foundIndex.
  induction l1 as [|e l1 IH]; intros index foundIndex; simpl.
  - rewrite find_recording_index_none by done.
    destruct (Z.eqb_spec (sequenceNumber r) seq); [|done].
    f_equal. lia.
  - rewrite IH. f_equal. lia.
Qed.

Lemma last_match_split seq (l : list NotificationRecord) :
  Exists (λ r, sequenceNumber r = seq) l →
  ∃ l1 r l2, l = l1 ++ r :: l2 ∧ sequenceNumber r = seq
             ∧ Forall (λ r', sequenceNumber r' ≠ seq) l2.
Proof.
  induction l as [|e l IH]; intros Hex.
  - by apply Exists_nil in Hex.
  - destruct (decide (Exists (λ r, sequenceNumber r = seq) l)) as [Hl|Hl].
    + destruct (IH Hl) as (l1 & r & l2 & -> & Hr & Hl2).
      exists (e :: l1), r, l2. done.
    + apply Exists_cons in Hex as [He|Hex]; [|done].
      exists [], e, l. split; [done|]. split; [done|].
      by apply Forall_Exists_neg.
Qed.

Lemma delete_middle {A} (l1 l2 : list A) (x : A) :
  delete (length l1) (l1 ++ x :: l2) = l1 ++ l2.
Proof. induction l1 as [|y l1 IH]; simpl; [done|]. by rewrite IH. Qed.

(** C2, as the code has it: when the sent queue holds a record whose
    sequenceNumber is seq, acknowledgeNotification(seq) returns Good and
    removes that record (the last one, should several carry the number),
    every other field of the subscription, the life-time and keep-alive
    counters among them, keeping its value; when the queue holds no such
    record it returns BadSequenceNumberUnknown and the subscription is
    unchanged. *)
Theorem acknowledgeNotification_spec (seq : Z) (s : Sub) :
  (Exists (λ r, sequenceNumber r = seq) (_sent_notifications s) →
   ∃ l1 r l2,
     _sent_notifications s = l1 ++ r :: l2
     ∧ sequenceNumber r = seq
     ∧ Forall (λ r', sequenceNumber r' ≠ seq) l2
     ∧ acknowledgeNotification seq s = Ret Good (set_sent_notifications (l1 ++ l2) s)
     ∧ _life_time_counter (set_sent_notifications (l1 ++ l2) s) = _life_time_counter s
     ∧ _keep_alive_counter (set_sent_notifications (l1 ++ l2) s) = _keep_alive_counter s)
  ∧ (Forall (λ r, sequenceNumber r ≠ seq) (_sent_notifications s) →
     acknowledgeNotification seq s = Ret BadSequenceNumberUnknown s).
Proof.
  split.
  - intros Hex.
    destruct (last_match_split seq _ Hex) as (l1 & r & l2 & Hsent & Hr & Hl2).
    exists l1, r, l2. repeat split; try done.
    unfold acknowledgeNotification. run. rewrite Hsent.
    rewrite (find_recording_index_last seq l1 r l2 0 None Hr Hl2). run.
    by rewrite Hsent, delete_middle.
  - intros Hall. unfold acknowledgeNotification. run.
    by rewrite find_recording_index_none.
Qed.

(** *** The timer *)

Lemma bind_Ret {S A B} (m : S → outcome S A) (k : A → S → outcome S B) s a s' :
  m s = Ret a s' → bind m k s = k a s'.
Proof. intros H. unfold bind. by rewrite H. Qed.

Lemma stop_timer_returns (s : Sub) :
  _stop_timer s =
    Ret tt (set_effects
              (effects s ++ match timerId s with
                            | Some _ => [ClearInterval; RegistryUnregister]
                            | None => []
                            end)
              (set_timerId None s)).
Proof.
  unfold _stop_timer. run.
  destruct (timerId s) as [t|] eqn:Ht; run; f_equal; same_object.
Qed.

Lemma start_timer_returns (s : Sub) :
  timerId s = None →
  0 < publishingInterval s →
  _start_timer s =
    Ret tt (set_effects
              (effects s ++ [SetInterval (publishingInterval s); RegistryRegister])
              (set_timerId (Some {| period := publishingInterval s |})
                 (set_keep_alive_counter (maxKeepAliveCount s) (set_state NORMAL s)))).
Proof.
  intros Ht Hp. apply Z.ltb_lt in Hp.
  unfold _start_timer. run. rewrite Ht. run. rewrite Hp. run.
  f_equal. same_object.
Qed.

(** *** modify *)


(** *** The publishing cycle *)

(** C10: on a tick where, once the engine's tick hook has run, the engine
    reports no pending publish request and the life time has not expired, the
    tick returns with the state LATE, the life-time counter incremented, the
    keep-alive counter untouched and the engine not called: the only effect
    is the perform_update event.  Nothing is asked of the pending queue or of
    publishingEnabled. *)
Theorem tick_without_publish_request (s : Sub) :
  let engine :=
    match _on_tick with
    | Some hook => hook (publishEngine s)
    | None => publishEngine s
    end in
  pendingPublishRequestCount engine = 0 →
  0 < lifeTimeCount s →
  _life_time_counter s + 1 < lifeTimeCount s →
  ∃ s' : Sub,
    _tick s = Ret tt s'
    ∧ s' = set_state LATE
             (set_life_time_counter (_life_time_counter s + 1)
                (set_effects (effects s ++ [Emit Ev_perform_update])
                   (set_publishIntervalCount (publishIntervalCount s + 1)
                      (set_publishEngine engine s))))
    ∧ state s' = LATE
    ∧ _life_time_counter s' = _life_time_counter s + 1
    ∧ _keep_alive_counter s' = _keep_alive_counter s
    ∧ publishEngine s' = engine
    ∧ effects s' = effects s ++ [Emit Ev_perform_update]
    ∧ _pending_notifications s' = _pending_notifications s
    ∧ _sent_notifications s' = _sent_notifications s.
Proof.
  intros engine Hcount Hlife Hnot_expired.
  eexists. split; [|split; [reflexivity|repeat split]].
  unfold _tick, prepareNotification, increaseLifeTimeCounter, lifeTimeHasExpired.
  assert (Hhook :
    (match _on_tick with
     | Some hook => update (λ s0 : Sub, set_publishEngine (hook (publishEngine s0)) s0)
     | None => ret tt
     end) s = Ret tt (set_publishEngine engine s)).
  { subst engine. destruct _on_tick; [reflexivity|].
    unfold ret. by destruct s. }
  unfold bind at 1. rewrite Hhook. run.
  rewrite Hcount. run.
  rewrite discardOldSentNotifications_noop. run.
  apply Z.ltb_lt in Hlife. rewrite Hlife. run.
  assert (Hle : (lifeTimeCount s <=? _life_time_counter s + 1) = false)
    by (apply Z.leb_gt; lia).
  rewrite Hle. run. rewrite Hcount. run. reflexivity.
Qed.

(** *** terminate *)

Lemma elem_of_Object_keys (o : gmap Z M) (k : Z) :
  k ∈ Object_keys o ↔ is_Some (o !! k).
Proof.
  unfold Object_keys.
  by rewrite merge_sort_Permutation, elem_of_elements, elem_of_dom.
Qed.

Lemma NoDup_Object_keys (o : gmap Z M) : NoDup (Object_keys o).
Proof. unfold Object_keys. rewrite merge_sort_Permutation. apply NoDup_elements. Qed.

Lemma Object_keys_empty : Object_keys (∅ : gmap Z M) = [].
Proof.
  apply Permutation_nil_r. unfold Object_keys.
  by rewrite merge_sort_Permutation, dom_empty_L, elements_empty.
Qed.

Lemma lookup_delete_all (keys : list Z) (o : gmap Z M) (i : Z) :
  foldl (λ o' k, delete k o') o keys !! i
  = if decide (i ∈ keys) then None else o !! i.
Proof.
  revert o. induction keys as [|k keys IH]; intros o.
  - destruct (decide (i ∈ [])) as [Hi|_]; [by apply elem_of_nil in Hi|done].
  - simpl. rewrite IH.
    destruct (decide (i ∈ keys)) as [Hin|Hout];
      destruct (decide (i ∈ k :: keys)) as [Hin'|Hout']; try done.
    + exfalso. apply Hout'. by right.
    + apply elem_of_cons in Hin' as [->|Hin']; [|done].
      apply lookup_delete_eq.
    + apply lookup_delete_ne. intros ->. apply Hout'. by left.
Qed.

Lemma delete_all_keys (o : gmap Z M) :
  foldl (λ o' k, delete k o') o (Object_keys o) = ∅.
Proof.
  apply map_eq. intros i. rewrite lookup_delete_all, lookup_empty.
  case_decide as Hi; [done|].
  rewrite elem_of_Object_keys in Hi. by apply eq_None_not_Some.
Qed.

(** The [keys.forEach] of terminate: every listed item is terminated and
    deleted, none of the assertions fails. *)
Lemma remove_each_item (keys : list Z) (s : Sub) :
  NoDup keys →
  (∀ k, k ∈ keys → is_Some (monitoredItems s !! k)) →
  forEach (λ key,
      do status <- removeMonitoredItem key;
      assert (bool_decide (status = Good)) "status === StatusCodes.Good") keys s
  = Ret tt (set_monitoredItems (foldl (λ o' k, delete k o') (monitoredItems s) keys)
              (set_effects (effects s ++ map ItemTerminated keys) s)).
Proof.
  revert s. induction keys as [|key keys IH]; intros s Hnd Hin; simpl.
  - unfold ret. f_equal. same_object.
  - apply NoDup_cons in Hnd as [Hkey Hnd].
    destruct (Hin key) as [item Hitem]; [left|].
    unfold removeMonitoredItem, getMonitoredItem. run. rewrite Hitem. run.
    rewrite IH; [|done|].
    + f_equal. same_object.
    + intros k Hk. simpl. rewrite lookup_delete_ne; [|set_solver].
      apply Hin. by right.
Qed.

(** A call of terminate on a CLOSED subscription changes nothing. *)
Lemma terminate_closed_noop (s : Sub) :
  state s = CLOSED → terminate s = Ret tt s.
Proof.
  intros Hclosed. unfold terminate. run.
  by destruct (decide (state s = CLOSED)).
Qed.

(** C9: the first call of terminate on a subscription that is not CLOSED
    returns after stopping the timer, terminating and deleting every
    monitored item (in key order), queueing one StatusChange(BadTimeout)
    message under the next sequence number, setting the state to CLOSED and
    emitting "terminated"; calling terminate again, as on any CLOSED
    subscription, changes nothing. *)
Theorem terminate_idempotent (s : Sub) :
  state s ≠ CLOSED →
  ∃ s' : Sub,
    terminate s = Ret tt s'
    ∧ s' =
        set_effects
          (effects s
           ++ match timerId s with
              | Some _ => [ClearInterval; RegistryUnregister]
              | None => []
              end
           ++ map ItemTerminated (Object_keys (monitoredItems s))
           ++ [Emit Ev_terminated])
          (set_state CLOSED
             (set_pending_notifications
                (_pending_notifications s
                 ++ [{| notification :=
                          {| msg_sequenceNumber := _counter (_sequence_number_generator s);
                             notificationData := [StatusChangeNotification BadTimeout] |};
                        start_tick := publishIntervalCount s;
                        sequenceNumber := _counter (_sequence_number_generator s) |}])
                (set_sequence_number_generator
                   {| _counter := _counter (_sequence_number_generator s) + 1 |}
                   (set_monitoredItems ∅ (set_timerId None s)))))
    ∧ timerId s' = None
    ∧ monitoredItems s' = ∅
    ∧ (∀ k, is_Some (monitoredItems s !! k) → ItemTerminated k ∈ effects s')
    ∧ state s' = CLOSED
    ∧ terminate s' = Ret tt s'
    ∧ (∀ closed : Sub, state closed = CLOSED → terminate closed = Ret tt closed).
Proof.
  intros Hopen.
  eexists. split; [|split; [reflexivity|]].
  - unfold terminate. unfold bind at 1. unfold gets at 1.
    destruct (decide (state s = CLOSED)) as [Hclosed|_]; [done|].
    rewrite (bind_Ret _ _ _ _ _ (stop_timer_returns s)).
    unfold bind at 1. unfold gets at 1.
    rewrite (bind_Ret _ _ _ tt _ (remove_each_item _ _ (NoDup_Object_keys _)
               (λ k Hk, proj1 (elem_of_Object_keys _ k) Hk))).
    simpl monitoredItems. rewrite delete_all_keys.
    unfold monitoredItemCount. run. rewrite Object_keys_empty. run.
    unfold addNotificationMessage, _get_next_sequence_number. run.
    f_equal. same_object.
  - simpl. repeat split.
    + intros k Hk. apply elem_of_app. right. apply elem_of_app. right.
      apply elem_of_app. left. apply list_elem_of_fmap. exists k.
      split; [done|]. by apply elem_of_Object_keys.
    + apply terminate_closed_noop.
Qed.

(** *** The keep-alive branch of process_subscription *)

(** When the cycle has nothing to publish, the keep-alive counter reaches
    its maximum and the engine refuses the keep-alive, the assertion of line
    489 fires: the call throws, the counter has been incremented and the
    state has not been set to LATE. *)
Lemma process_subscription_keep_alive_refused (s : Sub) (engine' : E) :
  prepareNotification s = Ret tt s →
  _pending_notifications s = [] ∨ publishingEnabled s = false →
  maxKeepAliveCount s ≤ _keep_alive_counter s + 1 →
  send_keep_alive_response (subscriptionId s)
    (sng_future (_sequence_number_generator s)) (publishEngine s) = (false, engine') →
  process_subscription s =
    Throw (AssertionError " ?????")
      (set_publishEngine engine' (set_keep_alive_counter (_keep_alive_counter s + 1) s)).
Proof.
  intros Hprepare Hidle Hexpired Hrefused.
  unfold process_subscription.
  rewrite (bind_Ret _ _ _ _ _ Hprepare).
  unfold hasPendingNotifications, pendingNotificationsCount, increaseKeepAliveCounter,
    keepAliveCounterHasExpired, _sendKeepAliveResponse, _get_future_sequence_number.
  run.
  assert (Hcond : (0 <? Z.of_nat (length (_pending_notifications s)))
                  && publishingEnabled s = false).
  { destruct Hidle as [-> | ->]; [reflexivity|apply andb_false_r]. }
  rewrite Hcond. run.
  apply Z.leb_le in Hexpired. rewrite Hexpired. run.
  rewrite Hrefused. run. reflexivity.
Qed.

(** *** Filter validation *)

Lemma validateDataChangeFilter_state {S} (filter0 : DataChangeFilter)
    (item : ReadValueId) (node : Node) (st st' : S) (code : StatusCode) :
  __validateDataChangeFilter filter0 item node st = Ret code st' → st' = st.
Proof.
  unfold __validateDataChangeFilter. run.
  repeat case_match; run; congruence.
Qed.

Lemma validateFilter_state {S} (filter0 : option MonitoringFilter)
    (item : ReadValueId) (node : Node) (st st' : S) (code : StatusCode) :
  __validateFilter filter0 item node st = Ret code st' → st' = st.
Proof.
  unfold __validateFilter. run.
  repeat case_match; run; try congruence;
    apply validateDataChangeFilter_state.
Qed.


(** *** createMonitoredItem *)

(** Once the six static checks have passed, createMonitoredItem is filter
    validation followed by registration. *)
Lemma createMonitoredItem_after_checks (addressSpace : AddressSpace)
    (ts : TimestampsToReturn) (req : MonitoredItemCreateRequest) (s : Sub) :
  first_failure (validation_steps (findNode addressSpace (nodeId (itemToMonitor req)))
                   (itemToMonitor req)) = None →
  ∃ node, findNode addressSpace (nodeId (itemToMonitor req)) = Some node
    ∧ createMonitoredItem addressSpace ts req s =
        (do statusCodeFilter <-
           __validateFilter (filter (requestedParameters req)) (itemToMonitor req) node;
         if negb (bool_decide (statusCodeFilter = Good))
         then ret (handle_error statusCodeFilter)
         else
           do monitoredItemCreateResult <- _createMonitoredItemStep2 ts req node;
           do _ <- assert (bool_decide (statusCode monitoredItemCreateResult = Good))
                     "monitoredItemCreateResult.statusCode === StatusCodes.Good";
           let key := monitoredItemId monitoredItemCreateResult in
           do item <- getMonitoredItem key;
           do _ <- assert (bool_decide (is_Some item)) "monitoredItem";
           do _ <- mutate_item key (mi_set_node node);
           do _ <- emit (Ev_monitoredItem key);
           do _ <- mutate_item key (λ monitoredItem,
                     on_monitoredItem monitoredItem (itemToMonitor req));
           do _ <- _createMonitoredItemStep3 key req;
           ret monitoredItemCreateResult) s.
Proof.
  unfold createMonitoredItem, validation_steps. simpl.
  destruct (findNode addressSpace (nodeId (itemToMonitor req))) as [node|];
    [|discriminate].
  intros Hsteps. exists node. split; [reflexivity|].
  repeat (case_match; [discriminate|]). reflexivity.
Qed.

Lemma createMonitoredItem_first_failure (addressSpace : AddressSpace)
    (ts : TimestampsToReturn) (req : MonitoredItemCreateRequest) (s : Sub)
    (code : StatusCode) :
  first_failure (validation_steps (findNode addressSpace (nodeId (itemToMonitor req)))
                   (itemToMonitor req)) = Some code →
  createMonitoredItem addressSpace ts req s = Ret (handle_error code) s.
Proof.
  unfold createMonitoredItem, validation_steps. simpl.
  destruct (findNode addressSpace (nodeId (itemToMonitor req))) as [node|].
  - repeat (case_match; [intros [= <-]; reflexivity|]). discriminate.
  - intros [= <-]. reflexivity.
Qed.

Lemma first_failure_not_Good {M'} `{!Collaborators M'} (found : option Node)
    (item : ReadValueId) :
  first_failure (validation_steps found item) ≠ Some Good.
Proof.
  unfold validation_steps. simpl. repeat case_match; discriminate.
Qed.

(** What registration leaves behind when it returns. *)
Lemma registration_returns (ts : TimestampsToReturn)
    (req : MonitoredItemCreateRequest) (node : Node) (s s' : Sub)
    (r : MonitoredItemCreateResult) :
  (do monitoredItemCreateResult <- _createMonitoredItemStep2 ts req node;
   do _ <- assert (bool_decide (statusCode monitoredItemCreateResult = Good))
             "monitoredItemCreateResult.statusCode === StatusCodes.Good";
   let key := monitoredItemId monitoredItemCreateResult in
   do item <- getMonitoredItem key;
   do _ <- assert (bool_decide (is_Some item)) "monitoredItem";
   do _ <- mutate_item key (mi_set_node node);
   do _ <- emit (Ev_monitoredItem key);
   do _ <- mutate_item key (λ monitoredItem,
             on_monitoredItem monitoredItem (itemToMonitor req));
   do _ <- _createMonitoredItemStep3 key req;
   ret monitoredItemCreateResult) s = Ret r s' →
  statusCode r = Good
  ∧ monitoredItemId r = monitoredItemIdCounter s + 1
  ∧ monitoredItemIdCounter s' = monitoredItemIdCounter s + 1
  ∧ is_Some (monitoredItems s' !! monitoredItemId r)
  ∧ (∀ k, k ≠ monitoredItemId r → monitoredItems s' !! k = monitoredItems s !! k).
Proof.
  unfold _createMonitoredItemStep2, _createMonitoredItemStep3, adjustSamplingInterval,
    mutate_item, getMonitoredItem.
  run. intros Hrun.
  repeat (case_match; run; try discriminate);
    simplify_eq; simpl;
    (split; [reflexivity|]); (split; [reflexivity|]); (split; [reflexivity|]);
    (split;
     [ rewrite !lookup_alter_eq, lookup_insert_eq; by eexists
     | intros k Hk; by rewrite !lookup_alter_ne, lookup_insert_ne by done ]).
Qed.

(** C6: createMonitoredItem answers with the status code of the first check
    that fails, in the order: node id unknown, Value on a non-Variable,
    attribute INVALID, malformed index range, data encoding named on another
    attribute than Value, unsupported data encoding, then the verdict of
    filter validation; whenever it answers with a bad status the subscription
    is unchanged; and it answers Good only if every check passed, in which
    case the result carries the identifier following monitoredItemIdCounter,
    the counter has advanced to it, the item is registered under it and the
    other entries are untouched (the identifier being new when no registered
    identifier exceeds the counter). *)
Theorem createMonitoredItem_validation_order (addressSpace : AddressSpace)
    (ts : TimestampsToReturn) (req : MonitoredItemCreateRequest) (s : Sub) :
  let item := itemToMonitor req in
  let found := findNode addressSpace (nodeId item) in
  (∀ code, first_failure (validation_steps found item) = Some code →
     createMonitoredItem addressSpace ts req s = Ret (handle_error code) s)
  ∧ (first_failure (validation_steps found item) = None →
     ∃ node, found = Some node
       ∧ ∀ code,
           __validateFilter (filter (requestedParameters req)) item node s = Ret code s →
           code ≠ Good →
           createMonitoredItem addressSpace ts req s = Ret (handle_error code) s)
  ∧ (∀ r s', createMonitoredItem addressSpace ts req s = Ret r s' →
       statusCode r ≠ Good → s' = s)
  ∧ (∀ r s', createMonitoredItem addressSpace ts req s = Ret r s' →
       statusCode r = Good →
       first_failure (validation_steps found item) = None
       ∧ (∃ node, found = Some node
            ∧ __validateFilter (filter (requestedParameters req)) item node s
              = Ret Good s)
       ∧ monitoredItemId r = monitoredItemIdCounter s + 1
       ∧ monitoredItemIdCounter s' = monitoredItemIdCounter s + 1
       ∧ is_Some (monitoredItems s' !! monitoredItemId r)
       ∧ (∀ k, k ≠ monitoredItemId r → monitoredItems s' !! k = monitoredItems s !! k)
       ∧ ((∀ k, is_Some (monitoredItems s !! k) → k ≤ monitoredItemIdCounter s) →
          monitoredItems s !! monitoredItemId r = None)).
Proof.
  intros item found. subst item found.
  split; [intros code; apply createMonitoredItem_first_failure|].
  split.
  { intros Hnone.
    destruct (createMonitoredItem_after_checks addressSpace ts req s Hnone)
      as (node & Hnode & Hrun).
    exists node. split; [exact Hnode|].
    intros code Hfilter Hbad. rewrite Hrun.
    rewrite (bind_Ret _ _ _ _ _ Hfilter).
    by rewrite bool_decide_eq_false_2. }
  assert (Hcases : ∀ r s', createMonitoredItem addressSpace ts req s = Ret r s' →
    (statusCode r ≠ Good ∧ s' = s)
    ∨ (statusCode r = Good
       ∧ first_failure (validation_steps
                          (findNode addressSpace (nodeId (itemToMonitor req)))
                          (itemToMonitor req)) = None
       ∧ (∃ node, findNode addressSpace (nodeId (itemToMonitor req)) = Some node
            ∧ __validateFilter (filter (requestedParameters req))
                (itemToMonitor req) node s = Ret Good s)
       ∧ monitoredItemId r = monitoredItemIdCounter s + 1
       ∧ monitoredItemIdCounter s' = monitoredItemIdCounter s + 1
       ∧ is_Some (monitoredItems s' !! monitoredItemId r)
       ∧ (∀ k, k ≠ monitoredItemId r →
               monitoredItems s' !! k = monitoredItems s !! k))).
  { intros r s' Hret.
    destruct (first_failure (validation_steps
                (findNode addressSpace (nodeId (itemToMonitor req)))
                (itemToMonitor req))) as [code|] eqn:Hsteps.
    - rewrite (createMonitoredItem_first_failure _ ts req s code Hsteps) in Hret.
      injection Hret as <- <-. left. split; [|reflexivity]. simpl.
      intros ->. by eapply first_failure_not_Good.
    - destruct (createMonitoredItem_after_checks addressSpace ts req s Hsteps)
        as (node & Hnode & Hrun).
      rewrite Hrun in Hret. unfold bind at 1 in Hret.
      destruct (__validateFilter _ _ node s) as [code s1|e s1|] eqn:Hfilter;
        [|discriminate|discriminate].
      pose proof (validateFilter_state _ _ _ _ _ _ Hfilter) as ->.
      destruct (decide (code = Good)) as [->|Hbad].
      + rewrite bool_decide_eq_true_2 in Hret by done. simpl in Hret.
        apply registration_returns in Hret as (Hgood & Hid & Hcounter & Hreg & Hframe).
        right. repeat split; try done. by exists node.
      + rewrite bool_decide_eq_false_2 in Hret by done. simpl in Hret.
        injection Hret as <- <-. left. by split. }
  split.
  - intros r s' Hret Hbad.
    destruct (Hcases r s' Hret) as [[_ ->]|[Hgood _]]; done.
  - intros r s' Hret Hgood.
    destruct (Hcases r s' Hret) as [[Hbad _]|(_ & Hsteps & Hfilter & Hid & Hc & Hreg & Hfr)];
      [done|].
    repeat split; try done.
    intros Hbound. rewrite Hid.
    destruct (monitoredItems s !! (monitoredItemIdCounter s + 1)) as [m|] eqn:Hm;
      [|reflexivity].
    specialize (Hbound (monitoredItemIdCounter s + 1) (mk_is_Some _ _ Hm)). lia.
Qed.

End Properties.

(** ** The properties on the example subscription *)

Lemma demo_subscription_constructed (requests : Z) (keep_alive : bool) :
  Subscription_new (M:=PlainItem) (demo_options requests keep_alive)
  = Ret tt (demo_subscription requests keep_alive).
Proof. reflexivity. Qed.

Lemma published_subscription_reached :
  publish_then_idle_scenario = Ret tt published_subscription.
Proof. vm_compute. reflexivity. Qed.

Lemma two_items_subscription_reached :
  ∃ r, two_items_scenario = Ret r two_items_subscription ∧ monitoredItemId r = 2.
Proof. eexists. split; vm_compute; reflexivity. Qed.

(** C1 (the code departs from it): after 101 messages have been published
    in 101 publishing cycles, discardOldSentNotifications having run in each
    of them, the sent queue holds 101 records, one more than
    maxNotificationMessagesInQueue: nothing was dropped. *)
Theorem sent_queue_outgrows_its_bound :
  ∃ s, flood_scenario = Ret tt s
    ∧ length (_sent_notifications s) = 101%nat
    ∧ maxNotificationMessagesInQueue < Z.of_nat (length (_sent_notifications s))
    ∧ discardOldSentNotifications s = Ret tt s.
Proof.
  eexists. split; [vm_compute; reflexivity|].
  split; [reflexivity|]. split; [reflexivity|].
  apply discardOldSentNotifications_noop.
Qed.

(** C2, refuted as stated: on the subscription reached by publishing message
    1 and idling one cycle, acknowledgeNotification(1) returns Good and
    empties the sent queue, and both counters still hold 1 instead of 0. *)
Lemma acknowledgeNotification_keeps_counters :
  ∃ s', acknowledgeNotification 1 published_subscription = Ret Good s'
    ∧ _sent_notifications s' = []
    ∧ _life_time_counter s' = 1
    ∧ _keep_alive_counter s' = 1
    ∧ _life_time_counter s' ≠ 0
    ∧ _keep_alive_counter s' ≠ 0.
Proof. eexists. split; [reflexivity|]. repeat split; discriminate. Qed.

(** C3 (the code departs from it): on a tick of a fresh subscription, whose
    keep-alive counter stands at maxKeepAliveCount, with one publish request
    parked and an engine that refuses the keep-alive, the tick throws the
    assertion error of line 489 and the state is still NORMAL; the same
    happens when process_subscription is called with no request parked. *)
Theorem keep_alive_refusal_aborts :
  (∃ s', _tick (demo_subscription 1 false) = Throw (AssertionError " ?????") s'
      ∧ state s' = NORMAL
      ∧ state s' ≠ LATE
      ∧ _keep_alive_counter s' = 4)
  ∧ (∃ s', process_subscription (demo_subscription 0 true)
           = Throw (AssertionError " ?????") s'
      ∧ state s' = NORMAL
      ∧ state s' ≠ LATE).
Proof.
  split; eexists; (split; [vm_compute; reflexivity|]); repeat split; discriminate.
Qed.



(** terminate on the subscription with two monitored items. *)
Lemma terminate_two_items :
  ∃ s', terminate two_items_subscription = Ret tt s'
    ∧ timerId s' = None
    ∧ monitoredItems s' = ∅
    ∧ ItemTerminated 1 ∈ effects s'
    ∧ ItemTerminated 2 ∈ effects s'
    ∧ state s' = CLOSED
    ∧ terminate s' = Ret tt s'.
Proof.
  destruct (terminate_idempotent two_items_subscription)
    as (s' & Hrun & _ & Htimer & Hitems & Hterminated & Hclosed & Hagain & _).
  - simpl. discriminate.
  - exists s'. repeat split; try assumption.
    + apply Hterminated. vm_compute. eauto.
    + apply Hterminated. vm_compute. eauto.
Defined.

(** A tick of a fresh subscription whose engine has no publish request. *)
Lemma tick_without_publish_request_fresh :
  ∃ s', _tick (demo_subscription 0 true) = Ret tt s'
    ∧ state s' = LATE
    ∧ _life_time_counter s' = 1
    ∧ _keep_alive_counter s' = 3
    ∧ publishEngine s' = demo_engine 0 true.
Proof.
  destruct (tick_without_publish_request (demo_subscription 0 true))
    as (s' & Hrun & _ & Hstate & Hlife & Hkeep & Hengine & _).
  - reflexivity.
  - simpl. lia.
  - simpl. lia.
  - exists s'. repeat split; assumption.
Defined.

(** createMonitoredItem on the example address space: each check in turn,
    then a successful creation. *)
Example createMonitoredItem_unknown_node :
  createMonitoredItem demo_address_space TsBoth
    (demo_request 9 AttrValue MalformedRange (Some "Foo"%string) None)
    (demo_subscription 3 true)
  = Ret (handle_error BadNodeIdUnknown) (demo_subscription 3 true).
Proof. reflexivity. Qed.

Example createMonitoredItem_value_of_object :
  createMonitoredItem demo_address_space TsBoth
    (demo_request 2 AttrValue MalformedRange (Some "Foo"%string) None)
    (demo_subscription 3 true)
  = Ret (handle_error BadAttributeIdInvalid) (demo_subscription 3 true).
Proof. reflexivity. Qed.

Example createMonitoredItem_invalid_attribute :
  createMonitoredItem demo_address_space TsBoth
    (demo_request 1 AttrINVALID MalformedRange (Some "Foo"%string) None)
    (demo_subscription 3 true)
  = Ret (handle_error BadAttributeIdInvalid) (demo_subscription 3 true).
Proof. reflexivity. Qed.

Example createMonitoredItem_malformed_range :
  createMonitoredItem demo_address_space TsBoth
    (demo_request 1 AttrEventNotifier MalformedRange (Some "Foo"%string) None)
    (demo_subscription 3 true)
  = Ret (handle_error BadIndexRangeInvalid) (demo_subscription 3 true).
Proof. reflexivity. Qed.

Example createMonitoredItem_encoding_off_value :
  createMonitoredItem demo_address_space TsBoth
    (demo_request 1 AttrEventNotifier WellFormedRange (Some "Foo"%string) None)
    (demo_subscription 3 true)
  = Ret (handle_error BadDataEncodingInvalid) (demo_subscription 3 true).
Proof. reflexivity. Qed.

Example createMonitoredItem_unsupported_encoding :
  createMonitoredItem demo_address_space TsBoth
    (demo_request 1 AttrValue WellFormedRange (Some "Foo"%string)
       (Some (FilterDataChange (percent_filter 150))))
    (demo_subscription 3 true)
  = Ret (handle_error BadDataEncodingUnsupported) (demo_subscription 3 true).
Proof. reflexivity. Qed.

Example createMonitoredItem_refused_filter :
  createMonitoredItem demo_address_space TsBoth
    (demo_request 1 AttrValue WellFormedRange None
       (Some (FilterDataChange (percent_filter 150))))
    (demo_subscription 3 true)
  = Ret (handle_error BadDeadbandFilterInvalid) (demo_subscription 3 true).
Proof. reflexivity. Qed.

Example createMonitoredItem_success :
  ∃ r s', createMonitoredItem demo_address_space TsBoth
            (demo_request 1 AttrValue WellFormedRange None
               (Some (FilterDataChange (percent_filter 10))))
            (demo_subscription 3 true) = Ret r s'
    ∧ statusCode r = Good
    ∧ monitoredItemId r = 1
    ∧ monitoredItems s' !! 1 = Some (demo_item 1).
Proof. eexists _, _. split; [vm_compute; reflexivity|]. repeat split. Qed.

(** * Further properties of the subscription *)

Section MoreProperties.

Context {E M : Type}.
Context `{!PublishEngine E} `{!MonitoredItemClass M} `{!Collaborators M}.

Abbreviation Sub := (Subscription E M).

(** *** Publishing mode and expiration time *)

(** setPublishingMode(b) called twice in a row returns Good, leaves
    publishingEnabled at b and counts both calls in the counter of that mode
    (enableCount for true, disableCount for false), the other counter and the
    rest of the subscription being untouched. *)
Theorem setPublishingMode_twice (b : bool) (s : Sub) :
  ∃ s' : Sub,
    (do _ <- setPublishingMode b; setPublishingMode b) s = Ret Good s'
    ∧ publishingEnabled s' = b
    ∧ enableCount (subscriptionDiagnostics s')
      = enableCount (subscriptionDiagnostics s) + (if b then 2 else 0)
    ∧ disableCount (subscriptionDiagnostics s')
      = disableCount (subscriptionDiagnostics s) + (if b then 0 else 2)
    ∧ s' = set_subscriptionDiagnostics (subscriptionDiagnostics s')
             (set_publishingEnabled b s).
Proof.
  unfold setPublishingMode. run.
  destruct b; (eexists; split; [reflexivity|]); simpl;
    (repeat split; try lia); same_object.
Qed.


(** *** The two queues *)

Lemma popNotificationToSend_returns (s : Sub) r rest :
  _pending_notifications s = r :: rest →
  popNotificationToSend s =
    Ret r (set_keep_alive_counter 0
             (set_life_time_counter 0
                (set_sent_notifications (_sent_notifications s ++ [r])
                   (set_pending_notifications rest s)))).
Proof.
  intros Hp. unfold popNotificationToSend. run. rewrite Hp. run.
  f_equal.
Qed.

Lemma acknowledgeNotification_found (seq : Z) (s : Sub) l1 r l2 :
  _sent_notifications s = l1 ++ r :: l2 →
  sequenceNumber r = seq →
  Forall (λ r', sequenceNumber r' ≠ seq) l2 →
  acknowledgeNotification seq s = Ret Good (set_sent_notifications (l1 ++ l2) s).
Proof.
  intros Hsent Hr Hl2. unfold acknowledgeNotification. run. rewrite Hsent.
  rewrite (find_recording_index_last seq l1 r l2 0 None Hr Hl2). run.
  by rewrite Hsent, delete_middle.
Qed.

Lemma acknowledgeNotification_unknown (seq : Z) (s : Sub) :
  Forall (λ r, sequenceNumber r ≠ seq) (_sent_notifications s) →
  acknowledgeNotification seq s = Ret BadSequenceNumberUnknown s.
Proof.
  intros Hall. unfold acknowledgeNotification. run.
  by rewrite find_recording_index_none.
Qed.

(** popNotificationToSend throws on an empty pending queue and leaves the
    subscription as it was; otherwise it returns the head of the pending
    queue, appends it to the sent queue, resets both counters, and the
    sequence numbers getAvailableSequenceNumbers reports are the same before
    and after. *)
Theorem popNotificationToSend_fifo (s : Sub) :
  (_pending_notifications s = [] →
   popNotificationToSend s = Throw (AssertionError "self.hasPendingNotifications") s)
  ∧ (∀ r rest, _pending_notifications s = r :: rest →
     ∃ s' : Sub,
       popNotificationToSend s = Ret r s'
       ∧ _pending_notifications s' = rest
       ∧ _sent_notifications s' = _sent_notifications s ++ [r]
       ∧ _life_time_counter s' = 0
       ∧ _keep_alive_counter s' = 0
       ∧ ∃ available,
           getAvailableSequenceNumbers s = Ret available s
           ∧ getAvailableSequenceNumbers s' = Ret available s').
Proof.
  split.
  - intros Hp. unfold popNotificationToSend. run. by rewrite Hp.
  - intros r rest Hp. eexists. split; [by apply popNotificationToSend_returns|].
    simpl. repeat split.
    unfold getAvailableSequenceNumbers, getSequenceNumbers. run.
    eexists. split; [reflexivity|]. f_equal.
    rewrite Hp, map_app. simpl. by rewrite <- app_assoc.
Qed.

(** Acknowledging the message popNotificationToSend has just returned undoes
    the move: the call returns Good and the sent queue is what it was before
    the pop, whatever sequence numbers it holds. *)
Theorem pop_then_acknowledge (s : Sub) r rest :
  _pending_notifications s = r :: rest →
  (do popped <- popNotificationToSend;
   acknowledgeNotification (sequenceNumber popped)) s
  = Ret Good (set_keep_alive_counter 0
                (set_life_time_counter 0 (set_pending_notifications rest s))).
Proof.
  intros Hp.
  rewrite (bind_Ret _ _ _ _ _ (popNotificationToSend_returns s r rest Hp)).
  rewrite (acknowledgeNotification_found (sequenceNumber r) _
             (_sent_notifications s) r []); try done.
  f_equal. same_object.
Qed.

(** When the sent queue holds no two records with the same sequence number,
    a sequence number acknowledged with Good is gone: it is no longer in the
    sent queue and a second acknowledgement of it returns
    BadSequenceNumberUnknown. *)
Theorem acknowledge_twice (seq : Z) (s s' : Sub) :
  NoDup (map sequenceNumber (_sent_notifications s)) →
  acknowledgeNotification seq s = Ret Good s' →
  acknowledgeNotification seq s' = Ret BadSequenceNumberUnknown s'
  ∧ (seq ∉ map sequenceNumber (_sent_notifications s'))
  ∧ length (_sent_notifications s) = S (length (_sent_notifications s')).
Proof.
  intros Hnodup Hack.
  destruct (decide (Exists (λ r, sequenceNumber r = seq) (_sent_notifications s)))
    as [Hex|Hnone].
  - destruct (last_match_split seq _ Hex) as (l1 & r & l2 & Hsent & Hr & Hl2).
    rewrite (acknowledgeNotification_found seq s l1 r l2 Hsent Hr Hl2) in Hack.
    injection Hack as <-. simpl.
    rewrite Hsent, map_app in Hnodup. simpl in Hnodup.
    apply NoDup_app in Hnodup as (_ & Hdisjoint & Hright).
    apply NoDup_cons in Hright as [Hr2 _].
    assert (Hgone : Forall (λ r', sequenceNumber r' ≠ seq) (l1 ++ l2)).
    { apply Forall_app. split; [|done].
      apply Forall_forall. intros r' Hr' Heq.
      apply (Hdisjoint (sequenceNumber r')).
      - apply list_elem_of_fmap. by exists r'.
      - rewrite Heq, <- Hr. by left. }
    split; [by apply acknowledgeNotification_unknown|]. split.
    + intros Hin. apply list_elem_of_fmap in Hin as (r' & Heq & Hr').
      rewrite Forall_forall in Hgone. by apply (Hgone r' Hr').
    + rewrite Hsent, !length_app. simpl. lia.
  - apply Forall_Exists_neg in Hnone.
    rewrite (acknowledgeNotification_unknown seq s Hnone) in Hack. discriminate.
Qed.

(** getMessageForSequenceNumber returns the first record of the sent queue
    that carries the number, resets both counters and leaves the queue as it
    is; when no record carries the number it returns null and changes
    nothing. *)
Theorem getMessageForSequenceNumber_spec (seq : Z) (s : Sub) :
  (Exists (λ r, sequenceNumber r = seq) (_sent_notifications s) →
   ∃ l1 r l2,
     _sent_notifications s = l1 ++ r :: l2
     ∧ sequenceNumber r = seq
     ∧ Forall (λ r', sequenceNumber r' ≠ seq) l1
     ∧ getMessageForSequenceNumber seq s
       = Ret (Some r) (set_keep_alive_counter 0 (set_life_time_counter 0 s)))
  ∧ (Forall (λ r, sequenceNumber r ≠ seq) (_sent_notifications s) →
     getMessageForSequenceNumber seq s = Ret None s).
Proof.
  unfold getMessageForSequenceNumber. run.
  induction (_sent_notifications s) as [|e l [IHfound IHnone]]; split.
  - intros Hex. by apply Exists_nil in Hex.
  - reflexivity.
  - intros Hex. simpl.
    destruct (Z.eqb_spec (sequenceNumber e) seq) as [He|He].
    + exists [], e, l. by repeat split.
    + apply Exists_cons in Hex as [Hex|Hex]; [done|].
      destruct (IHfound Hex) as (l1 & r & l2 & -> & Hr & Hl1 & Hrun).
      exists (e :: l1), r, l2. repeat split; try done.
      by constructor.
  - intros Hall. inversion Hall as [|? ? He Hl]; subst. simpl.
    destruct (Z.eqb_spec (sequenceNumber e) seq); [done|]. by apply IHnone.
Qed.

(** *** What every call keeps *)

Lemma post_with_bind {S A B} (I : S → Prop) (Q : B → S → Prop)
    (m : S → outcome S A) (k : A → S → outcome S B) (s : S) :
  post_with I (λ a s', post_with I Q (k a s')) (m s) →
  post_with I Q (bind m k s).
Proof. unfold bind. by destruct (m s). Qed.

Lemma post_with_mono {S A} (I : S → Prop) (Q Q' : A → S → Prop) (o : outcome S A) :
  post_with I Q o → (∀ a s, Q a s → Q' a s) → post_with I Q' o.
Proof. destruct o; simpl; auto. Qed.

Lemma preserves_bind {S A B} (I : S → Prop) (m : S → outcome S A)
    (k : A → S → outcome S B) :
  preserves I m → (∀ a, preserves I (k a)) → preserves I (bind m k).
Proof.
  intros Hm Hk s Hs. apply post_with_bind.
  eapply post_with_mono; [by apply Hm|]. intros a s' Hs'. by apply Hk.
Qed.

Lemma preserves_ret {S A} (I : S → Prop) (a : A) : preserves I (ret a).
Proof. intros s Hs. exact Hs. Qed.

Lemma preserves_gets {S A} (I : S → Prop) (f : S → A) : preserves I (gets f).
Proof. intros s Hs. exact Hs. Qed.

Lemma preserves_throw {S A} (I : S → Prop) (e : Error) : preserves I (@throw S A e).
Proof. intros s Hs. exact Hs. Qed.

Lemma preserves_diverge {S A} (I : S → Prop) : preserves I (@diverge S A).
Proof. intros s Hs. exact Logic.I. Qed.

Lemma preserves_assert {S} (I : S → Prop) (b : bool) (msg : string) :
  preserves I (assert b msg).
Proof. intros s Hs. unfold assert. by destruct b. Qed.

Lemma preserves_update {S} (I : S → Prop) (f : S → S) :
  (∀ s, I s → I (f s)) → preserves I (update f).
Proof. intros Hf s Hs. by apply Hf. Qed.

Lemma preserves_forEach {S A} (I : S → Prop) (f : A → S → outcome S unit)
    (arr : list A) :
  (∀ x, preserves I (f x)) → preserves I (forEach f arr).
Proof.
  intros Hf. induction arr as [|x arr IH]; simpl.
  - apply preserves_ret.
  - apply preserves_bind; [apply Hf|]. intros _. exact IH.
Qed.

Lemma reads_only_preserves {S A} (I : S → Prop) (m : S → outcome S A) :
  reads_only m → preserves I m.
Proof.
  intros Hm s Hs. specialize (Hm s). destruct (m s); simpl in *; by subst.
Qed.

Create HintDb kept discriminated.

Ltac frame :=
  let s := fresh "s" in
  let Hq := fresh "Hq" in let Hi := fresh "Hi" in let Hp := fresh "Hp" in
  let Hl := fresh "Hl" in let Hk := fresh "Hk" in
  intros s (Hq & Hi & Hp & Hl & Hk); unfold well_formed; simpl;
  (split; [|split; [|split; [|split]]]);
  first [assumption | lia | (unfold parameters_in_range in *; lia) | idtac].

Ltac wf_split :=
  unfold well_formed; simpl; (split; [|split; [|split; [|split]]]);
  try assumption; try lia.

Ltac keep_step :=
  lazymatch goal with
  | |- preserves _ (bind _ _) => apply preserves_bind; [|intros ?]
  | |- preserves _ (ret _) => apply preserves_ret
  | |- preserves _ (gets _) => apply preserves_gets
  | |- preserves _ (throw _) => apply preserves_throw
  | |- preserves _ diverge => apply preserves_diverge
  | |- preserves _ (assert _ _) => apply preserves_assert
  | |- preserves _ (forEach _ _) => apply preserves_forEach; intros ?
  | |- preserves _ (update _) => apply preserves_update; frame
  | |- preserves _ (if ?b then _ else _) => destruct b
  | |- preserves _ (match ?x with _ => _ end) => destruct x
  | |- preserves _ _ => solve [auto with kept]
  end.

Ltac keep := repeat keep_step.

Lemma log_kept (e : Effect) : preserves well_formed (log (E:=E) (M:=M) e).
Proof. unfold log. keep. Qed.

Lemma emit_kept (e : Event) : preserves well_formed (emit (E:=E) (M:=M) e).
Proof. apply log_kept. Qed.

Hint Resolve log_kept emit_kept : kept.

Lemma stop_timer_kept : preserves well_formed (_stop_timer (E:=E) (M:=M)).
Proof. unfold _stop_timer. keep. Qed.

Lemma start_timer_kept : preserves well_formed (_start_timer (E:=E) (M:=M)).
Proof. unfold _start_timer. keep. Qed.

Lemma reset_counters_kept :
  preserves well_formed (resetLifeTimeAndKeepAliveCounters (E:=E) (M:=M)).
Proof.
  unfold resetLifeTimeAndKeepAliveCounters, resetLifeTimeCounter, resetKeepAliveCounter.
  keep.
Qed.

Hint Resolve stop_timer_kept start_timer_kept reset_counters_kept : kept.

Lemma counters_kept :
  preserves well_formed (increaseKeepAliveCounter (E:=E) (M:=M))
  ∧ preserves well_formed (keepAliveCounterHasExpired (E:=E) (M:=M))
  ∧ preserves well_formed (increaseLifeTimeCounter (E:=E) (M:=M))
  ∧ preserves well_formed (lifeTimeHasExpired (E:=E) (M:=M)).
Proof.
  unfold increaseKeepAliveCounter, keepAliveCounterHasExpired,
    increaseLifeTimeCounter, lifeTimeHasExpired.
  (split; [|split; [|split]]); keep.
Qed.

Lemma setPublishingMode_kept (b : bool) :
  preserves well_formed (setPublishingMode (E:=E) (M:=M) b).
Proof. unfold setPublishingMode. keep. Qed.

Lemma addNotificationMessage_kept (d : list NotificationData) :
  preserves well_formed (addNotificationMessage (E:=E) (M:=M) d).
Proof.
  intros s (Hq & Hi & Hp & Hl & Hk).
  unfold addNotificationMessage, _get_next_sequence_number. run.
  destruct ((length d =? 1)%nat || (length d =? 2)%nat); simpl.
  - wf_split.
    rewrite app_assoc. apply Forall_app. split; [assumption|].
    by repeat constructor.
  - wf_split.
Qed.

Lemma getMessageForSequenceNumber_kept (seq : Z) :
  preserves well_formed (getMessageForSequenceNumber (E:=E) (M:=M) seq).
Proof. unfold getMessageForSequenceNumber. keep. Qed.

Lemma popNotificationToSend_kept :
  preserves well_formed (popNotificationToSend (E:=E) (M:=M)).
Proof.
  intros s (Hq & Hi & Hp & Hl & Hk).
  unfold popNotificationToSend. run.
  destruct (_pending_notifications s) as [|r rest] eqn:Hpending; simpl.
  - wf_split. by rewrite Hpending.
  - wf_split. by rewrite <- app_assoc.
Qed.

Lemma queue_readers_kept :
  preserves well_formed (discardOldSentNotifications (E:=E) (M:=M))
  ∧ preserves well_formed (getAvailableSequenceNumbers (E:=E) (M:=M))
  ∧ preserves well_formed (hasPendingNotifications (E:=E) (M:=M))
  ∧ preserves well_formed (_get_future_sequence_number (E:=E) (M:=M)).
Proof.
  unfold discardOldSentNotifications, getAvailableSequenceNumbers,
    hasPendingNotifications, pendingNotificationsCount, _get_future_sequence_number.
  (split; [|split; [|split]]); keep.
Qed.

Lemma Forall_delete_at {A} (P : A → Prop) (l : list A) (i : nat) :
  Forall P l → Forall P (delete i l).
Proof.
  intros Hl. revert i. induction Hl as [|x l Hx Hl IH]; intros [|i]; simpl;
    try done; by constructor.
Qed.

Lemma acknowledgeNotification_kept (seq : Z) :
  preserves well_formed (acknowledgeNotification (E:=E) (M:=M) seq).
Proof.
  unfold acknowledgeNotification. keep.
  apply Forall_app in Hq as [Hsent Hpending].
  apply Forall_app. split; [by apply Forall_delete_at|done].
Qed.

Lemma removeMonitoredItem_kept (k : Z) :
  preserves well_formed (removeMonitoredItem (E:=E) (M:=M) k).
Proof.
  unfold removeMonitoredItem, getMonitoredItem. keep.
  destruct Hi as [Hcounter Hi]. split; [exact Hcounter|]. intros k' [found Hfound]. apply Hi.
  apply lookup_delete_Some in Hfound as [_ Hfound]. by exists found.
Qed.

Lemma mutate_item_kept (k : Z) (f : M → M) :
  preserves well_formed (mutate_item (E:=E) k f).
Proof.
  unfold mutate_item. keep.
  destruct Hi as [Hcounter Hi]. split; [exact Hcounter|].
  intros k' Hk'. apply Hi. by rewrite lookup_alter_is_Some in Hk'.
Qed.

Hint Resolve setPublishingMode_kept addNotificationMessage_kept
  getMessageForSequenceNumber_kept popNotificationToSend_kept
  acknowledgeNotification_kept removeMonitoredItem_kept mutate_item_kept : kept.

Lemma terminate_kept : preserves well_formed (terminate (E:=E) (M:=M)).
Proof. unfold terminate, monitoredItemCount. keep. Qed.

Lemma drain_items_kept (keys : list Z) (all_notifications : list ItemNotification) :
  preserves well_formed (drain_items (E:=E) (M:=M) keys all_notifications).
Proof.
  revert all_notifications.
  induction keys as [|key keys IH]; intros all_notifications; simpl.
  - apply preserves_ret.
  - intros s Hwf. apply post_with_bind. unfold getMonitoredItem, gets. simpl.
    destruct (monitoredItems s !! key) as [monitoredItem|] eqn:Hitem; [|exact Hwf].
    destruct (extractMonitoredItemNotifications monitoredItem) as [notifications item'].
    apply post_with_bind. unfold update. simpl.
    apply IH. destruct Hwf as (Hq & Hi & Hp & Hl & Hk). wf_split.
    destruct Hi as [Hcounter Hi]. split; [exact Hcounter|]. intros k Hk'. apply Hi. apply lookup_insert_is_Some in Hk' as [<-|[_ Hk']]; [|done].
    by exists monitoredItem.
Qed.

Lemma chunk_loop_kept (fuel : nat) (all_notifications : list ItemNotification)
    (notificationsMessage : list (list NotificationData)) :
  preserves well_formed
    (chunk_loop (E:=E) (M:=M) fuel all_notifications notificationsMessage).
Proof.
  revert all_notifications notificationsMessage.
  induction fuel as [|fuel IH]; intros [|x all_notifications] notificationsMessage;
    simpl; keep.
Qed.

Hint Resolve drain_items_kept chunk_loop_kept terminate_kept : kept.

Lemma prepareNotification_kept :
  preserves well_formed (prepareNotification (E:=E) (M:=M)).
Proof. unfold prepareNotification, collectNotificationData. keep. Qed.

Lemma attempt_to_publish_kept :
  preserves well_formed (_attempt_to_publish_notification (E:=E) (M:=M)).
Proof.
  pose proof queue_readers_kept as (_ & Havailable & Hpending & _).
  unfold _attempt_to_publish_notification. keep.
Qed.

Lemma sendKeepAliveResponse_kept :
  preserves well_formed (_sendKeepAliveResponse (E:=E) (M:=M)).
Proof.
  pose proof queue_readers_kept as (_ & _ & _ & Hfuture).
  unfold _sendKeepAliveResponse. keep.
Qed.

Hint Resolve prepareNotification_kept attempt_to_publish_kept
  sendKeepAliveResponse_kept : kept.

Lemma process_subscription_kept :
  preserves well_formed (process_subscription (E:=E) (M:=M)).
Proof.
  pose proof queue_readers_kept as (_ & _ & Hpending & _).
  pose proof counters_kept as (Hincrease & Hexpired & _ & _).
  unfold process_subscription. keep.
Qed.

Hint Resolve process_subscription_kept : kept.

Lemma tick_kept : preserves well_formed (_tick (E:=E) (M:=M)).
Proof.
  pose proof queue_readers_kept as (Hdiscard & _ & _ & _).
  pose proof counters_kept as (_ & _ & Hincrease & Hexpired).
  unfold _tick. keep.
Qed.

Lemma modify_kept (param : ModifyParams) :
  preserves well_formed (modify (E:=E) (M:=M) param).
Proof.
  intros s (Hq & Hi & Hp & Hl & Hk).
  pose proof (adjust_publishing_interval_range
                (Some (Js.or_default (requestedPublishingInterval param) 0))) as Hpi.
  pose proof (adjust_maxKeepAliveCount_range
                (Some (Js.or_default (requestedMaxKeepAliveCount param)
                         (maxKeepAliveCount s)))) as Hmk.
  unfold modify, resetLifeTimeAndKeepAliveCounters, resetLifeTimeCounter,
    resetKeepAliveCounter.
  cbv beta iota delta [bind update gets ret].
  rewrite stop_timer_returns. cbv beta iota.
  rewrite start_timer_returns; [|reflexivity|simpl; lia].
  wf_split. unfold parameters_in_range. split; [lia|]. split; [lia|].
  apply adjust_lifeTimeCount_three_times.
Qed.

(** *** Sampling interval and filters read only *)

Lemma adjustSamplingInterval_reads_only (requested : Z) (node : Node) :
  reads_only (adjustSamplingInterval (E:=E) (M:=M) requested node).
Proof.
  intros s. unfold adjustSamplingInterval. run.
  repeat case_match; run; congruence.
Qed.

Lemma validateFilter_reads_only {S} (filter0 : option MonitoringFilter)
    (item : ReadValueId) (node : Node) :
  reads_only (__validateFilter (S:=S) filter0 item node).
Proof.
  intros st. unfold __validateFilter, __validateDataChangeFilter. run.
  repeat case_match; run; congruence.
Qed.

(** *** createMonitoredItem and the calls as a whole *)

Lemma createMonitoredItemStep2_kept (ts : TimestampsToReturn)
    (req : MonitoredItemCreateRequest) (node : Node) :
  preserves well_formed (_createMonitoredItemStep2 (E:=E) (M:=M) ts req node).
Proof.
  intros s (Hq & Hi & Hp & Hl & Hk).
  assert (Hbumped : well_formed
            (set_monitoredItemIdCounter (monitoredItemIdCounter s + 1) s)).
  { wf_split. destruct Hi as [Hcounter Hi]. split; [lia|].
    intros k Hk'. specialize (Hi k Hk'). lia. }
  unfold _createMonitoredItemStep2. run.
  pose proof (adjustSamplingInterval_reads_only
                (samplingInterval (requestedParameters req)) node
                (set_monitoredItemIdCounter (monitoredItemIdCounter s + 1) s)) as Hread.
  destruct (adjustSamplingInterval _ node _) as [revised s1|e s1|];
    simpl in Hread; [subst s1|subst s1; exact Hbumped|exact Logic.I].
  run. destruct (_ =? _); simpl; [|exact Hbumped].
  wf_split. destruct Hi as [Hcounter Hi]. split; [lia|]. intros k Hk'.
  apply lookup_insert_is_Some in Hk' as [<-|[_ Hk']]; [lia|].
  specialize (Hi k Hk'). lia.
Qed.

Lemma createMonitoredItemStep3_kept (key : Z) (req : MonitoredItemCreateRequest) :
  preserves well_formed (_createMonitoredItemStep3 (E:=E) (M:=M) key req).
Proof. unfold _createMonitoredItemStep3, getMonitoredItem. keep. Qed.

Hint Resolve createMonitoredItemStep2_kept createMonitoredItemStep3_kept : kept.

Lemma createMonitoredItem_kept (addressSpace : AddressSpace)
    (ts : TimestampsToReturn) (req : MonitoredItemCreateRequest) :
  preserves well_formed (createMonitoredItem (E:=E) (M:=M) addressSpace ts req).
Proof.
  unfold createMonitoredItem, getMonitoredItem. keep.
  apply reads_only_preserves, validateFilter_reads_only.
Qed.

Lemma perform_kept (c : Call) : preserves well_formed (perform (E:=E) (M:=M) c).
Proof.
  pose proof tick_kept. pose proof modify_kept. pose proof createMonitoredItem_kept.
  destruct c; unfold perform, discard_result; keep.
Qed.

Lemma Subscription_new_well_formed (options : SubscriptionOptions E) (s : Sub) :
  Subscription_new options = Ret tt s → well_formed s.
Proof.
  unfold Subscription_new. intros Hnew.
  match type of Hnew with _start_timer ?self = _ =>
    assert (Hself : well_formed self) end.
  { wf_split.
    - constructor.
    - split; [done|]. intros k Hk. rewrite lookup_empty in Hk. by destruct Hk.
    - split; [apply adjust_publishing_interval_range|].
      split; [apply adjust_maxKeepAliveCount_range|].
      apply adjust_lifeTimeCount_three_times. }
  apply start_timer_kept in Hself. by rewrite Hnew in Hself.
Qed.

(** Every reachable subscription is well formed. *)
Lemma reachable_well_formed (s : Sub) : reachable s → well_formed s.
Proof.
  induction 1 as [options s Hnew|c s s' _ IH Hcall].
  - by eapply Subscription_new_well_formed.
  - apply (perform_kept c) in IH.
    destruct (perform c s); simpl in *; congruence.
Qed.

(** In every reachable subscription the publishing interval lies in
    [100, 2592000000], maxKeepAliveCount in [2, 12000], lifeTimeCount is at
    least three times maxKeepAliveCount, neither counter is negative, and the
    assertion of lifeTimeHasExpired holds: the getter returns. *)
Theorem reachable_parameters (s : Sub) :
  reachable s →
  100 ≤ publishingInterval s ≤ 2592000000
  ∧ 2 ≤ maxKeepAliveCount s ≤ 12000
  ∧ 3 * maxKeepAliveCount s ≤ lifeTimeCount s
  ∧ 0 ≤ _life_time_counter s
  ∧ 0 ≤ _keep_alive_counter s
  ∧ ∃ expired : bool, lifeTimeHasExpired s = Ret expired s.
Proof.
  intros Hreach.
  destruct (reachable_well_formed s Hreach) as (_ & _ & (Hpi & Hmk & Hlt) & Hl & Hk).
  repeat split; try lia.
  unfold lifeTimeHasExpired. run.
  assert ((0 <? lifeTimeCount s) = true) as -> by (apply Z.ltb_lt; lia).
  run. by eexists.
Qed.

(** In every reachable subscription, acknowledgeNotification(seq) returns
    Good exactly when seq is one of the sequence numbers that
    getAvailableSequenceNumbers reports for the sent queue: the number a
    record was filed under and the number of the message it carries never
    part. *)
Theorem reachable_acknowledgeable (s : Sub) (seq : Z) :
  reachable s →
  seq ∈ getSequenceNumbers (_sent_notifications s)
  ↔ ∃ s', acknowledgeNotification seq s = Ret Good s'.
Proof.
  intros Hreach.
  destruct (reachable_well_formed s Hreach) as (Hq & _).
  apply Forall_app in Hq as [Hsent _]. rewrite Forall_forall in Hsent.
  unfold getSequenceNumbers. split.
  - intros Hin. apply list_elem_of_fmap in Hin as (r & -> & Hr).
    assert (Hex : Exists (λ r', sequenceNumber r' = msg_sequenceNumber (notification r))
                    (_sent_notifications s)).
    { apply Exists_exists. exists r. split; [done|]. by apply Hsent. }
    destruct (last_match_split _ _ Hex) as (l1 & r' & l2 & Hs & Hr' & Hl2).
    eexists. by eapply acknowledgeNotification_found.
  - intros [s' Hack].
    destruct (decide (Exists (λ r, sequenceNumber r = seq) (_sent_notifications s)))
      as [Hex|Hnone].
    + apply Exists_exists in Hex as (r & Hr & Hseq).
      apply list_elem_of_fmap. exists r. split; [|done].
      rewrite <- Hseq. by apply Hsent.
    + apply Forall_Exists_neg in Hnone.
      rewrite (acknowledgeNotification_unknown seq s Hnone) in Hack. discriminate.
Qed.

Lemma length_Object_keys (o : gmap Z M) : length (Object_keys o) = size (dom o).
Proof. unfold Object_keys. by rewrite merge_sort_Permutation. Qed.

(** A Good answer of createMonitoredItem comes from the registration steps. *)
Lemma createMonitoredItem_good (addressSpace : AddressSpace) (ts : TimestampsToReturn)
    (req : MonitoredItemCreateRequest) (s s' : Sub) (r : MonitoredItemCreateResult) :
  createMonitoredItem addressSpace ts req s = Ret r s' →
  statusCode r = Good →
  monitoredItemId r = monitoredItemIdCounter s + 1
  ∧ monitoredItemIdCounter s' = monitoredItemIdCounter s + 1
  ∧ is_Some (monitoredItems s' !! monitoredItemId r)
  ∧ (∀ k, k ≠ monitoredItemId r → monitoredItems s' !! k = monitoredItems s !! k).
Proof.
  intros Hret Hgood.
  destruct (first_failure (validation_steps
              (findNode addressSpace (nodeId (itemToMonitor req)))
              (itemToMonitor req))) as [code|] eqn:Hsteps.
  - rewrite (createMonitoredItem_first_failure _ ts req s code Hsteps) in Hret.
    injection Hret as <- <-. simpl in Hgood. subst code.
    by eapply first_failure_not_Good in Hsteps.
  - destruct (createMonitoredItem_after_checks addressSpace ts req s Hsteps)
      as (node & Hnode & Hrun).
    rewrite Hrun in Hret. unfold bind at 1 in Hret.
    destruct (__validateFilter _ _ node s) as [code s1|e s1|] eqn:Hfilter;
      [|discriminate|discriminate].
    pose proof (validateFilter_state _ _ _ _ _ _ Hfilter) as ->.
    destruct (decide (code = Good)) as [->|Hbad].
    + rewrite bool_decide_eq_true_2 in Hret by done. simpl in Hret.
      by apply registration_returns in Hret as (_ & Hid & Hcounter & Hreg & Hframe).
    + rewrite bool_decide_eq_false_2 in Hret by done. simpl in Hret.
      injection Hret as <- <-. done.
Qed.

(** On a reachable subscription a createMonitoredItem that answers Good never
    replaces an item: its identifier is positive, larger than every
    registered identifier and so unused, and monitoredItemCount grows by
    exactly one. *)
Theorem reachable_create_adds_one (addressSpace : AddressSpace)
    (ts : TimestampsToReturn) (req : MonitoredItemCreateRequest) (s s' : Sub)
    (r : MonitoredItemCreateResult) :
  reachable s →
  createMonitoredItem addressSpace ts req s = Ret r s' →
  statusCode r = Good →
  1 ≤ monitoredItemId r
  ∧ (∀ k, is_Some (monitoredItems s !! k) → k < monitoredItemId r)
  ∧ monitoredItems s !! monitoredItemId r = None
  ∧ ∃ n, monitoredItemCount s = Ret n s ∧ monitoredItemCount s' = Ret (n + 1) s'.
Proof.
  intros Hreach Hret Hgood.
  destruct (reachable_well_formed s Hreach) as (_ & (Hcounter & Hids) & _).
  destruct (createMonitoredItem_good _ _ _ _ _ _ Hret Hgood)
    as (Hid & _ & Hreg & Hframe).
  assert (Hbelow : ∀ k, is_Some (monitoredItems s !! k) → k < monitoredItemId r).
  { intros k Hk. specialize (Hids k Hk). lia. }
  assert (Hfresh : monitoredItems s !! monitoredItemId r = None).
  { apply eq_None_not_Some. intros Hk. specialize (Hbelow _ Hk). lia. }
  split; [lia|]. split; [exact Hbelow|]. split; [exact Hfresh|].
  unfold monitoredItemCount. run. eexists. split; [reflexivity|]. f_equal.
  rewrite !length_Object_keys.
  assert (Hdom : dom (monitoredItems s') = {[monitoredItemId r]} ∪ dom (monitoredItems s)).
  { apply set_eq. intros k. rewrite elem_of_union, elem_of_singleton, !elem_of_dom.
    destruct (decide (k = monitoredItemId r)) as [->|Hne].
    - split; [by left|done].
    - rewrite (Hframe k Hne). split; [by right|]. by intros [?|?]. }
  rewrite Hdom, size_union, size_singleton.
  - lia.
  - apply disjoint_singleton_l. rewrite elem_of_dom. by rewrite Hfresh; intros [? ?].
Qed.

(** On a reachable subscription, removing the item a createMonitoredItem has
    just registered returns Good and gives back the registry as it was before
    the creation, while monitoredItemIdCounter keeps its new value. *)
Theorem reachable_create_then_remove (addressSpace : AddressSpace)
    (ts : TimestampsToReturn) (req : MonitoredItemCreateRequest) (s s' : Sub)
    (r : MonitoredItemCreateResult) :
  reachable s →
  createMonitoredItem addressSpace ts req s = Ret r s' →
  statusCode r = Good →
  ∃ s'' : Sub,
    removeMonitoredItem (monitoredItemId r) s' = Ret Good s''
    ∧ monitoredItems s'' = monitoredItems s
    ∧ monitoredItemIdCounter s'' = monitoredItemIdCounter s + 1.
Proof.
  intros Hreach Hret Hgood.
  destruct (reachable_well_formed s Hreach) as (_ & (Hcounter & Hids) & _).
  destruct (createMonitoredItem_good _ _ _ _ _ _ Hret Hgood)
    as (Hid & Hcounter' & [item Hitem] & Hframe).
  unfold removeMonitoredItem, getMonitoredItem. run. rewrite Hitem. run.
  eexists. split; [reflexivity|]. simpl. split; [|exact Hcounter'].
  apply map_eq. intros k.
  destruct (decide (k = monitoredItemId r)) as [->|Hne].
  - rewrite lookup_delete_eq. symmetry. apply eq_None_not_Some.
    intros Hk. specialize (Hids _ Hk). lia.
  - rewrite lookup_delete_ne by done. by apply Hframe.
Qed.

(** *** Notification assembly *)

Lemma filter_partition_length (l : list ItemNotification) :
  (length (List.filter is_MonitoredItemNotification l)
   + length (List.filter is_EventFieldList l) = length l)%nat.
Proof. induction l as [|[] l IH]; simpl; lia. Qed.

Lemma notifications_of_chunk_data (chunk : list ItemNotification) :
  data_changes_of [notifications_of_chunk chunk]
  = List.filter is_MonitoredItemNotification chunk.
Proof.
  unfold data_changes_of, notifications_of_chunk. simpl.
  destruct (List.filter is_MonitoredItemNotification chunk);
    destruct (List.filter is_EventFieldList chunk); simpl;
    by rewrite ?app_nil_r.
Qed.

Lemma notifications_of_chunk_events (chunk : list ItemNotification) :
  events_of [notifications_of_chunk chunk] = List.filter is_EventFieldList chunk.
Proof.
  unfold events_of, notifications_of_chunk. simpl.
  destruct (List.filter is_MonitoredItemNotification chunk);
    destruct (List.filter is_EventFieldList chunk); simpl;
    by rewrite ?app_nil_r.
Qed.

Lemma notifications_of_chunk_length (chunk : list ItemNotification) :
  chunk ≠ [] →
  length (notifications_of_chunk chunk) = 1%nat
  ∨ length (notifications_of_chunk chunk) = 2%nat.
Proof.
  intros Hne. pose proof (filter_partition_length chunk) as Hlen.
  unfold notifications_of_chunk.
  destruct (List.filter is_MonitoredItemNotification chunk);
    destruct (List.filter is_EventFieldList chunk); simpl in *; auto.
  destruct chunk; [done|]. simpl in Hlen. lia.
Qed.

Lemma extract_notifications_chunk_size (all_notifications : list ItemNotification)
    (m : Z) :
  0 ≤ m →
  all_notifications ≠ [] →
  ∃ n : nat,
    extract_notifications_chunk all_notifications (Some m)
    = Some (take n all_notifications, drop n all_notifications)
    ∧ (1 ≤ n ≤ length all_notifications)%nat
    ∧ (0 < m → Z.of_nat n ≤ m)
    ∧ (m = 0 → n = length all_notifications).
Proof.
  intros Hm Hne. unfold extract_notifications_chunk.
  assert (Hlen : (1 ≤ length all_notifications)%nat).
  { destruct all_notifications; [done|]. simpl. lia. }
  destruct (Z.eqb_spec m 0) as [->|Hpos].
  - assert ((Z.of_nat (length all_notifications) <? 0) = false) as ->
      by (apply Z.ltb_ge; lia).
    exists (length all_notifications). rewrite Nat2Z.id.
    repeat split; try lia.
  - assert ((Z.min (Z.of_nat (length all_notifications)) m <? 0) = false) as ->
      by (apply Z.ltb_ge; lia).
    exists (Z.to_nat (Z.min (Z.of_nat (length all_notifications)) m)).
    repeat split; try lia.
Qed.

Lemma data_changes_of_cons (message : list NotificationData) messages :
  data_changes_of (message :: messages)
  = data_changes_of [message] ++ data_changes_of messages.
Proof. unfold data_changes_of. simpl. by rewrite app_nil_r. Qed.

Lemma events_of_cons (message : list NotificationData) messages :
  events_of (message :: messages) = events_of [message] ++ events_of messages.
Proof. unfold events_of. simpl. by rewrite app_nil_r. Qed.

Lemma filter_take_drop {A} (f : A → bool) (n : nat) (l : list A) :
  List.filter f (take n l) ++ List.filter f (drop n l) = List.filter f l.
Proof. by rewrite <- List.filter_app, take_drop. Qed.

(** The chunking loop returns for every non-negative
    maxNotificationsPerPublish, and its messages carry every notification
    once, each variant in its original order. *)
Lemma chunk_loop_returns (m : Z) (fuel : nat) :
  0 ≤ m →
  ∀ (all_notifications : list ItemNotification)
    (notificationsMessage : list (list NotificationData)) (s : Sub),
    maxNotificationsPerPublish s = Some m →
    (length all_notifications ≤ fuel)%nat →
    ∃ messages,
      chunk_loop fuel all_notifications notificationsMessage s
      = Ret (notificationsMessage ++ messages) s
      ∧ data_changes_of messages
        = List.filter is_MonitoredItemNotification all_notifications
      ∧ events_of messages = List.filter is_EventFieldList all_notifications
      ∧ Forall (λ message,
                  (length message = 1%nat ∨ length message = 2%nat)
                  ∧ (1 ≤ item_count message)%nat
                  ∧ (0 < m → Z.of_nat (item_count message) ≤ m)) messages
      ∧ (m = 0 → (length messages ≤ 1)%nat).
Proof.
  intros Hm. induction fuel as [|fuel IH];
    intros [|x all_notifications] notificationsMessage s Hmax Hfuel.
  - exists []. simpl. rewrite app_nil_r. repeat split; try done; try lia.
  - simpl in Hfuel. lia.
  - exists []. simpl. rewrite app_nil_r. repeat split; try done; try lia.
  - destruct (extract_notifications_chunk_size (x :: all_notifications) m Hm)
      as (n & Hchunk & Hn & Hbound & Hall); [done|].
    set (chunk := take n (x :: all_notifications)) in *.
    set (rest := drop n (x :: all_notifications)) in *.
    assert (Hchunk_len : length chunk = n) by (apply length_take_le; lia).
    assert (Hchunk_ne : chunk ≠ []).
    { intros Hnil. rewrite Hnil in Hchunk_len. simpl in Hchunk_len. lia. }
    assert (Hrest : (length rest ≤ fuel)%nat).
    { subst rest. rewrite length_drop. simpl in *. lia. }
    destruct (IH rest (notificationsMessage ++ [notifications_of_chunk chunk]) s
                Hmax Hrest) as (messages & Hrun & Hdata & Hevents & Hshape & Hone).
    exists (notifications_of_chunk chunk :: messages).
    assert (Hcount : item_count (notifications_of_chunk chunk) = n).
    { unfold item_count.
      rewrite notifications_of_chunk_data, notifications_of_chunk_events.
      by rewrite filter_partition_length. }
    split; [|split; [|split; [|split]]].
    + cbn [chunk_loop]. unfold bind at 1. unfold gets at 1. rewrite Hmax, Hchunk.
      destruct (notifications_of_chunk_length chunk Hchunk_ne) as [Hlen|Hlen];
        rewrite Hlen; simpl; unfold bind, ret; rewrite Hrun;
        by rewrite <- app_assoc.
    + rewrite data_changes_of_cons, notifications_of_chunk_data, Hdata.
      apply filter_take_drop.
    + rewrite events_of_cons, notifications_of_chunk_events, Hevents.
      apply filter_take_drop.
    + constructor; [|exact Hshape].
      split; [by apply notifications_of_chunk_length|]. rewrite Hcount.
      split; [lia|exact Hbound].
    + intros ->. assert (rest = []) as Hnil.
      { apply length_zero_iff_nil. subst rest. rewrite length_drop.
        rewrite (Hall eq_refl). lia. }
      rewrite Hnil in Hrun. destruct fuel; simpl in Hrun; unfold ret in Hrun;
        injection Hrun as Hrun; apply (f_equal length) in Hrun;
        rewrite !length_app in Hrun; simpl in *; lia.
Qed.

Lemma alter_present (f : M → M) (k : Z) (o : gmap Z M) (x : M) :
  o !! k = Some x → alter f k o = <[k := f x]> o.
Proof.
  intros Hk. apply map_eq. intros i.
  destruct (decide (i = k)) as [->|Hne].
  - by rewrite lookup_alter_eq, lookup_insert_eq, Hk.
  - by rewrite lookup_alter_ne, lookup_insert_ne.
Qed.

Lemma lookup_alter_all (f : M → M) (keys : list Z) (o : gmap Z M) (i : Z) :
  NoDup keys →
  foldl (λ o' k, alter f k o') o keys !! i
  = if decide (i ∈ keys) then f <$> o !! i else o !! i.
Proof.
  revert o. induction keys as [|k keys IH]; intros o Hnd.
  - destruct (decide (i ∈ [])) as [Hi|_]; [by apply elem_of_nil in Hi|done].
  - apply NoDup_cons in Hnd as [Hk Hnd]. simpl (foldl _ _ _).
    rewrite (IH _ Hnd).
    destruct (decide (i ∈ keys)) as [Hin|Hout];
      destruct (decide (i ∈ k :: keys)) as [Hin'|Hout'].
    + destruct (decide (i = k)) as [->|Hne]; [done|].
      by rewrite lookup_alter_ne.
    + exfalso. apply Hout'. by right.
    + apply elem_of_cons in Hin' as [->|Hin']; [|done].
      by rewrite lookup_alter_eq.
    + rewrite lookup_alter_ne; [done|]. intros ->. apply Hout'. by left.
Qed.

Lemma alter_all_keys (f : M → M) (o : gmap Z M) :
  foldl (λ o' k, alter f k o') o (Object_keys o) = f <$> o.
Proof.
  apply map_eq. intros i.
  rewrite (lookup_alter_all _ _ _ _ (NoDup_Object_keys o)), lookup_fmap.
  case_decide as Hi; [done|].
  rewrite elem_of_Object_keys in Hi. apply eq_None_not_Some in Hi.
  by rewrite Hi.
Qed.

Lemma flat_map_agree {A B} (f g : A → list B) (l : list A) :
  (∀ x, x ∈ l → f x = g x) → flat_map f l = flat_map g l.
Proof.
  induction l as [|x l IH]; intros Hfg; simpl; [done|].
  rewrite (Hfg x) by (by left). rewrite IH; [done|].
  intros y Hy. apply Hfg. by right.
Qed.

Lemma drain_items_returns (keys : list Z) :
  ∀ (all_notifications : list ItemNotification) (s : Sub),
    NoDup keys →
    (∀ k, k ∈ keys → is_Some (monitoredItems s !! k)) →
    drain_items keys all_notifications s
    = Ret (all_notifications
           ++ flat_map (λ k,
                match monitoredItems s !! k with
                | Some monitoredItem =>
                    fst (extractMonitoredItemNotifications monitoredItem)
                | None => []
                end) keys)
        (set_monitoredItems
           (foldl (λ o' k,
                     alter (λ monitoredItem,
                              snd (extractMonitoredItemNotifications monitoredItem)) k o')
              (monitoredItems s) keys) s).
Proof.
  induction keys as [|key keys IH]; intros all_notifications s Hnd Hin.
  - simpl. unfold ret. rewrite app_nil_r. f_equal. same_object.
  - apply NoDup_cons in Hnd as [Hkey Hnd].
    destruct (Hin key) as [monitoredItem Hitem]; [by left|].
    cbn [drain_items]. unfold bind at 1. unfold getMonitoredItem, gets.
    rewrite Hitem.
    destruct (extractMonitoredItemNotifications monitoredItem)
      as [notifications item'] eqn:Hextract.
    unfold bind at 1. unfold update.
    rewrite IH; [|done|].
    + simpl. rewrite Hitem, Hextract. simpl.
      rewrite (alter_present _ _ _ _ Hitem), Hextract. simpl.
      f_equal.
      rewrite <- app_assoc. f_equal. f_equal.
      apply flat_map_agree. intros k Hk.
      rewrite lookup_insert_ne; [done|].
      by intros ->.
    + intros k Hk. simpl. rewrite lookup_insert_ne; [|set_solver].
      apply Hin. by right.
Qed.

(** collectNotificationData drains the items, then cuts what it got into
    messages. *)
Lemma collectNotificationData_unfold (s : Sub) :
  collectNotificationData s
  = chunk_loop (length (drained_notifications (monitoredItems s)))
      (drained_notifications (monitoredItems s)) []
      (set_monitoredItems (drained_items (monitoredItems s)) s).
Proof.
  unfold collectNotificationData.
  unfold bind at 1. unfold gets at 1.
  rewrite (bind_Ret _ _ _ _ _
             (drain_items_returns _ [] s (NoDup_Object_keys _)
                (λ k Hk, proj1 (elem_of_Object_keys _ k) Hk))).
  rewrite alter_all_keys. reflexivity.
Qed.

(** For every non-negative maxNotificationsPerPublish,
    collectNotificationData returns; it takes from every item, in key order,
    what extractMonitoredItemNotifications hands over and leaves the rest in
    the item; the messages it builds carry every data change and every event
    exactly once and in order; each message has one or two parts and at least
    one notification, at most maxNotificationsPerPublish of them when that
    limit is positive; with the limit 0 there is at most one message. *)
Theorem collectNotificationData_no_loss (m : Z) (s : Sub) :
  maxNotificationsPerPublish s = Some m →
  0 ≤ m →
  ∃ messages,
    collectNotificationData s
    = Ret messages (set_monitoredItems (drained_items (monitoredItems s)) s)
    ∧ data_changes_of messages
      = List.filter is_MonitoredItemNotification
          (drained_notifications (monitoredItems s))
    ∧ events_of messages
      = List.filter is_EventFieldList (drained_notifications (monitoredItems s))
    ∧ Forall (λ message,
                (length message = 1%nat ∨ length message = 2%nat)
                ∧ (1 ≤ item_count message)%nat
                ∧ (0 < m → Z.of_nat (item_count message) ≤ m)) messages
    ∧ (m = 0 → (length messages ≤ 1)%nat).
Proof.
  intros Hmax Hm. rewrite collectNotificationData_unfold.
  destruct (chunk_loop_returns m (length (drained_notifications (monitoredItems s)))
              Hm (drained_notifications (monitoredItems s)) []
              (set_monitoredItems (drained_items (monitoredItems s)) s) Hmax
              (le_n _))
    as (messages & Hrun & Hrest).
  exists messages. split; [exact Hrun|exact Hrest].
Qed.

(** *** Sampling interval *)


(** *** Which filters are accepted *)

(** A request without filter passes filter validation; an EventFilter passes
    only on the EventNotifier attribute and always does there; an
    AggregateFilter passes exactly on Value or EventNotifier; a
    DataChangeFilter is refused with BadFilterNotAllowed on every attribute
    but Value; every refusal for the attribute carries BadFilterNotAllowed
    and nothing is changed. *)
Theorem validateFilter_by_attribute {S} (item : ReadValueId) (node : Node) (st : S) :
  __validateFilter None item node st = Ret Good st
  ∧ (∀ f, __validateFilter (Some (FilterEvent f)) item node st
          = Ret (if decide (attributeId item = AttrEventNotifier)
                 then Good else BadFilterNotAllowed) st)
  ∧ __validateFilter (Some FilterAggregate) item node st
    = Ret (if decide (attributeId item = AttrEventNotifier ∨ attributeId item = AttrValue)
           then Good else BadFilterNotAllowed) st
  ∧ (∀ f, attributeId item ≠ AttrValue →
          __validateFilter (Some (FilterDataChange f)) item node st
          = Ret BadFilterNotAllowed st)
  ∧ (∀ f, attributeId item = AttrValue →
          __validateFilter (Some (FilterDataChange f)) item node st
          = __validateDataChangeFilter f item node st).
Proof.
  unfold __validateFilter. simpl.
  split; [reflexivity|]. split; [|split; [|split]].
  - intros f. destruct (decide (attributeId item = AttrEventNotifier)) as [Heq|Hne].
    + rewrite Heq. reflexivity.
    + rewrite (bool_decide_eq_false_2 _ Hne). reflexivity.
  - destruct (decide (attributeId item = AttrEventNotifier ∨ attributeId item = AttrValue))
      as [[Heq|Heq]|Hne].
    + rewrite Heq. reflexivity.
    + rewrite Heq. reflexivity.
    + rewrite !bool_decide_eq_false_2 by tauto. reflexivity.
  - intros f Hne. rewrite (bool_decide_eq_false_2 _ Hne). reflexivity.
  - intros f Heq. rewrite Heq. reflexivity.
Qed.

(** *** Expiry, keep-alive and publishing *)

Lemma terminate_open_returns (s : Sub) :
  state s ≠ CLOSED →
  terminate s =
    Ret tt
      (set_effects
         (effects s
          ++ match timerId s with
             | Some _ => [ClearInterval; RegistryUnregister]
             | None => []
             end
          ++ map ItemTerminated (Object_keys (monitoredItems s))
          ++ [Emit Ev_terminated])
         (set_state CLOSED
            (set_pending_notifications
               (_pending_notifications s
                ++ [{| notification :=
                         {| msg_sequenceNumber := _counter (_sequence_number_generator s);
                            notificationData := [StatusChangeNotification BadTimeout] |};
                       start_tick := publishIntervalCount s;
                       sequenceNumber := _counter (_sequence_number_generator s) |}])
               (set_sequence_number_generator
                  {| _counter := _counter (_sequence_number_generator s) + 1 |}
                  (set_monitoredItems ∅ (set_timerId None s)))))).
Proof.
  intros Hopen.
  unfold terminate. unfold bind at 1. unfold gets at 1.
  destruct (decide (state s = CLOSED)) as [Hclosed|_]; [done|].
  rewrite (bind_Ret _ _ _ _ _ (stop_timer_returns s)).
  unfold bind at 1. unfold gets at 1.
  rewrite (bind_Ret _ _ _ tt _ (remove_each_item _ _ (NoDup_Object_keys _)
             (λ k Hk, proj1 (elem_of_Object_keys _ k) Hk))).
  simpl monitoredItems. rewrite delete_all_keys.
  unfold monitoredItemCount. run. rewrite Object_keys_empty. run.
  unfold addNotificationMessage, _get_next_sequence_number. run.
  f_equal. same_object.
Qed.

(** On a tick that brings the life-time counter to lifeTimeCount while the
    engine holds no publish request, a subscription that is not CLOSED
    expires: "expired" is emitted, the timer is stopped, every monitored item
    is terminated and removed, one StatusChange(BadTimeout) message is queued
    under the next sequence number and stamped with the new tick count, the
    state is CLOSED and "terminated" is emitted last; the sent queue is not
    touched. *)
Theorem tick_life_time_expiry (s : Sub) :
  let engine :=
    match _on_tick with
    | Some hook => hook (publishEngine s)
    | None => publishEngine s
    end in
  pendingPublishRequestCount engine = 0 →
  0 < lifeTimeCount s →
  lifeTimeCount s ≤ _life_time_counter s + 1 →
  state s ≠ CLOSED →
  ∃ s' : Sub,
    _tick s = Ret tt s'
    ∧ state s' = CLOSED
    ∧ timerId s' = None
    ∧ monitoredItems s' = ∅
    ∧ _pending_notifications s' =
        _pending_notifications s
        ++ [{| notification :=
                 {| msg_sequenceNumber := _counter (_sequence_number_generator s);
                    notificationData := [StatusChangeNotification BadTimeout] |};
               start_tick := publishIntervalCount s + 1;
               sequenceNumber := _counter (_sequence_number_generator s) |}]
    ∧ _sent_notifications s' = _sent_notifications s
    ∧ _life_time_counter s' = _life_time_counter s + 1
    ∧ effects s' =
        effects s
        ++ [Emit Ev_perform_update; ConsoleLog; Emit Ev_expired]
        ++ match timerId s with
           | Some _ => [ClearInterval; RegistryUnregister]
           | None => []
           end
        ++ map ItemTerminated (Object_keys (monitoredItems s))
        ++ [Emit Ev_terminated].
Proof.
  intros engine Hcount Hlife Hexpired Hopen.
  assert (Hhook :
    (match _on_tick with
     | Some hook => update (λ s0 : Sub, set_publishEngine (hook (publishEngine s0)) s0)
     | None => ret tt
     end) s = Ret tt (set_publishEngine engine s)).
  { subst engine. destruct _on_tick; [reflexivity|].
    unfold ret. by destruct s. }
  unfold _tick, prepareNotification, increaseLifeTimeCounter, lifeTimeHasExpired.
  unfold bind at 1. rewrite Hhook. run.
  rewrite Hcount. run.
  rewrite discardOldSentNotifications_noop. run.
  apply Z.ltb_lt in Hlife. rewrite Hlife. run.
  apply Z.leb_le in Hexpired. rewrite Hexpired. run.
  rewrite terminate_open_returns by exact Hopen.
  eexists. split; [reflexivity|]. simpl.
  repeat split. by rewrite <- !app_assoc.
Qed.

(** The keep-alive that is due: nothing to publish and the keep-alive counter
    reaches maxKeepAliveCount. *)
Lemma process_subscription_keep_alive_due (s s1 : Sub) (engine' : E) :
  prepareNotification s = Ret tt s1 →
  _pending_notifications s1 = [] ∨ publishingEnabled s1 = false →
  maxKeepAliveCount s1 ≤ _keep_alive_counter s1 + 1 →
  send_keep_alive_response (subscriptionId s1)
    (sng_future (_sequence_number_generator s1)) (publishEngine s1)
  = (true, engine') →
  process_subscription s
  = Ret tt
      (set_keep_alive_counter 0
         (set_life_time_counter 0
            (set_effects
               (effects s1
                ++ [Emit (Ev_keepalive (sng_future (_sequence_number_generator s1)))])
               (set_publishEngine engine'
                  (set_keep_alive_counter (_keep_alive_counter s1 + 1) s1))))).
Proof.
  intros Hprepare Hidle Hreached Haccepted.
  assert (Hcond : (0 <? Z.of_nat (length (_pending_notifications s1)))
                  && publishingEnabled s1 = false).
  { destruct Hidle as [-> | ->]; [reflexivity|apply andb_false_r]. }
  unfold process_subscription.
  rewrite (bind_Ret _ _ _ _ _ Hprepare).
  unfold hasPendingNotifications, pendingNotificationsCount, increaseKeepAliveCounter,
    keepAliveCounterHasExpired, _sendKeepAliveResponse, _get_future_sequence_number,
    resetLifeTimeAndKeepAliveCounters, resetLifeTimeCounter, resetKeepAliveCounter.
  run. rewrite Hcond. run.
  apply Z.leb_le in Hreached. rewrite Hreached. run.
  rewrite Haccepted. run. reflexivity.
Qed.

(** When, after notification assembly, there is nothing to publish (no
    pending message, or publishing disabled), process_subscription only
    counts the cycle while the keep-alive counter stays below
    maxKeepAliveCount, the engine not being called; once the counter reaches
    it and the engine accepts the keep-alive, "keepalive" is emitted with the
    next sequence number, which is not consumed, and both counters are
    reset. *)
Theorem process_subscription_idle (s s1 : Sub) :
  prepareNotification s = Ret tt s1 →
  _pending_notifications s1 = [] ∨ publishingEnabled s1 = false →
  (_keep_alive_counter s1 + 1 < maxKeepAliveCount s1 →
   process_subscription s
   = Ret tt (set_keep_alive_counter (_keep_alive_counter s1 + 1) s1))
  ∧ (∀ engine' : E,
       maxKeepAliveCount s1 ≤ _keep_alive_counter s1 + 1 →
       send_keep_alive_response (subscriptionId s1)
         (sng_future (_sequence_number_generator s1)) (publishEngine s1)
       = (true, engine') →
       process_subscription s
       = Ret tt
           (set_keep_alive_counter 0
              (set_life_time_counter 0
                 (set_effects
                    (effects s1
                     ++ [Emit (Ev_keepalive (sng_future (_sequence_number_generator s1)))])
                    (set_publishEngine engine'
                       (set_keep_alive_counter (_keep_alive_counter s1 + 1) s1)))))).
Proof.
  intros Hprepare Hidle. split.
  - intros Hbelow.
    assert (Hcond : (0 <? Z.of_nat (length (_pending_notifications s1)))
                    && publishingEnabled s1 = false).
    { destruct Hidle as [-> | ->]; [reflexivity|apply andb_false_r]. }
    unfold process_subscription.
    rewrite (bind_Ret _ _ _ _ _ Hprepare).
    unfold hasPendingNotifications, pendingNotificationsCount, increaseKeepAliveCounter,
      keepAliveCounterHasExpired.
    run. rewrite Hcond. run.
    assert ((maxKeepAliveCount s1 <=? _keep_alive_counter s1 + 1) = false) as ->
      by (apply Z.leb_gt; lia).
    reflexivity.
  - intros engine' Hreached Haccepted.
    exact (process_subscription_keep_alive_due s s1 engine' Hprepare Hidle
             Hreached Haccepted).
Qed.

(** What process_subscription needs of a publishing attempt: one message
    leaves, from the head of the pending queue. *)
Lemma attempt_to_publish_moves_head (s : Sub) r rest :
  _pending_notifications s = r :: rest →
  0 < pendingPublishRequestCount (publishEngine s) →
  ∃ (s' : Sub) (message : PublishMessage),
    _attempt_to_publish_notification s = Ret tt s'
    ∧ publishEngine s' = send_notification_message message (publishEngine s)
    ∧ pm_sequenceNumber message = msg_sequenceNumber (notification r)
    ∧ pm_moreNotifications message = (0 <? Z.of_nat (length rest))
    ∧ _sent_notifications s' = _sent_notifications s ++ [r]
    ∧ _pending_notifications s' = rest
    ∧ _life_time_counter s' = 0
    ∧ _keep_alive_counter s' = 0
    ∧ state s' = (if decide (state s = LATE ∨ state s = KEEPALIVE)
                  then NORMAL else state s)
    ∧ effects s' = effects s ++ [Emit Ev_notification].
Proof.
  intros Hpending Hcount. apply Z.ltb_lt in Hcount.
  unfold _attempt_to_publish_notification, hasPendingNotifications,
    pendingNotificationsCount, popNotificationToSend, getAvailableSequenceNumbers,
    resetLifeTimeAndKeepAliveCounters, resetLifeTimeCounter, resetKeepAliveCounter.
  run. rewrite Hpending. run. rewrite Hcount. run. rewrite Hpending. run.
  destruct (decide (state s = CLOSED)) as [Hclosed|Hopen]; run;
    destruct (decide (state s = LATE ∨ state s = KEEPALIVE)); run;
    eexists _, _; (split; [reflexivity|]); simpl; repeat split.
Qed.

(** With a publish request parked, _attempt_to_publish_notification hands
    the head of the pending queue to the engine and moves it to the sent
    queue: the message sent carries that record's sequence number and data,
    announces more notifications exactly when the pending queue is not empty
    afterwards, and lists as available the sent queue with the record itself
    at its end followed by what is still pending (nothing on a CLOSED
    subscription); both counters are reset, LATE and KEEPALIVE become NORMAL,
    notificationsCount and publishRequestCount grow by one and the data-change
    and event counters stay as they were. *)
Theorem attempt_to_publish_sends_head (s : Sub) r rest :
  _pending_notifications s = r :: rest →
  0 < pendingPublishRequestCount (publishEngine s) →
  ∃ s' : Sub,
    _attempt_to_publish_notification s = Ret tt s'
    ∧ publishEngine s' =
        send_notification_message
          {| pm_subscriptionId := subscriptionId s;
             pm_sequenceNumber := msg_sequenceNumber (notification r);
             pm_notificationData := notificationData (notification r);
             pm_availableSequenceNumbers :=
               if decide (state s = CLOSED) then []
               else getSequenceNumbers (_sent_notifications s ++ [r])
                    ++ getSequenceNumbers rest;
             pm_moreNotifications := 0 <? Z.of_nat (length rest) |}
          (publishEngine s)
    ∧ _sent_notifications s' = _sent_notifications s ++ [r]
    ∧ _pending_notifications s' = rest
    ∧ _life_time_counter s' = 0
    ∧ _keep_alive_counter s' = 0
    ∧ state s' = (if decide (state s = LATE ∨ state s = KEEPALIVE)
                  then NORMAL else state s)
    ∧ notificationsCount (subscriptionDiagnostics s')
      = notificationsCount (subscriptionDiagnostics s) + 1
    ∧ publishRequestCount (subscriptionDiagnostics s')
      = publishRequestCount (subscriptionDiagnostics s) + 1
    ∧ dataChangeNotificationsCount (subscriptionDiagnostics s')
      = dataChangeNotificationsCount (subscriptionDiagnostics s)
    ∧ eventNotificationsCount (subscriptionDiagnostics s')
      = eventNotificationsCount (subscriptionDiagnostics s)
    ∧ effects s' = effects s ++ [Emit Ev_notification].
Proof.
  intros Hpending Hcount. apply Z.ltb_lt in Hcount.
  unfold _attempt_to_publish_notification, hasPendingNotifications,
    pendingNotificationsCount, popNotificationToSend, getAvailableSequenceNumbers,
    resetLifeTimeAndKeepAliveCounters, resetLifeTimeCounter, resetKeepAliveCounter.
  run. rewrite Hpending. run. rewrite Hcount. run. rewrite Hpending. run.
  destruct (decide (state s = CLOSED)) as [Hclosed|Hopen]; run;
    destruct (decide (state s = LATE ∨ state s = KEEPALIVE)); run;
    eexists; (split; [reflexivity|]); simpl; repeat split.
Qed.

(** Without a publish request, _attempt_to_publish_notification sends
    nothing: the queues, the counters and the engine are untouched, the
    "notification" event is still emitted, and the state becomes LATE unless
    the subscription is CLOSED; on an empty pending queue the call fails its
    assertion before anything else. *)
Theorem attempt_to_publish_without_request (s : Sub) :
  (_pending_notifications s = [] →
   _attempt_to_publish_notification s
   = Throw (AssertionError "self.hasPendingNotifications") s)
  ∧ (_pending_notifications s ≠ [] →
     pendingPublishRequestCount (publishEngine s) ≤ 0 →
     _attempt_to_publish_notification s
     = Ret tt (if decide (state s = CLOSED)
               then set_effects (effects s ++ [Emit Ev_notification]) s
               else set_state LATE
                      (set_effects (effects s ++ [Emit Ev_notification]) s))).
Proof.
  unfold _attempt_to_publish_notification, hasPendingNotifications,
    pendingNotificationsCount.
  run. split.
  - intros ->. reflexivity.
  - intros Hpending Hcount.
    destruct (_pending_notifications s) as [|r rest]; [done|]. run.
    assert ((0 <? pendingPublishRequestCount (publishEngine s)) = false) as ->
      by (apply Z.ltb_ge; lia).
    run. by destruct (decide (state s = CLOSED)).
Qed.

(** *** The registry of monitored items *)

Lemma push_handles_returns (keys : list Z) :
  ∀ (result : MonitoredItemsResult) (s : Sub),
    (∀ k, k ∈ keys → is_Some (monitoredItems s !! k)) →
    push_handles keys result s
    = Ret {| serverHandles := serverHandles result ++ keys;
             clientHandles :=
               clientHandles result
               ++ omap (λ k, mi_clientHandle <$> monitoredItems s !! k) keys;
             mir_statusCode := mir_statusCode result |} s.
Proof.
  induction keys as [|key keys IH]; intros result s Hin.
  - simpl. unfold ret. rewrite !app_nil_r. by destruct result.
  - destruct (Hin key) as [monitoredItem Hitem]; [by left|].
    cbn [push_handles]. unfold bind at 1. unfold getMonitoredItem, gets.
    rewrite Hitem. rewrite IH by (intros k Hk; apply Hin; by right).
    simpl. rewrite Hitem. simpl. by rewrite <- !app_assoc.
Qed.

(** getMonitoredItems never throws and changes nothing: it answers Good, its
    serverHandles are the registered identifiers, each once and in ascending
    order, and clientHandles lists, position by position, the client handle
    of the item registered under the server handle. *)
Theorem getMonitoredItems_spec (s : Sub) :
  ∃ result,
    getMonitoredItems s = Ret result s
    ∧ mir_statusCode result = Good
    ∧ (∀ k, k ∈ serverHandles result ↔ is_Some (monitoredItems s !! k))
    ∧ NoDup (serverHandles result)
    ∧ Sorted Z.le (serverHandles result)
    ∧ length (clientHandles result) = length (serverHandles result)
    ∧ ∀ i k, serverHandles result !! i = Some k →
        ∃ monitoredItem,
          monitoredItems s !! k = Some monitoredItem
          ∧ clientHandles result !! i = Some (mi_clientHandle monitoredItem).
Proof.
  unfold getMonitoredItems. unfold bind, gets.
  rewrite push_handles_returns
    by (intros k Hk; by apply elem_of_Object_keys).
  eexists. split; [reflexivity|]. simpl.
  assert (Hhandles : ∀ keys : list Z,
    (∀ k, k ∈ keys → is_Some (monitoredItems s !! k)) →
    ∀ i k, keys !! i = Some k →
      ∃ monitoredItem,
        monitoredItems s !! k = Some monitoredItem
        ∧ omap (λ k, mi_clientHandle <$> monitoredItems s !! k) keys !! i
          = Some (mi_clientHandle monitoredItem)).
  { induction keys as [|key keys IH]; intros Hin i k Hi; [done|].
    destruct (Hin key) as [monitoredItem Hitem]; [by left|].
    simpl. rewrite Hitem. simpl. destruct i as [|i]; simpl in *.
    - injection Hi as <-. by exists monitoredItem.
    - apply IH; [|done]. intros k' Hk'. apply Hin. by right. }
  repeat split.
  - by apply elem_of_Object_keys.
  - by apply elem_of_Object_keys.
  - apply NoDup_Object_keys.
  - apply Sorted_merge_sort. apply _.
  - clear Hhandles.
    assert (Hlen : ∀ keys : list Z,
      (∀ k, k ∈ keys → is_Some (monitoredItems s !! k)) →
      length (omap (λ k, mi_clientHandle <$> monitoredItems s !! k) keys)
      = length keys).
    { induction keys as [|key keys IH]; intros Hin; [done|].
      destruct (Hin key) as [monitoredItem Hitem]; [by left|].
      simpl. rewrite Hitem. simpl. f_equal. apply IH.
      intros k' Hk'. apply Hin. by right. }
    apply Hlen. intros k Hk. by apply elem_of_Object_keys.
  - apply Hhandles. intros k Hk. by apply elem_of_Object_keys.
Qed.

(** removeMonitoredItem answers BadMonitoredItemIdInvalid and changes nothing
    for an identifier that is not registered; for a registered one it
    terminates the item, deletes that entry only and answers Good, after
    which a second removal of the identifier is refused. *)
Theorem removeMonitoredItem_twice (k : Z) (s : Sub) :
  (monitoredItems s !! k = None →
   removeMonitoredItem k s = Ret BadMonitoredItemIdInvalid s)
  ∧ (is_Some (monitoredItems s !! k) →
     ∃ s' : Sub,
       removeMonitoredItem k s = Ret Good s'
       ∧ s' = set_monitoredItems (delete k (monitoredItems s))
                (set_effects (effects s ++ [ItemTerminated k]) s)
       ∧ monitoredItems s' !! k = None
       ∧ (∀ k', k' ≠ k → monitoredItems s' !! k' = monitoredItems s !! k')
       ∧ removeMonitoredItem k s' = Ret BadMonitoredItemIdInvalid s').
Proof.
  unfold removeMonitoredItem, getMonitoredItem. run. split.
  - intros ->. reflexivity.
  - intros [monitoredItem Hitem]. rewrite Hitem. run.
    eexists. split; [reflexivity|]. split; [reflexivity|]. simpl.
    rewrite lookup_delete_eq. repeat split.
    intros k' Hne. by apply lookup_delete_ne.
Qed.

(** *** Assembly into the pending queue and the first cycle *)

Lemma forEach_addNotificationMessage (messages : list (list NotificationData)) :
  ∀ s : Sub,
    Forall (λ message, length message = 1%nat ∨ length message = 2%nat) messages →
    forEach addNotificationMessage messages s
    = Ret tt
        (set_pending_notifications
           (_pending_notifications s
            ++ stamped_records (publishIntervalCount s)
                 (_counter (_sequence_number_generator s)) messages)
           (set_sequence_number_generator
              {| _counter := _counter (_sequence_number_generator s)
                             + Z.of_nat (length messages) |} s)).
Proof.
  induction messages as [|message messages IH]; intros s Hshape.
  - simpl. unfold ret. f_equal. destruct s as [? ? ? ? ? ? ? ? ? ? ? [counter] ? ? ? ? ? ? ? ?].
    eval_fields. simpl. by rewrite Z.add_0_r, app_nil_r.
  - inversion Hshape as [|? ? Hmessage Hrest]; subst.
    cbn [forEach]. unfold bind at 1.
    assert (Hadd : addNotificationMessage message s
      = Ret tt
          (set_pending_notifications
             (_pending_notifications s
              ++ [{| notification :=
                       {| msg_sequenceNumber := _counter (_sequence_number_generator s);
                          notificationData := message |};
                     start_tick := publishIntervalCount s;
                     sequenceNumber := _counter (_sequence_number_generator s) |}])
             (set_sequence_number_generator
                {| _counter := _counter (_sequence_number_generator s) + 1 |} s))).
    { unfold addNotificationMessage, _get_next_sequence_number. run.
      by destruct Hmessage as [-> | ->]. }
    rewrite Hadd, (IH _ Hrest). f_equal. same_object.
    f_equal. f_equal. lia.
Qed.

Lemma prepareNotification_without_items (s : Sub) :
  monitoredItems s = ∅ → prepareNotification s = Ret tt s.
Proof.
  intros Hempty. unfold prepareNotification, collectNotificationData. run.
  destruct (pendingPublishRequestCount (publishEngine s) =? 0); [reflexivity|].
  rewrite Hempty, Object_keys_empty. reflexivity.
Qed.

(** prepareNotification does nothing while the engine holds no publish
    request: the items keep their notifications and no sequence number is
    taken.  With a request parked and a non-negative
    maxNotificationsPerPublish it drains the items and appends one record per
    assembled message to the pending queue, in order, each stamped with the
    current tick count, the sequence counter advancing by the number of
    messages; the messages carry every drained data change and event once. *)
Theorem prepareNotification_spec (m : Z) (s : Sub) :
  (pendingPublishRequestCount (publishEngine s) = 0 →
   prepareNotification s = Ret tt s)
  ∧ (pendingPublishRequestCount (publishEngine s) ≠ 0 →
     maxNotificationsPerPublish s = Some m →
     0 ≤ m →
     ∃ messages,
       prepareNotification s
       = Ret tt
           (set_pending_notifications
              (_pending_notifications s
               ++ stamped_records (publishIntervalCount s)
                    (_counter (_sequence_number_generator s)) messages)
              (set_sequence_number_generator
                 {| _counter := _counter (_sequence_number_generator s)
                                + Z.of_nat (length messages) |}
                 (set_monitoredItems (drained_items (monitoredItems s)) s)))
       ∧ data_changes_of messages
         = List.filter is_MonitoredItemNotification
             (drained_notifications (monitoredItems s))
       ∧ events_of messages
         = List.filter is_EventFieldList (drained_notifications (monitoredItems s))).
Proof.
  split.
  - intros Hcount. unfold prepareNotification. unfold bind at 1. unfold gets at 1.
    cbv beta. rewrite Hcount. reflexivity.
  - intros Hcount Hmax Hm.
    unfold prepareNotification. unfold bind at 1. unfold gets at 1. cbv beta.
    apply Z.eqb_neq in Hcount. rewrite Hcount.
    destruct (chunk_loop_returns m (length (drained_notifications (monitoredItems s)))
                Hm (drained_notifications (monitoredItems s)) []
                (set_monitoredItems (drained_items (monitoredItems s)) s) Hmax
                (le_n _))
      as (messages & Hrun & Hdata & Hevents & Hshape & _).
    rewrite <- collectNotificationData_unfold in Hrun.
    exists messages. split; [|split; [exact Hdata|exact Hevents]].
    rewrite (bind_Ret _ _ _ _ _ Hrun).
    rewrite forEach_addNotificationMessage.
    + f_equal.
    + eapply Forall_impl; [exact Hshape|]. by intros message [Hlen _].
Qed.

(** After notification assembly, with a pending message, publishing enabled
    and a publish request parked, process_subscription hands exactly one
    message to the engine, the head of the pending queue, and asks for an
    immediate further tick exactly when the state is then NORMAL and messages
    are still pending; the keep-alive counter is reset, not incremented. *)
Theorem process_subscription_publishes (s s1 : Sub) r rest :
  prepareNotification s = Ret tt s1 →
  _pending_notifications s1 = r :: rest →
  publishingEnabled s1 = true →
  0 < pendingPublishRequestCount (publishEngine s1) →
  ∃ (s' : Sub) (message : PublishMessage),
    process_subscription s = Ret tt s'
    ∧ publishEngine s' = send_notification_message message (publishEngine s1)
    ∧ pm_sequenceNumber message = msg_sequenceNumber (notification r)
    ∧ pm_moreNotifications message = (0 <? Z.of_nat (length rest))
    ∧ _sent_notifications s' = _sent_notifications s1 ++ [r]
    ∧ _pending_notifications s' = rest
    ∧ _keep_alive_counter s' = 0
    ∧ _life_time_counter s' = 0
    ∧ state s' = (if decide (state s1 = LATE ∨ state s1 = KEEPALIVE)
                  then NORMAL else state s1)
    ∧ effects s' =
        effects s1 ++ [Emit Ev_notification]
        ++ (if bool_decide (state s' = NORMAL) && (0 <? Z.of_nat (length rest))
            then [SetImmediateTick] else []).
Proof.
  intros Hprepare Hpending Henabled Hcount.
  destruct (attempt_to_publish_moves_head s1 r rest Hpending Hcount)
    as (s2 & message & Hattempt & Hengine & Hnumber & Hmore_flag & Hsent & Hrest & Hlife
        & Hkeep & Hstate & Heffects).
  unfold process_subscription.
  rewrite (bind_Ret _ _ _ _ _ Hprepare).
  unfold hasPendingNotifications, pendingNotificationsCount.
  cbv beta iota delta [bind gets ret]. rewrite Hpending, Henabled.
  assert ((0 <? Z.of_nat (length (r :: rest))) = true) as ->
    by (apply Z.ltb_lt; simpl length; lia).
  change (true && true) with true. cbv beta iota.
  rewrite Hattempt. cbv beta iota. rewrite Hrest.
  destruct (bool_decide (state s2 = NORMAL) && (0 <? Z.of_nat (length rest)))
    eqn:Hmore.
  - cbv beta iota delta [log update]. eexists _, _. split; [reflexivity|]. simpl.
    rewrite Hengine, Hsent, Hrest, Hlife, Hkeep, Hstate, Heffects.
    rewrite Hstate in Hmore. rewrite Hmore.
    repeat split; [exact Hnumber|exact Hmore_flag|by rewrite <- app_assoc].
  - cbv beta iota. eexists _, _. split; [reflexivity|].
    rewrite Hengine, Hsent, Hlife, Hkeep, Hstate, Heffects.
    rewrite Hstate in Hmore. rewrite Hmore.
    repeat split; [exact Hnumber|exact Hmore_flag|exact Hrest].
Qed.

Lemma tick_sends_keep_alive (s : Sub) (engine' : E) :
  let engine :=
    match _on_tick with
    | Some hook => hook (publishEngine s)
    | None => publishEngine s
    end in
  pendingPublishRequestCount engine ≠ 0 →
  monitoredItems s = ∅ →
  _pending_notifications s = [] →
  0 < lifeTimeCount s →
  _life_time_counter s + 1 < lifeTimeCount s →
  maxKeepAliveCount s ≤ _keep_alive_counter s + 1 →
  send_keep_alive_response (subscriptionId s)
    (sng_future (_sequence_number_generator s)) engine = (true, engine') →
  _tick s
  = Ret tt
      (set_keep_alive_counter 0
         (set_life_time_counter 0
            (set_effects
               (effects s
                ++ [Emit Ev_perform_update;
                    Emit (Ev_keepalive (sng_future (_sequence_number_generator s)))])
               (set_publishEngine engine'
                  (set_publishIntervalCount (publishIntervalCount s + 1) s))))).
Proof.
  intros engine Hcount Hitems Hpending Hlife Hnot_expired Hdue Haccepted.
  assert (Hhook :
    (match _on_tick with
     | Some hook => update (λ s0 : Sub, set_publishEngine (hook (publishEngine s0)) s0)
     | None => ret tt
     end) s = Ret tt (set_publishEngine engine s)).
  { subst engine. destruct _on_tick; [reflexivity|].
    unfold ret. by destruct s. }
  apply Z.eqb_neq in Hcount.
  unfold _tick, increaseLifeTimeCounter, lifeTimeHasExpired.
  unfold bind at 1. rewrite Hhook.
  cbv beta iota delta [bind update gets ret assert log emit].
  rewrite prepareNotification_without_items by (destruct s; exact Hitems).
  cbv beta iota. rewrite discardOldSentNotifications_noop. cbv beta iota.
  destruct s as [engine0 id0 priority0 interval0 maxKeepAlive0 keepAlive0 lifeTime0
                   maxNotifications0 life0 pending0 sent0 generator0 state0 count0
                   items0 itemCounter0 enabled0 timer0 diagnostics0 effects0].
  eval_fields. cbn [publishEngine subscriptionId maxKeepAliveCount _keep_alive_counter
    lifeTimeCount _life_time_counter _pending_notifications _sequence_number_generator
    monitoredItems publishIntervalCount effects] in *.
  subst items0 pending0.
  apply Z.ltb_lt in Hlife. rewrite Hlife. cbv beta iota.
  assert ((lifeTime0 <=? life0 + 1) = false) as -> by (apply Z.leb_gt; lia).
  cbv beta iota. rewrite Hcount. cbv beta iota.
  match goal with |- context [process_subscription ?t] =>
    rewrite (process_subscription_keep_alive_due t t engine');
      [|apply prepareNotification_without_items; reflexivity|left; reflexivity
       |exact Hdue|exact Haccepted]
  end.
  f_equal. eval_fields. by rewrite <- app_assoc.
Qed.

(** The first tick of a newly built subscription, whose engine then holds a
    publish request and accepts the keep-alive, sends a keep-alive that
    announces sequence number 1 without waiting for maxKeepAliveCount cycles:
    "keepalive" is emitted with 1, both counters are 0 afterwards, the state
    is NORMAL and nothing is queued. *)
Theorem first_tick_sends_keep_alive (options : SubscriptionOptions E) (engine' : E) :
  let engine :=
    match _on_tick with
    | Some hook => hook (opt_publishEngine options)
    | None => opt_publishEngine options
    end in
  let subscriptionId0 :=
    if Js.truthy (opt_id options) then Id (default 0 (opt_id options)) else InvalidId in
  pendingPublishRequestCount engine ≠ 0 →
  send_keep_alive_response subscriptionId0 1 engine = (true, engine') →
  ∃ s s' : Sub,
    Subscription_new options = Ret tt s
    ∧ _tick s = Ret tt s'
    ∧ publishEngine s' = engine'
    ∧ state s' = NORMAL
    ∧ _keep_alive_counter s' = 0
    ∧ _life_time_counter s' = 0
    ∧ _pending_notifications s' = []
    ∧ _sequence_number_generator s' = SequenceNumberGenerator_new
    ∧ effects s' =
        [SetInterval (publishingInterval s); RegistryRegister;
         Emit Ev_perform_update; Emit (Ev_keepalive 1)].
Proof.
  intros engine subscriptionId0 Hcount Haccepted.
  pose proof (adjust_maxKeepAliveCount_range (opt_maxKeepAliveCount options)) as Hmk.
  pose proof (adjust_lifeTimeCount_three_times (opt_lifeTimeCount options)
                (_adjust_maxKeepAliveCount (opt_maxKeepAliveCount options))) as Hlt.
  assert (Hpos : (0 <? _adjust_publishing_interval (opt_publishingInterval options))
                 = true).
  { pose proof (adjust_publishing_interval_range (opt_publishingInterval options)).
    apply Z.ltb_lt. lia. }
  unfold Subscription_new, _start_timer.
  cbv beta iota zeta delta [bind ret gets update assert log]. eval_fields.
  rewrite Hpos. cbv beta iota. eval_fields.
  eexists _, _. split; [reflexivity|].
  split.
  - apply (tick_sends_keep_alive _ engine'); cbn; try reflexivity; try lia.
    + exact Hcount.
    + exact Haccepted.
  - eval_fields. repeat split.
Qed.

End MoreProperties.

(** ** The further properties on the example subscriptions *)

Lemma demo_subscription_reachable (requests : Z) (keep_alive : bool) :
  reachable (demo_subscription requests keep_alive).
Proof.
  apply (reachable_new (demo_options requests keep_alive)).
  apply demo_subscription_constructed.
Qed.

Lemma published_subscription_reachable : reachable published_subscription.
Proof.
  eapply (reachable_call Call_tick).
  - eapply (reachable_call Call_tick).
    + eapply (reachable_call (Call_addNotificationMessage a_data_change)).
      * apply (demo_subscription_reachable 3 true).
      * vm_compute. reflexivity.
    + vm_compute. reflexivity.
  - vm_compute. reflexivity.
Qed.


Lemma pop_then_acknowledge_queued :
  (do popped <- popNotificationToSend;
   acknowledgeNotification (sequenceNumber popped)) queued_subscription
  = Ret Good (set_keep_alive_counter 0
                (set_life_time_counter 0
                   (set_pending_notifications [] queued_subscription))).
Proof.
  exact (pop_then_acknowledge queued_subscription sent_record_1 [] eq_refl).
Defined.

Lemma acknowledge_twice_published :
  acknowledgeNotification 1 (set_sent_notifications [] published_subscription)
  = Ret BadSequenceNumberUnknown (set_sent_notifications [] published_subscription).
Proof.
  destruct (acknowledge_twice 1 published_subscription
              (set_sent_notifications [] published_subscription)) as [Hagain _].
  - simpl. apply NoDup_singleton.
  - reflexivity.
  - exact Hagain.
Defined.

Lemma reachable_parameters_fresh :
  ∃ expired : bool,
    lifeTimeHasExpired (demo_subscription 3 true)
    = Ret expired (demo_subscription 3 true).
Proof.
  destruct (reachable_parameters (demo_subscription 3 true)
              (demo_subscription_reachable 3 true)) as (_ & _ & _ & _ & _ & Hgetter).
  exact Hgetter.
Defined.

Lemma reachable_acknowledgeable_published :
  ∃ s', acknowledgeNotification 1 published_subscription = Ret Good s'.
Proof.
  apply (reachable_acknowledgeable published_subscription 1
           published_subscription_reachable).
  simpl. apply list_elem_of_here.
Defined.

Lemma reachable_create_adds_one_fresh :
  ∃ r s',
    createMonitoredItem demo_address_space TsBoth
      (demo_request 1 AttrValue WellFormedRange None
         (Some (FilterDataChange (percent_filter 10))))
      (demo_subscription 3 true) = Ret r s'
    ∧ monitoredItems (demo_subscription 3 true) !! monitoredItemId r = None
    ∧ monitoredItemCount s' = Ret 1 s'.
Proof.
  destruct createMonitoredItem_success as (r & s' & Hret & Hgood & _).
  destruct (reachable_create_adds_one _ _ _ _ _ _
              (demo_subscription_reachable 3 true) Hret Hgood)
    as (_ & _ & Hfresh & n & Hbefore & Hafter).
  exists r, s'. split; [exact Hret|]. split; [exact Hfresh|].
  assert (n = 0) as -> by (vm_compute in Hbefore; congruence).
  exact Hafter.
Defined.

Lemma reachable_create_then_remove_fresh :
  ∃ r s' s'',
    createMonitoredItem demo_address_space TsBoth
      (demo_request 1 AttrValue WellFormedRange None
         (Some (FilterDataChange (percent_filter 10))))
      (demo_subscription 3 true) = Ret r s'
    ∧ removeMonitoredItem (monitoredItemId r) s' = Ret Good s''
    ∧ monitoredItems s'' = monitoredItems (demo_subscription 3 true)
    ∧ monitoredItemIdCounter s'' = 1.
Proof.
  destruct createMonitoredItem_success as (r & s' & Hret & Hgood & _).
  destruct (reachable_create_then_remove _ _ _ _ _ _
              (demo_subscription_reachable 3 true) Hret Hgood)
    as (s'' & Hremove & Hitems & Hcounter).
  exists r, s', s''. repeat split; assumption.
Defined.

Lemma collectNotificationData_busy :
  ∃ messages s',
    collectNotificationData busy_subscription = Ret messages s'
    ∧ data_changes_of messages
      = [MonitoredItemNotification 7 1; MonitoredItemNotification 7 3;
         MonitoredItemNotification 7 5]
    ∧ events_of messages = [EventFieldList 7 [2]; EventFieldList 7 [4]].
Proof.
  destruct (collectNotificationData_no_loss 2 busy_subscription)
    as (messages & Hrun & Hdata & Hevents & _).
  - reflexivity.
  - lia.
  - exists messages. eexists. split; [exact Hrun|].
    split; [exact Hdata|exact Hevents].
Defined.


Lemma tick_life_time_expiry_expiring :
  ∃ s', _tick expiring_subscription = Ret tt s'
    ∧ state s' = CLOSED
    ∧ timerId s' = None.
Proof.
  destruct (tick_life_time_expiry expiring_subscription)
    as (s' & Hrun & Hstate & Htimer & _).
  - reflexivity.
  - simpl. lia.
  - simpl. lia.
  - simpl. discriminate.
  - exists s'. repeat split; assumption.
Defined.

Lemma process_subscription_keep_alive_fresh :
  ∃ s', process_subscription (demo_subscription 1 true) = Ret tt s'
    ∧ _keep_alive_counter s' = 0
    ∧ _life_time_counter s' = 0
    ∧ keep_alives (publishEngine s') = [1].
Proof.
  destruct (process_subscription_idle (demo_subscription 1 true)
              (demo_subscription 1 true)) as [_ Hkeep_alive].
  - vm_compute. reflexivity.
  - left. reflexivity.
  - eexists. split.
    + apply Hkeep_alive; [simpl; lia|reflexivity].
    + repeat split.
Defined.

Lemma attempt_to_publish_queued :
  ∃ s', _attempt_to_publish_notification queued_subscription = Ret tt s'
    ∧ _sent_notifications s' = [sent_record_1]
    ∧ _pending_notifications s' = [].
Proof.
  destruct (attempt_to_publish_sends_head queued_subscription sent_record_1 [])
    as (s' & Hrun & _ & Hsent & Hpending & _).
  - reflexivity.
  - simpl. lia.
  - exists s'. repeat split; assumption.
Defined.

Lemma process_subscription_publishes_busy :
  ∃ s', process_subscription busy_subscription = Ret tt s'
    ∧ length (_sent_notifications s') = 1%nat
    ∧ length (_pending_notifications s') = 2%nat
    ∧ length (delivered (publishEngine s')) = 1%nat.
Proof.
  let o := eval vm_compute in (prepareNotification busy_subscription) in
  lazymatch o with
  | Ret _ ?s1 =>
      let p := eval vm_compute in (_pending_notifications s1) in
      lazymatch p with
      | ?r :: ?rest =>
          destruct (process_subscription_publishes busy_subscription s1 r rest)
            as (s' & message & Hrun & Hengine & _ & _ & Hsent & Hpending & _)
      end
  end.
  - vm_compute. reflexivity.
  - reflexivity.
  - reflexivity.
  - simpl. lia.
  - exists s'. rewrite Hsent, Hpending, Hengine. repeat split; assumption.
Defined.

Lemma first_tick_sends_keep_alive_demo :
  ∃ s s' : Subscription QueueEngine PlainItem,
    Subscription_new (demo_options 1 true) = Ret tt s
    ∧ _tick s = Ret tt s'
    ∧ keep_alives (publishEngine s') = [1]
    ∧ _keep_alive_counter s' = 0.
Proof.
  destruct (first_tick_sends_keep_alive (M:=PlainItem) (demo_options 1 true)
              {| parked := 0; answers_keep_alive := true;
                 delivered := []; keep_alives := [1] |})
    as (s & s' & Hnew & Htick & Hengine & _ & Hkeep & _).
  - simpl. lia.
  - reflexivity.
  - exists s, s'. rewrite Hengine. repeat split; assumption.
Defined.
